(** * Image-Tracker: a shallow embedding of [app.py] and its verified properties

    The Flask application is modelled handler by handler.  Python values that
    cross the dynamic boundaries of the program (session entries, fields of the
    geolocation answer, SQLite cells) are scalars of type [pyval]; a handler is
    a computation in a state-and-exception monad over the request context
    (session, flash queue, SQLite store, file system) that also keeps a trace
    of the external effects in the order the code performs them.

    Conventions of the model:
    - storage is reliable: SQLite statements and file writes into an existing
      directory succeed (disk-full, locked database and rowid exhaustion are
      not modelled);
    - the database is the file [generated/hits.db]: the tables are kept as
      SQLite reads them, every commit writes them back to that file in the
      tree of files, and nothing but SQLite writes it (the files [/make]
      writes are named [document_...]);
    - [os.path] is [posixpath], without symbolic links, and the process runs
      from the application directory, so Flask's [send_file] and
      [os.path.exists] resolve a relative path from the same place;
    - a SQLite cell holds the Python value bound to it: the conversions of
      column affinity, which leave the strings, floats and [None] the
      handlers bind as they are, are not modelled;
    - the WSGI server supplies the address of the peer with every request;
    - the rate limiter wraps the handlers from outside and is not part of
      them;
    - a Python float is an IEEE 754 double, the binary64 format of Rocq's
      primitive floats: every operation rounds to the nearest double, ties to
      even, as CPython's does. *)

From Stdlib Require Import ZArith Floats String Ascii List Lia.
From Stdlib Require Import Sorted Permutation.
From stdpp Require Import gmap strings list.

Local Open Scope string_scope.
Local Open Scope list_scope.
Local Open Scope Z_scope.

(** ** Python scalars *)

Inductive pyval :=
| PNone
| PBool (b : bool)
| PInt (z : Z)
| PFloat (f : float)
| PStr (s : string).

(** [bool(v)] *)
Definition truthy (v : pyval) : bool :=
  match v with
  | PNone => false
  | PBool b => b
  | PInt z => negb (z =? 0)
  | PFloat f => negb (f =? 0)%float
  | PStr s => negb (String.eqb s "")
  end.

(** [v == "literal"] for a string literal on the right *)
Definition py_eq_str (v : pyval) (lit : string) : bool :=
  match v with
  | PStr s => String.eqb s lit
  | _ => false
  end.

(** ** Python string methods used by the handlers *)

(** [s.split(sep)] for a one-character separator: never empty. *)
Fixpoint split_on (sep : ascii) (s : string) : list string :=
  match s with
  | EmptyString => [EmptyString]
  | String a s' =>
      if Ascii.eqb a sep then EmptyString :: split_on sep s'
      else match split_on sep s' with
           | h :: t => String a h :: t
           | [] => [String a EmptyString]
           end
  end.

(** [l[0]] and [l[-1]] on the result of a split *)
Definition first_item (l : list string) : string := hd EmptyString l.
Definition last_item (l : list string) : string := List.last l EmptyString.

(** The characters [str.strip()] removes, for text decoded as latin-1 (the
    WSGI encoding of header values): [str.isspace]. *)
Definition is_space (a : ascii) : bool :=
  let n := N_of_ascii a in
  ((9 <=? n) && (n <=? 13) || (28 <=? n) && (n <=? 32)
   || (n =? 133) || (n =? 160))%N.

Fixpoint lstrip (s : string) : string :=
  match s with
  | EmptyString => EmptyString
  | String a s' => if is_space a then lstrip s' else s
  end.

Fixpoint rstrip (s : string) : string :=
  match s with
  | EmptyString => EmptyString
  | String a s' =>
      match rstrip s' with
      | EmptyString => if is_space a then EmptyString else String a EmptyString
      | r => String a r
      end
  end.

Definition strip (s : string) : string := rstrip (lstrip s).

(** [s.lower()] on the ASCII letters; the other characters never lower to a
    letter of the extensions the handlers look up. *)
Definition lower_ascii (a : ascii) : ascii :=
  let n := N_of_ascii a in
  if ((65 <=? n) && (n <=? 90))%N then ascii_of_N (n + 32) else a.

Fixpoint lower (s : string) : string :=
  match s with
  | EmptyString => EmptyString
  | String a s' => String (lower_ascii a) (lower s')
  end.

(** [s[:n]] *)
Fixpoint take_chars (n : nat) (s : string) : string :=
  match n, s with
  | O, _ => EmptyString
  | S n', String a s' => String a (take_chars n' s')
  | S _, EmptyString => EmptyString
  end.

(** [c in s] for a character *)
Fixpoint has_char (c : ascii) (s : string) : bool :=
  match s with
  | EmptyString => false
  | String a s' => Ascii.eqb a c || has_char c s'
  end.

(** ** Exceptions and the handler monad *)

Definition exn := string.

Inductive outcome (A : Type) :=
| Ok (a : A)
| Raise (e : exn).
Arguments Ok {A} a.
Arguments Raise {A} e.

(** ** The SQLite store *)

Record hit_row := {
  hit_id : Z;
  hit_doc_ref : string;
  hit_user_id : pyval;
  hit_ip : string;
  hit_ua : string;
  hit_ts : string;
  hit_lat : pyval;
  hit_lon : pyval;
  hit_city : pyval;
  hit_region : pyval;
  hit_country : pyval
}.

(** The ten values bound to the placeholders of the INSERT statement. *)
Record hit_values := {
  v_doc_ref : string;
  v_user_id : pyval;
  v_ip : string;
  v_ua : string;
  v_ts : string;
  v_lat : pyval;
  v_lon : pyval;
  v_city : pyval;
  v_region : pyval;
  v_country : pyval
}.

Record user_row := {
  user_id_col : Z;
  username : string;
  password : string
}.

(** Table [hits] in insertion order, the [sqlite_sequence] entry that
    AUTOINCREMENT keeps for it, and table [users]. *)
Record DB := {
  hits : list hit_row;
  hits_seq : Z;
  users : list user_row
}.

(** [CREATE TABLE IF NOT EXISTS] twice: an existing store is kept. *)
Definition init_db (d : option DB) : DB :=
  match d with
  | Some db => db
  | None => {| hits := []; hits_seq := 0; users := [] |}
  end.

Definition max_rowid (rows : list hit_row) : Z :=
  fold_right (fun r m => Z.max (hit_id r) m) 0 rows.

(** The rowid AUTOINCREMENT assigns: one more than the largest rowid the
    table holds or has ever held. *)
Definition next_rowid (db : DB) : Z :=
  Z.max (hits_seq db) (max_rowid (hits db)) + 1.

Definition row_of (id : Z) (v : hit_values) : hit_row :=
  {| hit_id := id; hit_doc_ref := v_doc_ref v; hit_user_id := v_user_id v;
     hit_ip := v_ip v; hit_ua := v_ua v; hit_ts := v_ts v;
     hit_lat := v_lat v; hit_lon := v_lon v; hit_city := v_city v;
     hit_region := v_region v; hit_country := v_country v |}.

Definition values_of (r : hit_row) : hit_values :=
  {| v_doc_ref := hit_doc_ref r; v_user_id := hit_user_id r;
     v_ip := hit_ip r; v_ua := hit_ua r; v_ts := hit_ts r;
     v_lat := hit_lat r; v_lon := hit_lon r; v_city := hit_city r;
     v_region := hit_region r; v_country := hit_country r |}.

(** [INSERT INTO hits (doc_ref, ..., country) VALUES (?,...,?)] *)
Definition sql_insert_hit (db : DB) (v : hit_values) : DB :=
  let id := next_rowid db in
  {| hits := hits db ++ [row_of id v]; hits_seq := id; users := users db |}.

(** [ORDER BY id DESC]: insertion into a list sorted by decreasing id. *)
Fixpoint insert_desc (r : hit_row) (l : list hit_row) : list hit_row :=
  match l with
  | [] => [r]
  | r' :: l' =>
      if hit_id r' <? hit_id r then r :: l else r' :: insert_desc r l'
  end.

Definition order_by_id_desc (rows : list hit_row) : list hit_row :=
  fold_right insert_desc [] rows.

(** [LIMIT ?]: a negative bound means no bound in SQLite. *)
Definition sql_limit (limit : Z) (rows : list hit_row) : list hit_row :=
  if limit <? 0 then rows else firstn (Z.to_nat limit) rows.

(** [SELECT * FROM hits ORDER BY id DESC LIMIT ?] *)
Definition sql_select_hits (db : DB) (limit : Z) : list hit_row :=
  sql_limit limit (order_by_id_desc (hits db)).

(** ** Images and PDF documents *)

(** A PIL image: mode, size and the pixels in row-major order, each pixel the
    list of its channel values. *)
Record Image := {
  im_mode : string;
  im_width : Z;
  im_height : Z;
  im_pixels : list (list Z)
}.

(** [Image.new(mode, (w, h), color)] *)
Definition Image_new (mode : string) (size : Z * Z) (color : list Z) : Image :=
  {| im_mode := mode; im_width := fst size; im_height := snd size;
     im_pixels := repeat color (Z.to_nat (fst size * snd size)) |}.

Definition rect := (float * float * float * float)%type.

(** What a reportlab canvas is asked to put on a page. *)
Inductive pdf_op :=
| OpDrawImage (img : Image) (x y w h : float) (preserveAspectRatio : bool)
    (mask : string)
| OpLinkURL (url : string) (r : rect) (relative : Z).

Record pdf_page := {
  pg_size : float * float;
  pg_ops : list pdf_op
}.

Record Canvas := {
  cv_filename : string;
  cv_pagesize : float * float;
  cv_code : list pdf_op;
  cv_pages : list pdf_page
}.

(** [reportlab.lib.units.inch] and [reportlab.lib.pagesizes.letter] *)
Definition inch : float := 72%float.
Definition letter : float * float := (8.5 * inch, 11 * inch)%float.

Definition canvas_Canvas (filename : string) (pagesize : float * float)
  : Canvas :=
  {| cv_filename := filename; cv_pagesize := pagesize;
     cv_code := []; cv_pages := [] |}.

Definition canvas_add (op : pdf_op) (c : Canvas) : Canvas :=
  {| cv_filename := cv_filename c; cv_pagesize := cv_pagesize c;
     cv_code := cv_code c ++ [op]; cv_pages := cv_pages c |}.

Definition showPage (c : Canvas) : Canvas :=
  {| cv_filename := cv_filename c; cv_pagesize := cv_pagesize c;
     cv_code := [];
     cv_pages := cv_pages c
                 ++ [{| pg_size := cv_pagesize c; pg_ops := cv_code c |}] |}.

(** The pages [save()] writes: a page still open is closed first. *)
Definition saved_pages (c : Canvas) : list pdf_page :=
  match cv_code c with
  | [] => cv_pages c
  | _ :: _ => cv_pages (showPage c)
  end.

(** ** The file system *)

Inductive content :=
| Bytes (data : string)
| PngFile (img : Image)
| PdfFile (pages : list pdf_page)
| SqliteFile (db : DB).

#[warnings="-register-all"]
Inductive node :=
| File (c : content)
| Dir (entries : list (string * node)).

Fixpoint find_entry (name : string) (es : list (string * node)) : option node :=
  match es with
  | [] => None
  | (k, n) :: es' => if String.eqb k name then Some n else find_entry name es'
  end.

Fixpoint set_entry (name : string) (new : node) (es : list (string * node))
  : list (string * node) :=
  match es with
  | [] => [(name, new)]
  | (k, n) :: es' =>
      if String.eqb k name then (k, new) :: es'
      else (k, n) :: set_entry name new es'
  end.

(** The node at a location, given as the names from the root down. *)
Fixpoint lookup_node (n : node) (loc : list string) : option node :=
  match loc with
  | [] => Some n
  | c :: loc' =>
      match n with
      | Dir es =>
          match find_entry c es with
          | Some n' => lookup_node n' loc'
          | None => None
          end
      | File _ => None
      end
  end.

(** Put [new] at a location whose parent directory exists. *)
Fixpoint set_node (n : node) (loc : list string) (new : node) : option node :=
  match loc with
  | [] => Some new
  | c :: loc' =>
      match n with
      | Dir es =>
          match find_entry c es with
          | Some n' =>
              match set_node n' loc' new with
              | Some n'' => Some (Dir (set_entry c n'' es))
              | None => None
              end
          | None =>
              match loc' with
              | [] => Some (Dir (set_entry c new es))
              | _ :: _ => None
              end
          end
      | File _ => None
      end
  end.

(** [posixpath.join(a, b)] *)
Definition ends_with_slash (s : string) : bool :=
  String.eqb (last_item (split_on "/" s)) "" && negb (String.eqb s "").

Definition starts_with_slash (s : string) : bool :=
  match s with
  | String a _ => Ascii.eqb a "/"
  | EmptyString => false
  end.

Definition path_join (a b : string) : string :=
  if starts_with_slash b then b
  else if String.eqb a "" || ends_with_slash a then a +:+ b
  else a +:+ "/" +:+ b.

(** Path resolution as the kernel does it: every name but the last must be a
    directory, ["."] and the empty name stay in place, [".."] moves to the
    parent (the root is its own parent). *)
Fixpoint walk (root : node) (cur : list string) (names : list string)
  : option (list string) :=
  match names with
  | [] => Some cur
  | c :: cs =>
      match lookup_node root cur with
      | Some (Dir es) =>
          if String.eqb c "" || String.eqb c "." then walk root cur cs
          else if String.eqb c ".." then walk root (removelast cur) cs
          else match find_entry c es with
               | Some _ => walk root (cur ++ [c]) cs
               | None => None
               end
      | _ => None
      end
  end.

Definition resolve (root : node) (cwd : list string) (path : string)
  : option (list string) :=
  if String.eqb path "" then None
  else walk root (if starts_with_slash path then [] else cwd)
         (split_on "/" path).

Definition stat (root : node) (cwd : list string) (path : string)
  : option (list string * node) :=
  match resolve root cwd path with
  | Some loc =>
      match lookup_node root loc with
      | Some n => Some (loc, n)
      | None => None
      end
  | None => None
  end.

(** [open(path, "wb")] followed by the write: the parent must resolve to a
    directory and the last name must not name a directory. *)
Definition write_file (root : node) (cwd : list string) (path : string)
    (c : content) : outcome node :=
  let names := split_on "/" path in
  let base := last_item names in
  if String.eqb path "" then Raise "FileNotFoundError"
  else if String.eqb base "" || String.eqb base "." || String.eqb base ".."
  then Raise "IsADirectoryError"
  else
    match walk root (if starts_with_slash path then [] else cwd)
            (removelast names) with
    | Some ploc =>
        match lookup_node root ploc with
        | Some (Dir es) =>
            match find_entry base es with
            | Some (Dir _) => Raise "IsADirectoryError"
            | _ =>
                match set_node root (ploc ++ [base]) (File c) with
                | Some root' => Ok root'
                | None => Raise "FileNotFoundError"
                end
            end
        | _ => Raise "NotADirectoryError"
        end
    | None => Raise "FileNotFoundError"
    end.

(** ** Request context and handler monad *)

Inductive event :=
| EvHttpGet (url : string)
| EvSqlInsert (r : hit_row)
| EvSqlSelect (limit : Z)
| EvExists (path : string)
| EvOpen (path : string)
| EvWrite (path : string) (c : content).

Record State := {
  st_session : gmap string pyval;
  st_flashes : list (string * string);
  st_db : DB;
  st_fs : node;
  st_trace : list event
}.

Definition M (A : Type) : Type := State -> outcome A * State.

Definition ret {A} (a : A) : M A := fun st => (Ok a, st).

Definition bind {A B} (m : M A) (k : A -> M B) : M B :=
  fun st =>
    match m st with
    | (Ok a, st') => k a st'
    | (Raise e, st') => (Raise e, st')
    end.

Definition raise {A} (e : exn) : M A := fun st => (Raise e, st).

(** [try: body  except: handler] with a bare [except] *)
Definition try_except {A} (body : M A) (handler : exn -> M A) : M A :=
  fun st =>
    match body st with
    | (Ok a, st') => (Ok a, st')
    | (Raise e, st') => handler e st'
    end.

Notation "'let*' x ':=' m 'in' k" := (bind m (fun x => k))
  (at level 10, x name, m at level 100, k at level 200).

Definition get_state : M State := fun st => (Ok st, st).

Definition log_event (e : event) : M unit :=
  fun st =>
    (Ok tt, {| st_session := st_session st; st_flashes := st_flashes st;
               st_db := st_db st; st_fs := st_fs st;
               st_trace := st_trace st ++ [e] |}).

Definition put_db (d : DB) : M unit :=
  fun st =>
    (Ok tt, {| st_session := st_session st; st_flashes := st_flashes st;
               st_db := d; st_fs := st_fs st; st_trace := st_trace st |}).

Definition put_fs (root : node) : M unit :=
  fun st =>
    (Ok tt, {| st_session := st_session st; st_flashes := st_flashes st;
               st_db := st_db st; st_fs := root; st_trace := st_trace st |}).

Definition put_session (s : gmap string pyval) : M unit :=
  fun st =>
    (Ok tt, {| st_session := s; st_flashes := st_flashes st;
               st_db := st_db st; st_fs := st_fs st;
               st_trace := st_trace st |}).

(** [session.clear()]: the entries go, and with them the queued flashes,
    which Flask keeps in the session. *)
Definition session_clear : M unit :=
  fun st =>
    (Ok tt, {| st_session := ∅; st_flashes := [];
               st_db := st_db st; st_fs := st_fs st;
               st_trace := st_trace st |}).

(** [session.get(key, default)] *)
Definition session_get (key : string) (dflt : pyval) : M pyval :=
  fun st => (Ok (default dflt (st_session st !! key)), st).

(** [flash(message, category)]: the queue of flashed messages, which Flask
    stores under a key of its own, is kept apart from the entries the
    handlers read and write in [session]. *)
Definition flash (message category : string) : M unit :=
  fun st =>
    (Ok tt, {| st_session := st_session st;
               st_flashes := st_flashes st ++ [(category, message)];
               st_db := st_db st; st_fs := st_fs st;
               st_trace := st_trace st |}).

Definition lift {A} (o : outcome A) : M A := fun st => (o, st).

(** ** Flask requests and responses *)

Record FileStorage := {
  fs_filename : string;
  fs_stream : string
}.

(** The parts of a request the handlers read; [req_origin] is the scheme
    and host that [_external=True] puts in front of a generated URL. *)
Record Request := {
  req_method : string;
  req_x_forwarded_for : option string;
  req_user_agent : option string;
  req_remote_addr : string;
  req_form : list (string * string);
  req_files : list (string * FileStorage);
  req_origin : string
}.

Inductive tval :=
| TStr (s : string)
| TVal (v : pyval)
| TRows (rows : list hit_row).

Inductive response :=
| RenderTemplate (name : string) (context : list (string * tval))
| Redirect (location : string)
| Text (body : string) (status : Z)
| SendFile (path : string) (body : content) (as_attachment : bool)
    (download_name : string) (mimetype : string).

(** [d.get(key)] on an association list: first binding. *)
Fixpoint assoc_get {V} (key : string) (d : list (string * V)) : option V :=
  match d with
  | [] => None
  | (k, v) :: d' => if String.eqb k key then Some v else assoc_get key d'
  end.

(** *** URL building *)

Definition hex_digit (n : N) : ascii :=
  if (n <? 10)%N then ascii_of_N (48 + n) else ascii_of_N (55 + n).

Definition is_alnum (a : ascii) : bool :=
  let n := N_of_ascii a in
  ((48 <=? n) && (n <=? 57) || (65 <=? n) && (n <=? 90)
   || (97 <=? n) && (n <=? 122))%N.

(** Characters the routing converter leaves as they are when it builds a URL:
    the unreserved ones and ["!$&'()*+,/:;=@"]; the others are
    percent-encoded. *)
Definition url_safe (a : ascii) : bool :=
  is_alnum a || has_char a "_.-~" || has_char a "!$&'()*+,/:;=@".

Fixpoint url_quote (s : string) : string :=
  match s with
  | EmptyString => EmptyString
  | String a s' =>
      if url_safe a then String a (url_quote s')
      else
        let n := N_of_ascii a in
        String "%" (String (hex_digit (n / 16)) (String (hex_digit (n mod 16))
          (url_quote s')))
  end.

Inductive endpoint :=
| ep_index
| ep_login
| ep_logout
| ep_make
| ep_clickable_redirect (doc_ref : string)
| ep_dl_pdf (doc_ref pdfname : string)
| ep_download_generated (name : string)
| ep_logs.

(** The path of each route, with its arguments filled in. *)
Definition url_path (ep : endpoint) : string :=
  match ep with
  | ep_index => "/"
  | ep_login => "/login"
  | ep_logout => "/logout"
  | ep_make => "/make"
  | ep_clickable_redirect doc_ref => "/click/" +:+ url_quote doc_ref
  | ep_dl_pdf doc_ref pdfname =>
      "/dl_pdf/" +:+ url_quote doc_ref +:+ "/" +:+ url_quote pdfname
  | ep_download_generated name => "/download_generated/" +:+ url_quote name
  | ep_logs => "/logs"
  end.

Definition url_for (req : Request) (ep : endpoint) (_external : bool)
  : string :=
  if _external then req_origin req +:+ url_path ep else url_path ep.

(** The default converter of a route argument such as [<name>]: one path
    segment, not empty and without a slash. *)
Definition string_converter (seg : string) : bool :=
  negb (String.eqb seg "") && negb (has_char "/" seg).

(** *** The answer of the geolocation service *)

(** What [requests.get(url, timeout=4).json()] does: it raises (connection
    error, timeout, a body that is not JSON) or returns the decoded body, a
    JSON object, whose fields are scalars as the service documents them, or
    a JSON value of another kind. *)
Inductive json_answer :=
| GetRaises (e : exn)
| JsonObject (fields : list (string * pyval))
| JsonOther.

(** [r.get(key)] *)
Definition dict_get (fields : list (string * pyval)) (key : string) : pyval :=
  default PNone (assoc_get key fields).

Definition geo := (pyval * pyval * pyval * pyval * pyval)%type.

(** [float(z)], the conversion Python applies to an [int] operand that
    meets a [float]: the nearest double.  (Past the largest double Python
    raises [OverflowError]; the integers converted here are literals and the
    width and height of an image, which PIL keeps in C [int]s.) *)
Definition float_of_int (z : Z) : float :=
  SF2Prim (binary_normalize prec emax z 0 false).

(** [min(a, b)]: the first argument unless the second is smaller. *)
Definition py_min (a b : float) : float := if (b <? a)%float then b else a.

(** [a / b] with a [float] dividend and an [int] divisor *)
Definition true_div (a : float) (b : Z) : outcome float :=
  if b =? 0 then Raise "ZeroDivisionError"
  else Ok (a / float_of_int b)%float.

(** [if url:] on an optional string *)
Definition str_truthy (o : option string) : bool :=
  match o with
  | Some s => negb (String.eqb s "")
  | None => false
  end.

(** ** The application *)

Section App.

(** The surroundings of the process: its environment variables, the network
    as seen through [requests.get(...).json()], PIL's decoder and mode
    conversion, and the place of the working directory in the file system. *)
Variable environ : gmap string string.
Variable http_get_json : string -> json_answer.
Variable Image_open : string -> outcome Image.
Variable Image_convert : Image -> string -> outcome Image.
Variable cwd : list string.

Definition APP_SECRET : string :=
  default "dev_secret_change_this" (environ !! "SECRET_KEY").
Definition ADMIN_PASS : string := default "admin" (environ !! "ADMIN_PASS").
Definition OUTDIR : string := "generated".
Definition DB_FILE : string := path_join "generated" "hits.db".

(** *** Database helpers *)

(** The database is the file [DB_FILE] in the output directory: [st_db] is
    what SQLite reads from it, and a commit writes the table back to it.
    (Without the output directory SQLite could not open the file; storage
    being taken as reliable, the rows are then kept and the tree is left
    alone.) *)
Definition database_file (db : DB) (root : node) : node :=
  match write_file root cwd DB_FILE (SqliteFile db) with
  | Ok root' => root'
  | Raise _ => root
  end.

(** [conn.commit()] *)
Definition commit (db : DB) : M unit :=
  let* st := get_state in
  let* _ := put_db db in
  put_fs (database_file db (st_fs st)).

(** [utcnow] is the reading [datetime.datetime.utcnow().isoformat()] of the
    clock at the call. *)
Definition insert_hit (utcnow : string) (doc_ref : string) (user_id : pyval)
    (ip ua : string) (lat lon city region country : pyval) : M unit :=
  let* st := get_state in
  let v := {| v_doc_ref := doc_ref; v_user_id := user_id; v_ip := ip;
              v_ua := ua; v_ts := utcnow +:+ "Z"; v_lat := lat; v_lon := lon;
              v_city := city; v_region := region; v_country := country |} in
  let* _ := log_event (EvSqlInsert (row_of (next_rowid (st_db st)) v)) in
  commit (sql_insert_hit (st_db st) v).

Definition fetch_hits_default_limit : Z := 1000.

Definition fetch_hits (limit : Z) : M (list hit_row) :=
  let* st := get_state in
  let* _ := log_event (EvSqlSelect limit) in
  ret (sql_select_hits (st_db st) limit).

(** *** Geolocation helper *)

Definition geo_url (ip : string) : string :=
  "http://ip-api.com/json/" +:+ ip
  +:+ "?fields=status,message,lat,lon,city,regionName,country".

Definition requests_get_json (url : string) : M (list (string * pyval)) :=
  let* _ := log_event (EvHttpGet url) in
  match http_get_json url with
  | GetRaises e => raise e
  | JsonObject fields => ret fields
  | JsonOther => raise "AttributeError"
  end.

Definition geo_ip (ip : string) : M geo :=
  let* found :=
    try_except
      (let* r := requests_get_json (geo_url ip) in
       if py_eq_str (dict_get r "status") "success"
       then ret (Some (dict_get r "lat", dict_get r "lon", dict_get r "city",
                       dict_get r "regionName", dict_get r "country"))
       else ret None)
      (fun _ => ret None) in
  match found with
  | Some g => ret g
  | None => ret (PNone, PNone, PNone, PNone, PNone)
  end.

(** *** PDF helper *)

(** [ImageReader(image_path)] and [getSize()]: the file is opened and must
    hold an image. *)
Definition ImageReader (image_path : string) : M Image :=
  let* st := get_state in
  let* _ := log_event (EvOpen image_path) in
  match stat (st_fs st) cwd image_path with
  | Some (_, File (PngFile img)) => ret img
  | Some (_, File _) => raise "UnidentifiedImageError"
  | Some (_, Dir _) => raise "IsADirectoryError"
  | None => raise "FileNotFoundError"
  end.

(** Writing a file at [path]. *)
Definition save_file (path : string) (c : content) : M unit :=
  let* st := get_state in
  let* _ := log_event (EvWrite path c) in
  let* root := lift (write_file (st_fs st) cwd path c) in
  put_fs root.

Definition create_pdf_with_clickable_image (image_path pdf_path : string)
    (page_size : float * float) (url : option string) : M unit :=
  let c := canvas_Canvas pdf_path page_size in
  let '(width, height) := page_size in
  let* img := ImageReader image_path in
  let '(iw, ih) := (im_width img, im_height img) in
  let margin : Z := 36 in
  let '(max_w, max_h) :=
    (width - float_of_int (2 * margin),
     height - float_of_int (2 * margin))%float in
  let* sw := lift (true_div max_w iw) in
  let* sh := lift (true_div max_h ih) in
  let scale := py_min sw sh in
  let '(draw_w, draw_h) :=
    (float_of_int iw * scale, float_of_int ih * scale)%float in
  let x := ((width - draw_w) / float_of_int 2)%float in
  let y := ((height - draw_h) / float_of_int 2)%float in
  let c := canvas_add (OpDrawImage img x y draw_w draw_h true "auto") c in
  let c :=
    if str_truthy url
    then canvas_add
           (OpLinkURL (default "" url)
              (x, y, x + draw_w, y + draw_h)%float 0) c
    else c in
  let c := showPage c in
  save_file (cv_filename c) (PdfFile (saved_pages c)).

(** *** Routes *)

Definition index : M response :=
  let* a := session_get "admin" (PBool false) in
  ret (RenderTemplate "index.html" [("logged_in", TVal a)]).

Definition login (req : Request) : M response :=
  if String.eqb (req_method req) "POST" then
    if String.eqb (default "" (assoc_get "password" (req_form req))) ADMIN_PASS
    then
      let* st := get_state in
      let* _ := put_session (<["admin" := PBool true]> (st_session st)) in
      ret (Redirect (url_for req ep_make false))
    else
      let* _ := flash "Wrong password" "error" in
      ret (RenderTemplate "login.html" [])
  else ret (RenderTemplate "login.html" []).

Definition logout (req : Request) : M response :=
  let* _ := session_clear in
  ret (Redirect (url_for req ep_index false)).

(** [request.headers.get("X-Forwarded-For", request.remote_addr)
      .split(",")[0].strip()] *)
Definition client_ip (req : Request) : string :=
  strip (first_item (split_on ","
    (default (req_remote_addr req) (req_x_forwarded_for req)))).

(** [file and file.filename]: an upload counts when the field is present and
    carries a file name. *)
Definition supplied (file : option FileStorage) : option FileStorage :=
  match file with
  | Some f => if String.eqb (fs_filename f) "" then None else Some f
  | None => None
  end.

(** [uuid] is the value [shortuuid.uuid()] returns in this call. *)
Definition make (req : Request) (uuid : string) : M response :=
  let* a := session_get "admin" PNone in
  if negb (truthy a) then ret (Redirect (url_for req ep_login false))
  else if String.eqb (req_method req) "POST" then
    let mode := default "png" (assoc_get "mode" (req_form req)) in
    let file := assoc_get "image" (req_files req) in
    let* base_image :=
      match supplied file with
      | Some f =>
          let* im := lift (Image_open (fs_stream f)) in
          lift (Image_convert im "RGBA")
      | None => ret (Image_new "RGBA" (800, 600) [255; 255; 255; 255])
      end in
    let doc_ref := take_chars 8 uuid in
    let fname := "document_" +:+ doc_ref +:+ ".png" in
    let fpath := path_join OUTDIR fname in
    let* _ := save_file fpath (PngFile base_image) in
    let url := url_for req (ep_clickable_redirect doc_ref) true in
    let pdf_name := "document_" +:+ doc_ref +:+ ".pdf" in
    let pdf_path := path_join OUTDIR pdf_name in
    let* _ := create_pdf_with_clickable_image fpath pdf_path letter
                (Some url) in
    ret (RenderTemplate "made_file.html"
           [("doc_ref", TStr doc_ref);
            ("file_url", TStr (url_for req (ep_download_generated fname) true));
            ("file_kind", TStr "PNG");
            ("pdf_url",
             TStr (url_for req (ep_download_generated pdf_name) true));
            ("dl_pdf_url",
             TStr (url_for req (ep_dl_pdf doc_ref pdf_name) true))])
  else ret (RenderTemplate "make.html" []).

Definition os_path_exists (path : string) : M bool :=
  let* st := get_state in
  let* _ := log_event (EvExists path) in
  ret (bool_decide (is_Some (stat (st_fs st) cwd path))).

Definition send_file (path : string) (as_attachment : bool)
    (download_name mimetype : string) : M response :=
  let* st := get_state in
  let* _ := log_event (EvOpen path) in
  match stat (st_fs st) cwd path with
  | Some (_, File c) =>
      ret (SendFile path c as_attachment download_name mimetype)
  | Some (_, Dir _) => raise "IsADirectoryError"
  | None => raise "FileNotFoundError"
  end.

Definition clickable_redirect (req : Request) (utcnow : string)
    (doc_ref : string) : M response :=
  let ip := client_ip req in
  let ua := default "" (req_user_agent req) in
  let* g := geo_ip ip in
  let '(lat, lon, city, region, country) := g in
  let* user_id := session_get "user_id" (PStr "anonymous") in
  let* _ := insert_hit utcnow doc_ref user_id ip ua lat lon city region
              country in
  ret (Redirect "https://your-site.com/thank-you").

Definition dl_pdf (req : Request) (utcnow : string) (doc_ref pdfname : string)
  : M response :=
  let ip := client_ip req in
  let ua := default "" (req_user_agent req) in
  let* g := geo_ip ip in
  let '(lat, lon, city, region, country) := g in
  let* user_id := session_get "user_id" (PStr "anonymous") in
  let* _ := insert_hit utcnow doc_ref user_id ip ua lat lon city region
              country in
  let path := path_join OUTDIR pdfname in
  let* e := os_path_exists path in
  if negb e then ret (Text "Not found" 404)
  else send_file path true pdfname "application/pdf".

Definition mime_map : list (string * string) :=
  [("svg", "image/svg+xml"); ("png", "image/png"); ("pdf", "application/pdf")].

Definition download_generated (name : string) : M response :=
  let path := path_join OUTDIR name in
  let* e := os_path_exists path in
  if negb e then ret (Text "Not found" 404)
  else
    let ext := last_item (split_on "." (lower name)) in
    send_file path true name
      (default "application/octet-stream" (assoc_get ext mime_map)).

Definition logs (req : Request) : M response :=
  let* a := session_get "admin" PNone in
  if negb (truthy a) then ret (Redirect (url_for req ep_login false))
  else
    let* rows := fetch_hits fetch_hits_default_limit in
    ret (RenderTemplate "logs.html" [("table_data", TRows rows)]).

End App.

(** ** Routing of the download endpoints *)

Section Routing.

Variable http_get_json : string -> json_answer.
Variable cwd : list string.

(** [@app.route("/download_generated/<name>")]: the path has exactly the
    segments of the rule, and the argument passes the converter. *)
Definition route_download_generated (path_info : string) : option string :=
  match split_on "/" path_info with
  | [root; literal; name] =>
      if String.eqb root "" && String.eqb literal "download_generated"
         && string_converter name
      then Some name else None
  | _ => None
  end.

(** [@app.route("/dl_pdf/<doc_ref>/<pdfname>")] *)
Definition route_dl_pdf (path_info : string) : option (string * string) :=
  match split_on "/" path_info with
  | [root; literal; doc_ref; pdfname] =>
      if String.eqb root "" && String.eqb literal "dl_pdf"
         && string_converter doc_ref && string_converter pdfname
      then Some (doc_ref, pdfname) else None
  | _ => None
  end.

(** A GET request for [path_info], as far as the download endpoints go: the
    handler of the matching rule, or the router's 404. *)
Definition serve_download (req : Request) (utcnow path_info : string)
  : M response :=
  match route_dl_pdf path_info with
  | Some (doc_ref, pdfname) =>
      dl_pdf http_get_json cwd req utcnow doc_ref pdfname
  | None =>
      match route_download_generated path_info with
      | Some name => download_generated cwd name
      | None => ret (Text "Not Found" 404)
      end
  end.

End Routing.

(** * Vocabulary of the statements *)

Definition add_event (st : State) (e : event) : State :=
  {| st_session := st_session st; st_flashes := st_flashes st;
     st_db := st_db st; st_fs := st_fs st; st_trace := st_trace st ++ [e] |}.

Definition with_db (st : State) (d : DB) : State :=
  {| st_session := st_session st; st_flashes := st_flashes st;
     st_db := d; st_fs := st_fs st; st_trace := st_trace st |}.

Definition with_fs (st : State) (root : node) : State :=
  {| st_session := st_session st; st_flashes := st_flashes st;
     st_db := st_db st; st_fs := root; st_trace := st_trace st |}.

(** What one call of [insert_hit] leaves in the table, but for the id. *)
Definition stored (v : hit_values) : hit_values :=
  {| v_doc_ref := v_doc_ref v; v_user_id := v_user_id v; v_ip := v_ip v;
     v_ua := v_ua v; v_ts := v_ts v +:+ "Z"; v_lat := v_lat v;
     v_lon := v_lon v; v_city := v_city v; v_region := v_region v;
     v_country := v_country v |}.

(** [record()] with the arguments and the clock reading of [v]. *)
Definition record (cwd : list string) (v : hit_values) : M unit :=
  insert_hit cwd (v_ts v) (v_doc_ref v) (v_user_id v) (v_ip v) (v_ua v)
    (v_lat v) (v_lon v) (v_city v) (v_region v) (v_country v).

Fixpoint record_all (cwd : list string) (calls : list hit_values) : M unit :=
  match calls with
  | [] => ret tt
  | v :: calls' => let* _ := record cwd v in record_all cwd calls'
  end.

(** Rows numbered upwards from [id]. *)
Fixpoint number_from (id : Z) (vs : list hit_values) : list hit_row :=
  match vs with
  | [] => []
  | v :: vs' => row_of id v :: number_from (id + 1) vs'
  end.

(** The lookup fails: the call raised (timeouts included), or what came back
    has no ["status"] field equal to ["success"]. *)
Inductive lookup_fails : json_answer -> Prop :=
| fails_raise e : lookup_fails (GetRaises e)
| fails_not_object : lookup_fails JsonOther
| fails_status fields :
    assoc_get "status" fields <> Some (PStr "success") ->
    lookup_fails (JsonObject fields).

(** The tuple [geo_ip] returns, as a function of the answer to its lookup. *)
Definition geo_of (a : json_answer) : geo :=
  match a with
  | JsonObject r =>
      if py_eq_str (dict_get r "status") "success"
      then (dict_get r "lat", dict_get r "lon", dict_get r "city",
            dict_get r "regionName", dict_get r "country")
      else (PNone, PNone, PNone, PNone, PNone)
  | _ => (PNone, PNone, PNone, PNone, PNone)
  end.

Section Tracked.

Variable http_get_json : string -> json_answer.
Variable cwd : list string.

(** The values a tracked access records: the address the request came from,
    the answer of the lookup made for that address, the clock reading. *)
Definition recorded (req : Request) (utcnow doc_ref : string) (st : State)
  : hit_values :=
  let ip := client_ip req in
  let '(lat, lon, city, region, country) :=
    geo_of (http_get_json (geo_url ip)) in
  {| v_doc_ref := doc_ref;
     v_user_id := default (PStr "anonymous") (st_session st !! "user_id");
     v_ip := ip; v_ua := default "" (req_user_agent req);
     v_ts := utcnow +:+ "Z"; v_lat := lat; v_lon := lon; v_city := city;
     v_region := region; v_country := country |}.

Definition recorded_row (req : Request) (utcnow doc_ref : string) (st : State)
  : hit_row :=
  row_of (next_rowid (st_db st)) (recorded req utcnow doc_ref st).

(** The context after the lookup and the insert of a tracked access: the
    row is in the table, and the database file holds the table. *)
Definition tracked (req : Request) (utcnow doc_ref : string) (st : State)
  : State :=
  let db := sql_insert_hit (st_db st) (recorded req utcnow doc_ref st) in
  with_fs
    (with_db
       (add_event (add_event st (EvHttpGet (geo_url (client_ip req))))
          (EvSqlInsert (recorded_row req utcnow doc_ref st)))
       db)
    (database_file cwd db (st_fs st)).

End Tracked.

(** Where the image goes on a page of size [page_size]: the lower left
    corner and the drawn width and height, as
    [create_pdf_with_clickable_image] computes them. *)
Definition placement (page_size : float * float) (iw ih : Z) : rect :=
  let '(width, height) := page_size in
  let '(max_w, max_h) := (width - 72, height - 72)%float in
  let scale :=
    py_min (max_w / float_of_int iw)%float (max_h / float_of_int ih)%float in
  let '(draw_w, draw_h) :=
    (float_of_int iw * scale, float_of_int ih * scale)%float in
  (((width - draw_w) / 2)%float, ((height - draw_h) / 2)%float,
   draw_w, draw_h).

(** The page the helper puts together for an image and a link target. *)
Definition clickable_page (page_size : float * float) (img : Image)
    (url : option string) : pdf_page :=
  let '(x, y, w, h) := placement page_size (im_width img) (im_height img) in
  {| pg_size := page_size;
     pg_ops :=
       OpDrawImage img x y w h true "auto"
       :: (if str_truthy url
           then [OpLinkURL (default "" url) (x, y, x + w, y + h)%float 0]
           else []) |}.

(** A name that is one path segment and names neither the directory itself
    nor its parent. *)
Definition plain_name (name : string) : bool :=
  string_converter name && negb (String.eqb name ".")
  && negb (String.eqb name "..").

(** The link annotations of a page: target and rectangle. *)
Definition links_of (ops : list pdf_op) : list (string * rect) :=
  flat_map (fun op => match op with
                      | OpLinkURL url r _ => [(url, r)]
                      | OpDrawImage _ _ _ _ _ _ _ => []
                      end) ops.

(** The boxes images are drawn in: lower left and upper right corner. *)
Definition image_boxes (ops : list pdf_op) : list rect :=
  flat_map (fun op => match op with
                      | OpDrawImage _ x y w h _ _ =>
                          [(x, y, x + w, y + h)%float]
                      | OpLinkURL _ _ _ => []
                      end) ops.

(** [sub] occurs in [s]. *)
Definition contains (s sub : string) : Prop :=
  exists before after, s = before +:+ sub +:+ after.

Fixpoint all_chars (p : ascii -> bool) (s : string) : bool :=
  match s with
  | EmptyString => true
  | String a s' => p a && all_chars p s'
  end.

(** The alphabet [shortuuid.uuid()] draws its characters from. *)
Definition shortuuid_alphabet : string :=
  "23456789ABCDEFGHJKLMNPQRSTUVWXYZabcdefghijkmnopqrstuvwxyz".

Definition shortuuid_value (uuid : string) : bool :=
  all_chars (fun a => has_char a shortuuid_alphabet) uuid.

(** Nothing, or a file: what may stand where a file is about to be written. *)
Definition not_dir (o : option node) : bool :=
  match o with
  | Some (Dir _) => false
  | _ => true
  end.

(** The canvas [make] synthesizes when no image is supplied. *)
Definition blank_canvas : Image :=
  Image_new "RGBA" (800, 600) [255; 255; 255; 255].

Section Generated.

Variable Image_open : string -> outcome Image.
Variable Image_convert : Image -> string -> outcome Image.

(** The image [make] works with: the decoded and converted upload when one
    is supplied. *)
Definition decoded_upload (req : Request) : option (outcome Image) :=
  match supplied (assoc_get "image" (req_files req)) with
  | Some f =>
      Some (match Image_open (fs_stream f) with
            | Ok im => Image_convert im "RGBA"
            | Raise e => Raise e
            end)
  | None => None
  end.

(** The image that becomes the PNG artifact, or the exception that decoding
    the upload raised. *)
Definition base_image_of (req : Request) : outcome Image :=
  match decoded_upload req with
  | Some o => o
  | None => Ok (Image_new "RGBA" (800, 600) [255; 255; 255; 255])
  end.

End Generated.

(** The file names of the pair generated under [doc_ref]. *)
Definition png_name (doc_ref : string) : string :=
  "document_" +:+ doc_ref +:+ ".png".
Definition pdf_name (doc_ref : string) : string :=
  "document_" +:+ doc_ref +:+ ".pdf".

(** *** A small deployment, for closed instances of the statements *)

Definition ex_cwd : list string := ["srv"; "app"].

Definition ex_image : Image :=
  {| im_mode := "RGBA"; im_width := 400; im_height := 300; im_pixels := [] |}.

Definition ex_root : node :=
  Dir [("srv",
        Dir [("app",
              Dir [("app.py", File (Bytes "import os"));
                   ("generated",
                    Dir [("hits.db", File (SqliteFile (init_db None)));
                         ("document_Ab3dE9ZX.png", File (PngFile ex_image));
                         ("document_Ab3dE9ZX.pdf", File (PdfFile []))])])])].

Definition ex_state : State :=
  {| st_session := ∅; st_flashes := []; st_db := init_db None;
     st_fs := ex_root; st_trace := [] |}.

Definition ex_admin_state : State :=
  {| st_session := {["admin" := PBool true]}; st_flashes := [];
     st_db := init_db None; st_fs := ex_root; st_trace := [] |}.

Definition ex_request : Request :=
  {| req_method := "GET";
     req_x_forwarded_for := Some "203.0.113.7, 10.0.0.1";
     req_user_agent := Some "Mozilla/5.0";
     req_remote_addr := "10.0.0.1";
     req_form := []; req_files := [];
     req_origin := "http://tracker.example" |}.

Definition ex_login : Request :=
  {| req_method := "POST"; req_x_forwarded_for := None;
     req_user_agent := Some "Mozilla/5.0"; req_remote_addr := "10.0.0.1";
     req_form := [("password", "letmein")]; req_files := [];
     req_origin := "http://tracker.example" |}.

Definition ex_make_blank : Request :=
  {| req_method := "POST"; req_x_forwarded_for := None;
     req_user_agent := Some "Mozilla/5.0"; req_remote_addr := "10.0.0.1";
     req_form := [("mode", "png")]; req_files := [];
     req_origin := "http://tracker.example" |}.

Definition ex_make_upload : Request :=
  {| req_method := "POST"; req_x_forwarded_for := None;
     req_user_agent := Some "Mozilla/5.0"; req_remote_addr := "10.0.0.1";
     req_form := [("mode", "png")];
     req_files := [("image", {| fs_filename := "cat.png";
                                fs_stream := "PNG..." |})];
     req_origin := "http://tracker.example" |}.

(** A network on which every lookup times out, and one that answers. *)
Definition ex_net_down : string -> json_answer :=
  fun _ => GetRaises "ConnectTimeout".

Definition ex_net_up : string -> json_answer :=
  fun _ => JsonObject [("status", PStr "success"); ("lat", PFloat 48.875);
                       ("lon", PFloat 2.375); ("city", PStr "Paris");
                       ("regionName", PStr "Ile-de-France");
                       ("country", PStr "France")].

(** A decoder that accepts every upload as [ex_image], and one that rejects
    every upload. *)
Definition ex_open_ok : string -> outcome Image := fun _ => Ok ex_image.
Definition ex_open_bad : string -> outcome Image :=
  fun _ => Raise "UnidentifiedImageError".

Definition ex_convert : Image -> string -> outcome Image :=
  fun im mode =>
    Ok {| im_mode := mode; im_width := im_width im;
          im_height := im_height im; im_pixels := im_pixels im |}.

Definition ex_environ : gmap string string := ∅.

(** ** Dispatch of a request to its view function *)

Section Dispatch.

Variable environ : gmap string string.
Variable http_get_json : string -> json_answer.
Variable Image_open : string -> outcome Image.
Variable Image_convert : Image -> string -> outcome Image.
Variable cwd : list string.

(** The view function of the endpoint, called with the view arguments, the
    clock reading and the [shortuuid.uuid()] value it would obtain during
    this request. *)
Definition dispatch_request (req : Request) (utcnow uuid : string)
    (ep : endpoint) : M response :=
  match ep with
  | ep_index => index
  | ep_login => login environ req
  | ep_logout => logout req
  | ep_make => make Image_open Image_convert cwd req uuid
  | ep_clickable_redirect doc_ref =>
      clickable_redirect http_get_json cwd req utcnow doc_ref
  | ep_dl_pdf doc_ref pdfname =>
      dl_pdf http_get_json cwd req utcnow doc_ref pdfname
  | ep_download_generated name => download_generated cwd name
  | ep_logs => logs req
  end.

(** One request as the application sees it. *)
Record call := {
  call_request : Request;
  call_utcnow : string;
  call_uuid : string;
  call_endpoint : endpoint
}.

(** The requests of a client served one after the other; an exception in a
    view ends that request (a 500 answer) and the next one finds what the
    view had already done. *)
Fixpoint serve_all (calls : list call) (st : State) : State :=
  match calls with
  | [] => st
  | c :: calls' =>
      serve_all calls'
        (snd (dispatch_request (call_request c) (call_utcnow c) (call_uuid c)
                (call_endpoint c) st))
  end.

End Dispatch.

(** A computation that leaves a part [f] of the context as it found it,
    whether it returns or raises. *)
Definition preserves {A T : Type} (f : State -> T) (m : M A) : Prop :=
  forall st, f (snd (m st)) = f st.

(** The endpoints that record a hit. *)
Definition tracked_endpoint (ep : endpoint) : bool :=
  match ep with
  | ep_clickable_redirect _ | ep_dl_pdf _ _ => true
  | _ => false
  end.

(** The reference a tracked endpoint logs its hit under. *)
Definition endpoint_doc_ref (ep : endpoint) : string :=
  match ep with
  | ep_clickable_redirect doc_ref | ep_dl_pdf doc_ref _ => doc_ref
  | _ => ""
  end.


Definition changes_session (ep : endpoint) : bool :=
  match ep with
  | ep_login | ep_logout => true
  | _ => false
  end.

(** Ids that grow along the table, and ids that do not grow along a result. *)
Definition ids_increasing (rows : list hit_row) : Prop :=
  StronglySorted (fun a b => hit_id a < hit_id b) rows.

Definition ids_descending (rows : list hit_row) : Prop :=
  StronglySorted (fun a b => hit_id b <= hit_id a) rows.

(** A second deployment, with files under names of several shapes. *)
Definition ex_root_names : node :=
  Dir [("srv",
        Dir [("app",
              Dir [("app.py", File (Bytes "import os"));
                   ("generated",
                    Dir [("hits.db", File (SqliteFile (init_db None)));
                         ("Report.Final.PNG", File (PngFile ex_image));
                         ("pdf", File (Bytes "no dot"));
                         ("notes.txt", File (Bytes "hello"))])])])].

Definition ex_state_names : State :=
  {| st_session := ∅; st_flashes := []; st_db := init_db None;
     st_fs := ex_root_names; st_trace := [] |}.

Definition ex_login_ok : Request :=
  {| req_method := "POST"; req_x_forwarded_for := None;
     req_user_agent := Some "Mozilla/5.0"; req_remote_addr := "10.0.0.1";
     req_form := [("password", "admin")]; req_files := [];
     req_origin := "http://tracker.example" |}.

Definition ex_calls : list call :=
  [{| call_request := ex_login_ok; call_utcnow := "2026-11-03T09:00:00";
      call_uuid := "Zk4mQ7xTw9pB"; call_endpoint := ep_login |};
   {| call_request := ex_make_upload; call_utcnow := "2026-11-03T09:01:00";
      call_uuid := "Zk4mQ7xTw9pB"; call_endpoint := ep_make |};
   {| call_request := ex_request; call_utcnow := "2026-11-03T09:02:00";
      call_uuid := "Qw8eRt2yUi3p";
      call_endpoint := ep_clickable_redirect "Zk4mQ7xT" |};
   {| call_request := ex_request; call_utcnow := "2026-11-03T09:03:00";
      call_uuid := "Qw8eRt2yUi3p";
      call_endpoint := ep_download_generated "document_Zk4mQ7xT.png" |};
   {| call_request := ex_request; call_utcnow := "2026-11-03T09:04:00";
      call_uuid := "Qw8eRt2yUi3p";
      call_endpoint := ep_dl_pdf "Zk4mQ7xT" "document_Zk4mQ7xT.pdf" |}].

(** * Properties *)

(** ** Running the monad *)

Lemma bind_ok {A B} (m : M A) (k : A -> M B) st a st' :
  m st = (Ok a, st') -> bind m k st = k a st'.
Proof. intros H. unfold bind. now rewrite H. Qed.

(** ** The Hit Recorder *)

Lemma insert_hit_run cwd utcnow doc_ref user_id ip ua lat lon city region
    country st :
  let v := {| v_doc_ref := doc_ref; v_user_id := user_id; v_ip := ip;
              v_ua := ua; v_ts := utcnow +:+ "Z"; v_lat := lat; v_lon := lon;
              v_city := city; v_region := region; v_country := country |} in
  let db := sql_insert_hit (st_db st) v in
  insert_hit cwd utcnow doc_ref user_id ip ua lat lon city region country st
  = (Ok tt,
     with_fs
       (with_db
          (add_event st (EvSqlInsert (row_of (next_rowid (st_db st)) v))) db)
       (database_file cwd db (st_fs st))).
Proof. reflexivity. Qed.

Lemma record_run cwd v st :
  let db := sql_insert_hit (st_db st) (stored v) in
  record cwd v st
  = (Ok tt,
     with_fs
       (with_db
          (add_event st
             (EvSqlInsert (row_of (next_rowid (st_db st)) (stored v)))) db)
       (database_file cwd db (st_fs st))).
Proof. reflexivity. Qed.

Lemma max_rowid_nonneg rows : 0 <= max_rowid rows.
Proof. induction rows as [|r rows IH]; simpl; lia. Qed.

Lemma max_rowid_app l l' :
  max_rowid (l ++ l') = Z.max (max_rowid l) (max_rowid l').
Proof.
  induction l as [|r l IH]; simpl.
  - pose proof (max_rowid_nonneg l'). lia.
  - rewrite IH. lia.
Qed.

Lemma max_rowid_bound rows r : In r rows -> hit_id r <= max_rowid rows.
Proof.
  induction rows as [|r' rows IH]; simpl; [tauto|].
  intros [-> | Hin]; [lia|]. specialize (IH Hin). lia.
Qed.

Lemma next_rowid_insert db v :
  next_rowid (sql_insert_hit db v) = next_rowid db + 1.
Proof.
  unfold next_rowid, sql_insert_hit. cbn [hits hits_seq].
  rewrite max_rowid_app. unfold max_rowid at 2.
  cbn [fold_right row_of hit_id].
  pose proof (max_rowid_nonneg (hits db)). unfold next_rowid. lia.
Qed.

Lemma hits_fold_insert vs db :
  hits (fold_left sql_insert_hit vs db)
  = hits db ++ number_from (next_rowid db) vs.
Proof.
  revert db. induction vs as [|v vs IH]; intros db; simpl.
  - now rewrite app_nil_r.
  - rewrite IH, next_rowid_insert. simpl. now rewrite <- app_assoc.
Qed.

Lemma record_all_run cwd calls st :
  exists st',
    record_all cwd calls st = (Ok tt, st')
    /\ st_db st' = fold_left sql_insert_hit (map stored calls) (st_db st)
    /\ st_session st' = st_session st.
Proof.
  revert st. induction calls as [|v calls IH]; intros st; simpl.
  - exists st. auto.
  - erewrite bind_ok by apply record_run.
    match goal with
    | |- context [record_all cwd calls ?s] =>
        destruct (IH s) as (st' & Hrun & Hdb & Hs)
    end.
    exists st'. auto.
Qed.

(** *** Sorting by decreasing id *)

Lemma insert_desc_below r l :
  Forall (fun r' => hit_id r <= hit_id r') l -> insert_desc r l = l ++ [r].
Proof.
  induction 1 as [|r' l Hle _ IH]; simpl; [reflexivity|].
  destruct (Z.ltb_spec (hit_id r') (hit_id r)); [lia|]. now rewrite IH.
Qed.

Lemma insert_desc_after r p l :
  Forall (fun r' => hit_id r <= hit_id r') p ->
  insert_desc r (p ++ l) = p ++ insert_desc r l.
Proof.
  induction 1 as [|r' p Hle _ IH]; simpl; [reflexivity|].
  destruct (Z.ltb_spec (hit_id r') (hit_id r)); [lia|]. now rewrite IH.
Qed.

Lemma number_from_ids id vs r :
  In r (number_from id vs) -> id <= hit_id r.
Proof.
  revert id. induction vs as [|v vs IH]; intros id; simpl; [tauto|].
  intros [<- | Hin]; simpl; [lia|]. specialize (IH _ Hin). lia.
Qed.

Lemma order_number_from id vs :
  order_by_id_desc (number_from id vs) = rev (number_from id vs).
Proof.
  revert id. induction vs as [|v vs IH]; intros id; simpl; [reflexivity|].
  unfold order_by_id_desc in *. rewrite IH.
  apply insert_desc_below. apply List.Forall_forall. intros r Hin.
  apply in_rev in Hin. apply number_from_ids in Hin. simpl. lia.
Qed.

Lemma in_insert_desc x r l : In x (insert_desc r l) -> x = r \/ In x l.
Proof.
  induction l as [|r' l IH]; simpl.
  - intros [<- | []]. auto.
  - destruct (hit_id r' <? hit_id r); simpl.
    + intros [<- | [<- | Hin]]; auto.
    + intros [<- | Hin]; auto. destruct (IH Hin); auto.
Qed.

Lemma in_order_by_id_desc x rows : In x (order_by_id_desc rows) -> In x rows.
Proof.
  induction rows as [|r rows IH]; simpl; [tauto|].
  intros Hin. apply in_insert_desc in Hin. destruct Hin as [-> | Hin]; auto.
Qed.

Lemma order_old_new old new :
  (forall o n, In o old -> In n new -> hit_id o <= hit_id n) ->
  order_by_id_desc (old ++ new)
  = order_by_id_desc new ++ order_by_id_desc old.
Proof.
  intros Hlt. unfold order_by_id_desc. rewrite fold_right_app.
  induction old as [|o old IH]; simpl; [now rewrite app_nil_r|].
  rewrite IH by (intros; apply Hlt; simpl; auto).
  apply insert_desc_after. apply List.Forall_forall. intros n Hin.
  apply Hlt; simpl; auto. now apply in_order_by_id_desc.
Qed.

Lemma length_insert_desc r l : length (insert_desc r l) = S (length l).
Proof.
  induction l as [|r' l IH]; simpl; [reflexivity|].
  destruct (hit_id r' <? hit_id r); simpl; congruence.
Qed.

Lemma length_order_by_id_desc rows :
  length (order_by_id_desc rows) = length rows.
Proof.
  induction rows as [|r rows IH]; simpl; [reflexivity|].
  unfold order_by_id_desc in *. simpl. now rewrite length_insert_desc, IH.
Qed.

Lemma length_number_from id vs : length (number_from id vs) = length vs.
Proof.
  revert id. induction vs as [|v vs IH]; intros id; simpl; congruence.
Qed.

Lemma values_number_from id vs : map values_of (number_from id vs) = vs.
Proof.
  revert id. induction vs as [|v vs IH]; intros id; simpl; [reflexivity|].
  rewrite IH. now destruct v.
Qed.


Lemma length_sql_select_hits db limit :
  length (sql_select_hits db limit)
  = if limit <? 0 then length (hits db)
    else Nat.min (Z.to_nat limit) (length (hits db)).
Proof.
  unfold sql_select_hits, sql_limit. destruct (limit <? 0).
  - apply length_order_by_id_desc.
  - now rewrite length_firstn, length_order_by_id_desc.
Qed.

(** C4. From any store state, [record()] called once per element of [calls]
    and then [recent(N)] with [N] the number of calls returns exactly the
    events of those calls, newest first: the rows carry the recorded values
    in reverse insertion order, under the ids the store numbered them with
    (increasing with insertion, so recency is identifier order).  The read
    path returns at most [limit] rows for every non-negative [limit], and
    the limit defaults to 1000. *)
Theorem recent_after_records
    (cwd : list string) (st : State) (calls : list hit_values) :
  exists rows st',
    (let* _ := record_all cwd calls in
     fetch_hits (Z.of_nat (length calls))) st = (Ok rows, st')
    /\ map values_of rows = rev (map stored calls)
    /\ rows = rev (number_from (next_rowid (st_db st)) (map stored calls))
    /\ (forall st0 limit,
          fst (fetch_hits limit st0) = Ok (sql_select_hits (st_db st0) limit)
          /\ length (sql_select_hits (st_db st0) limit)
             = if limit <? 0 then length (hits (st_db st0))
               else Nat.min (Z.to_nat limit) (length (hits (st_db st0))))
    /\ fetch_hits_default_limit = 1000.
Proof.
  destruct (record_all_run cwd calls st) as (st1 & Hrun & Hdb & _).
  set (new := number_from (next_rowid (st_db st)) (map stored calls)).
  assert (Hsel : sql_select_hits (st_db st1) (Z.of_nat (length calls))
                 = rev new).
  { unfold sql_select_hits, sql_limit.
    destruct (Z.ltb_spec (Z.of_nat (length calls)) 0) as [Hneg|_]; [lia|].
    rewrite Hdb, hits_fold_insert. fold new.
    rewrite order_old_new.
    - unfold new at 1. rewrite order_number_from. fold new.
      rewrite Nat2Z.id.
      replace (length calls) with (length (rev new) + 0)%nat.
      + rewrite firstn_app_2. simpl. now rewrite app_nil_r.
      + rewrite length_rev. unfold new.
        rewrite length_number_from, length_map. lia.
    - intros o n Ho Hn. apply max_rowid_bound in Ho.
      apply number_from_ids in Hn. unfold next_rowid in Hn. lia. }
  exists (rev new), (add_event st1 (EvSqlSelect (Z.of_nat (length calls)))).
  split; [|split; [|split; [|split]]].
  - erewrite bind_ok by exact Hrun. unfold fetch_hits, bind, get_state,
      log_event, ret. simpl. now rewrite Hsel.
  - rewrite map_rev. unfold new. now rewrite values_number_from.
  - reflexivity.
  - intros st0 limit. split; [reflexivity|]. apply length_sql_select_hits.
  - reflexivity.
Qed.

(** ** The Geolocation Resolver *)

Section Resolver.

Variable http_get_json : string -> json_answer.

(** [geo_ip] always returns: one lookup, no exception. *)
Lemma geo_ip_run ip st :
  geo_ip http_get_json ip st
  = (Ok (geo_of (http_get_json (geo_url ip))),
     add_event st (EvHttpGet (geo_url ip))).
Proof.
  unfold geo_ip, bind, try_except, requests_get_json, log_event, raise, ret,
    geo_of, add_event.
  destruct (http_get_json (geo_url ip)) as [e|fields|]; simpl; try reflexivity.
  destruct (py_eq_str (dict_get fields "status") "success"); reflexivity.
Qed.

Lemma geo_of_fails a :
  lookup_fails a -> geo_of a = (PNone, PNone, PNone, PNone, PNone).
Proof.
  destruct 1 as [e | | fields Hst]; simpl; try reflexivity.
  unfold dict_get.
  destruct (assoc_get "status" fields) as [[| | | |s]|]; simpl;
    try reflexivity.
  destruct (String.eqb_spec s "success") as [->|]; [congruence|reflexivity].
Qed.

End Resolver.

(** C3. For every address, when the outbound lookup raises (a timeout is an
    exception of [requests.get]) or answers without a status field equal to
    "success", [geo_ip] returns the five-fold tuple of [None]: the result is
    a value, not an exception, after exactly one lookup. *)
Theorem geo_ip_failure_all_absent (http_get_json : string -> json_answer)
    (ip : string) (st : State) :
  lookup_fails (http_get_json (geo_url ip)) ->
  geo_ip http_get_json ip st
  = (Ok (PNone, PNone, PNone, PNone, PNone),
     add_event st (EvHttpGet (geo_url ip))).
Proof.
  intros Hf. rewrite geo_ip_run. now rewrite (geo_of_fails _ Hf).
Qed.

(** ** The Delivery Layer *)

Section Delivery.

Variable http_get_json : string -> json_answer.
Variable cwd : list string.

Lemma clickable_redirect_run req utcnow doc_ref st :
  clickable_redirect http_get_json cwd req utcnow doc_ref st
  = (Ok (Redirect "https://your-site.com/thank-you"),
     tracked http_get_json cwd req utcnow doc_ref st).
Proof.
  unfold clickable_redirect. erewrite bind_ok by apply geo_ip_run.
  unfold tracked, recorded_row, recorded.
  destruct (geo_of (http_get_json (geo_url (client_ip req))))
    as [[[[lat lon] city] region] country].
  reflexivity.
Qed.

(** [dl_pdf] is the tracked access followed by the existence check. *)
Lemma dl_pdf_run req utcnow doc_ref pdfname st :
  dl_pdf http_get_json cwd req utcnow doc_ref pdfname st
  = (let* e := os_path_exists cwd (path_join OUTDIR pdfname) in
     if negb e then ret (Text "Not found" 404)
     else send_file cwd (path_join OUTDIR pdfname) true pdfname
            "application/pdf")
      (tracked http_get_json cwd req utcnow doc_ref st).
Proof.
  unfold dl_pdf. erewrite bind_ok by apply geo_ip_run.
  unfold tracked, recorded_row, recorded.
  destruct (geo_of (http_get_json (geo_url (client_ip req))))
    as [[[[lat lon] city] region] country].
  reflexivity.
Qed.

Lemma os_path_exists_run path st :
  os_path_exists cwd path st
  = (Ok (bool_decide (is_Some (stat (st_fs st) cwd path))),
     add_event st (EvExists path)).
Proof. reflexivity. Qed.

Lemma send_file_run path a d m st :
  send_file cwd path a d m st
  = (match stat (st_fs st) cwd path with
     | Some (_, File c) => Ok (SendFile path c a d m)
     | Some (_, Dir _) => Raise "IsADirectoryError"
     | None => Raise "FileNotFoundError"
     end, add_event st (EvOpen path)).
Proof.
  unfold send_file, bind, get_state, log_event, ret, raise, add_event. simpl.
  destruct (stat (st_fs st) cwd path) as [[loc [c|es]]|]; reflexivity.
Qed.

(** The store and the trace after [dl_pdf], whatever it answers. *)
Lemma dl_pdf_effects req utcnow doc_ref pdfname st :
  exists r st',
    dl_pdf http_get_json cwd req utcnow doc_ref pdfname st = (r, st')
    /\ st_db st'
       = sql_insert_hit (st_db st) (recorded http_get_json req utcnow doc_ref st)
    /\ exists rest,
         st_trace st'
         = st_trace st
           ++ [EvHttpGet (geo_url (client_ip req));
               EvSqlInsert (recorded_row http_get_json req utcnow doc_ref st);
               EvExists (path_join OUTDIR pdfname)] ++ rest.
Proof.
  rewrite dl_pdf_run. erewrite bind_ok by apply os_path_exists_run.
  destruct (negb _).
  - eexists _, _. split; [reflexivity|]. split; [reflexivity|].
    exists []. simpl. now rewrite <- !app_assoc.
  - rewrite send_file_run. eexists _, _. split; [reflexivity|].
    split; [reflexivity|].
    exists [EvOpen (path_join OUTDIR pdfname)]. simpl.
    now rewrite <- !app_assoc.
Qed.

Lemma download_generated_db name st :
  st_db (snd (download_generated cwd name st)) = st_db st.
Proof using cwd.
  unfold download_generated. erewrite bind_ok by apply os_path_exists_run.
  destruct (negb _); [|rewrite send_file_run]; reflexivity.
Qed.

End Delivery.

(** C3 at a closed instance: every lookup times out. *)
Lemma geo_ip_failure_all_absent_witness :
  geo_ip ex_net_down "203.0.113.7" ex_state
  = (Ok (PNone, PNone, PNone, PNone, PNone),
     add_event ex_state (EvHttpGet (geo_url "203.0.113.7"))).
Proof.
  apply (geo_ip_failure_all_absent ex_net_down "203.0.113.7" ex_state).
  unfold ex_net_down. constructor.
Defined.

(** C1, as amended. The tracking redirect and the tracked PDF download each
    make one geolocation lookup for the requester's address and then append
    exactly one row, holding that address and the answer of the lookup,
    before anything else happens: the redirect is returned right after the
    insert, and [dl_pdf] only then checks the file.  [download_generated]
    serves a file without touching the store. *)
Theorem tracked_accesses_record_one_hit
    (http_get_json : string -> json_answer) (cwd : list string)
    (req : Request) (utcnow doc_ref pdfname name : string) (st : State) :
  let row := recorded_row http_get_json req utcnow doc_ref st in
  let lookup := EvHttpGet (geo_url (client_ip req)) in
  (exists st',
     clickable_redirect http_get_json cwd req utcnow doc_ref st
     = (Ok (Redirect "https://your-site.com/thank-you"), st')
     /\ hits (st_db st') = hits (st_db st) ++ [row]
     /\ st_trace st' = st_trace st ++ [lookup; EvSqlInsert row])
  /\ (exists r st' rest,
        dl_pdf http_get_json cwd req utcnow doc_ref pdfname st = (r, st')
        /\ hits (st_db st') = hits (st_db st) ++ [row]
        /\ st_trace st'
           = st_trace st
             ++ [lookup; EvSqlInsert row; EvExists (path_join OUTDIR pdfname)]
             ++ rest
        /\ (rest = [] \/ rest = [EvOpen (path_join OUTDIR pdfname)]))
  /\ hit_ip row = client_ip req
  /\ (hit_lat row, hit_lon row, hit_city row, hit_region row, hit_country row)
     = geo_of (http_get_json (geo_url (client_ip req)))
  /\ st_db (snd (download_generated cwd name st)) = st_db st.
Proof.
  intros row lookup. split; [|split; [|split; [|split]]].
  - exists (tracked http_get_json cwd req utcnow doc_ref st).
    split; [apply clickable_redirect_run|]. split; [reflexivity|].
    simpl. now rewrite <- app_assoc.
  - rewrite dl_pdf_run. erewrite bind_ok by apply os_path_exists_run.
    destruct (negb _).
    + eexists _, _, []. split; [reflexivity|]. split; [reflexivity|].
      split; [|now left]. simpl. now rewrite <- !app_assoc.
    + rewrite send_file_run.
      eexists _, _, [EvOpen (path_join OUTDIR pdfname)].
      split; [reflexivity|]. split; [reflexivity|].
      split; [|now right]. simpl. now rewrite <- !app_assoc.
  - unfold row, recorded_row, recorded.
    destruct (geo_of _) as [[[[lat lon] city] region] country]. reflexivity.
  - unfold row, recorded_row, recorded.
    destruct (geo_of _) as [[[[lat lon] city] region] country]. reflexivity.
  - apply download_generated_db.
Qed.

(** C1 as stated fails: a download through [/download_generated/<name>] of a
    file that exists is served and appends no row. *)
Lemma download_generated_records_no_hit :
  let run := download_generated ex_cwd "document_Ab3dE9ZX.png" ex_state in
  fst run
  = Ok (SendFile "generated/document_Ab3dE9ZX.png" (PngFile ex_image) true
          "document_Ab3dE9ZX.png" "image/png")
  /\ hits (st_db (snd run)) = hits (st_db ex_state)
  /\ ~ (exists row, hits (st_db (snd run)) = hits (st_db ex_state) ++ [row]).
Proof.
  split; [vm_compute; reflexivity|]. split; [vm_compute; reflexivity|].
  intros [row Hrow]. vm_compute in Hrow. discriminate Hrow.
Qed.

(** C9. Every request to [dl_pdf] appends its row before the existence of the
    file is checked; when the file does not exist at that check, which finds
    the files as the insert left them, the answer is the 404 and the row
    stays recorded. *)
Theorem dl_pdf_records_before_existence_check
    (http_get_json : string -> json_answer) (cwd : list string)
    (req : Request) (utcnow doc_ref pdfname : string) (st : State) :
  let row := recorded_row http_get_json req utcnow doc_ref st in
  (exists r st' rest,
     dl_pdf http_get_json cwd req utcnow doc_ref pdfname st = (r, st')
     /\ hits (st_db st') = hits (st_db st) ++ [row]
     /\ st_trace st'
        = st_trace st
          ++ [EvHttpGet (geo_url (client_ip req)); EvSqlInsert row;
              EvExists (path_join OUTDIR pdfname)] ++ rest)
  /\ (stat (st_fs (tracked http_get_json cwd req utcnow doc_ref st)) cwd
        (path_join OUTDIR pdfname) = None ->
      exists st',
        dl_pdf http_get_json cwd req utcnow doc_ref pdfname st
        = (Ok (Text "Not found" 404), st')
        /\ hits (st_db st') = hits (st_db st) ++ [row]
        /\ st_trace st'
           = st_trace st
             ++ [EvHttpGet (geo_url (client_ip req)); EvSqlInsert row;
                 EvExists (path_join OUTDIR pdfname)]).
Proof.
  intros row. split.
  - destruct (dl_pdf_effects http_get_json cwd req utcnow doc_ref pdfname st)
      as (r & st' & Hrun & Hdb & rest & Htr).
    exists r, st', rest. rewrite Hdb. auto.
  - intros Hnone. rewrite dl_pdf_run.
    erewrite bind_ok by apply os_path_exists_run.
    rewrite Hnone. rewrite bool_decide_eq_false_2 by (intros [? ?]; discriminate).
    eexists. split; [reflexivity|]. split; [reflexivity|].
    simpl. now rewrite <- !app_assoc.
Qed.

(** C9 at a closed instance: a PDF that was never generated. *)
Lemma dl_pdf_records_before_existence_check_witness :
  exists st',
    dl_pdf ex_net_up ex_cwd ex_request "2026-11-03T09:12:00" "Ab3dE9ZX"
      "document_missing.pdf" ex_state
    = (Ok (Text "Not found" 404), st')
    /\ hits (st_db st')
       = hits (st_db ex_state)
         ++ [recorded_row ex_net_up ex_request "2026-11-03T09:12:00"
               "Ab3dE9ZX" ex_state]
    /\ st_trace st'
       = st_trace ex_state
         ++ [EvHttpGet (geo_url (client_ip ex_request));
             EvSqlInsert (recorded_row ex_net_up ex_request
                            "2026-11-03T09:12:00" "Ab3dE9ZX" ex_state);
             EvExists (path_join OUTDIR "document_missing.pdf")].
Proof.
  apply (dl_pdf_records_before_existence_check ex_net_up ex_cwd ex_request
           "2026-11-03T09:12:00" "Ab3dE9ZX" "document_missing.pdf" ex_state).
  vm_compute. reflexivity.
Defined.

(** C10. [dl_pdf] takes the file from [pdfname] and the logged reference from
    [doc_ref], and nothing ties the two: for any [doc_ref], when the file
    named [pdfname] exists in the output directory once the hit is in the
    table, it is the one streamed, and the hit is logged under [doc_ref]. *)
Theorem dl_pdf_serves_pdfname_logs_doc_ref
    (http_get_json : string -> json_answer) (cwd : list string)
    (req : Request) (utcnow doc_ref pdfname : string) (st : State)
    (loc : list string) (c : content) :
  stat (st_fs (tracked http_get_json cwd req utcnow doc_ref st)) cwd
    (path_join OUTDIR pdfname) = Some (loc, File c) ->
  exists st' row,
    dl_pdf http_get_json cwd req utcnow doc_ref pdfname st
    = (Ok (SendFile (path_join OUTDIR pdfname) c true pdfname
             "application/pdf"), st')
    /\ hits (st_db st') = hits (st_db st) ++ [row]
    /\ hit_doc_ref row = doc_ref.
Proof.
  intros Hstat. rewrite dl_pdf_run.
  erewrite bind_ok by apply os_path_exists_run.
  rewrite Hstat. rewrite bool_decide_eq_true_2 by eauto.
  cbn [negb]. rewrite send_file_run. cbn [add_event st_fs].
  rewrite Hstat. eexists _, (recorded_row http_get_json req utcnow doc_ref st).
  split; [reflexivity|]. split; [reflexivity|].
  unfold recorded_row, recorded.
  destruct (geo_of _) as [[[[lat lon] city] region] country]. reflexivity.
Qed.

(** C10 at a closed instance: the PDF of one document, fetched under the
    reference of another. *)
Lemma dl_pdf_serves_pdfname_logs_doc_ref_witness :
  exists st' row,
    dl_pdf ex_net_up ex_cwd ex_request "2026-11-03T09:12:00" "ZZZZZZZZ"
      "document_Ab3dE9ZX.pdf" ex_state
    = (Ok (SendFile (path_join OUTDIR "document_Ab3dE9ZX.pdf") (PdfFile [])
             true "document_Ab3dE9ZX.pdf" "application/pdf"), st')
    /\ hits (st_db st') = hits (st_db ex_state) ++ [row]
    /\ hit_doc_ref row = "ZZZZZZZZ".
Proof.
  apply (dl_pdf_serves_pdfname_logs_doc_ref ex_net_up ex_cwd ex_request
           "2026-11-03T09:12:00" "ZZZZZZZZ" "document_Ab3dE9ZX.pdf" ex_state
           ["srv"; "app"; "generated"; "document_Ab3dE9ZX.pdf"]).
  vm_compute. reflexivity.
Defined.

(** ** Access control *)

Lemma make_without_admin Image_open Image_convert cwd req uuid st :
  truthy (default PNone (st_session st !! "admin")) = false ->
  make Image_open Image_convert cwd req uuid st = (Ok (Redirect "/login"), st).
Proof.
  intros Hadm. unfold make, bind, session_get. now rewrite Hadm.
Qed.

(** C8. A login attempt with a password other than the configured one leaves
    the session as it was (only the flash message is queued): an admin flag
    that was unset is still unset, and a following request to [/make] is
    still redirected to the login page. *)
Theorem login_wrong_password_keeps_session
    (environ : gmap string string) (req : Request) (st : State) :
  req_method req = "POST" ->
  default "" (assoc_get "password" (req_form req)) <> ADMIN_PASS environ ->
  exists st',
    login environ req st = (Ok (RenderTemplate "login.html" []), st')
    /\ st_session st' = st_session st
    /\ st_flashes st' = st_flashes st ++ [("error", "Wrong password")]
    /\ st_db st' = st_db st /\ st_fs st' = st_fs st
    /\ (truthy (default PNone (st_session st !! "admin")) = false ->
        truthy (default PNone (st_session st' !! "admin")) = false
        /\ forall Image_open Image_convert cwd req' uuid,
             make Image_open Image_convert cwd req' uuid st'
             = (Ok (Redirect "/login"), st')).
Proof.
  intros Hpost Hpw. unfold login. rewrite Hpost. cbn [String.eqb Ascii.eqb].
  change (("POST" =? "POST")%string) with true. cbv iota.
  destruct (String.eqb_spec (default "" (assoc_get "password" (req_form req)))
              (ADMIN_PASS environ)) as [Heq|_]; [contradiction|].
  eexists. split; [reflexivity|]. cbn [st_session st_flashes st_db st_fs].
  repeat split; auto.
  intros. now apply make_without_admin.
Qed.

(** C8 at a closed instance: the default password is "admin", the attempt
    says "letmein", and nobody is logged in. *)
Lemma login_wrong_password_keeps_session_witness :
  exists st',
    login ex_environ ex_login ex_state
    = (Ok (RenderTemplate "login.html" []), st')
    /\ st_session st' = st_session ex_state
    /\ st_flashes st' = st_flashes ex_state ++ [("error", "Wrong password")]
    /\ st_db st' = st_db ex_state /\ st_fs st' = st_fs ex_state
    /\ (truthy (default PNone (st_session ex_state !! "admin")) = false ->
        truthy (default PNone (st_session st' !! "admin")) = false
        /\ forall Image_open Image_convert cwd req' uuid,
             make Image_open Image_convert cwd req' uuid st'
             = (Ok (Redirect "/login"), st')).
Proof.
  apply (login_wrong_password_keeps_session ex_environ ex_login ex_state).
  - reflexivity.
  - vm_compute. discriminate.
Defined.

(** ** Paths *)

Lemma split_on_whole c s : has_char c s = false -> split_on c s = [s].
Proof.
  induction s as [|a s IH]; simpl; [reflexivity|].
  destruct (Ascii.eqb a c); simpl; [discriminate|].
  intros H. now rewrite (IH H).
Qed.

Lemma split_on_app_sep c s1 s2 :
  has_char c s1 = false ->
  split_on c (s1 +:+ String c s2) = s1 :: split_on c s2.
Proof.
  induction s1 as [|a s1 IH]; simpl.
  - intros _. now rewrite Ascii.eqb_refl.
  - destruct (Ascii.eqb a c); simpl; [discriminate|].
    intros H. now rewrite (IH H).
Qed.

Lemma split_on_segments c s seg :
  In seg (split_on c s) -> has_char c seg = false.
Proof.
  revert seg. induction s as [|a s IH]; simpl; intros seg.
  - intros [<- | []]. reflexivity.
  - destruct (Ascii.eqb a c) eqn:Hac; simpl.
    + intros [<- | Hin]; [reflexivity | now apply IH].
    + destruct (split_on c s) as [|h t]; simpl in *.
      * intros [<- | []]. simpl. now rewrite Hac.
      * intros [<- | Hin]; [|apply IH; now right].
        simpl. rewrite Hac. apply IH. now left.
Qed.

Lemma string_converter_plain name :
  string_converter name = true ->
  name <> "" /\ has_char "/" name = false /\ starts_with_slash name = false.
Proof.
  unfold string_converter. intros H. apply andb_prop in H as [Hne Hsl].
  apply negb_true_iff in Hne, Hsl. repeat split; auto.
  - intros ->. discriminate.
  - destruct name as [|a s]; [reflexivity|]. simpl in *.
    now apply orb_false_iff in Hsl as [-> _].
Qed.

Lemma path_join_outdir name :
  starts_with_slash name = false ->
  path_join OUTDIR name = "generated/" +:+ name.
Proof. intros H. unfold path_join. rewrite H. reflexivity. Qed.

Lemma resolve_outdir root cwd name :
  string_converter name = true ->
  resolve root cwd ("generated/" +:+ name)
  = walk root cwd ["generated"; name].
Proof.
  intros H. apply string_converter_plain in H as (_ & Hsl & _).
  unfold resolve.
  change ("generated/" +:+ name) with ("generated" +:+ String "/" name).
  rewrite split_on_app_sep by reflexivity.
  now rewrite (split_on_whole _ _ Hsl).
Qed.

Lemma removelast_snoc {A} (l : list A) (x : A) : removelast (l ++ [x]) = l.
Proof. apply removelast_last. Qed.

(** A file found under ["generated/<name>"], for a name that is one path
    segment, lies directly in the output directory. *)
Lemma stat_outdir_file root cwd name loc c :
  string_converter name = true ->
  stat root cwd ("generated/" +:+ name) = Some (loc, File c) ->
  loc = cwd ++ ["generated"; name].
Proof.
  intros Hconv. unfold stat. rewrite (resolve_outdir _ _ _ Hconv).
  cbn [walk].
  destruct (lookup_node root cwd) as [[?|es]|] eqn:Hcwd; try discriminate.
  change (("generated" =? "")%string) with false.
  change (("generated" =? ".")%string) with false.
  change (("generated" =? "..")%string) with false. cbn [orb].
  destruct (find_entry "generated" es) as [g|]; [|discriminate].
  destruct (lookup_node root (cwd ++ ["generated"])) as [[?|es']|] eqn:Hout;
    try discriminate.
  destruct (String.eqb name "" || String.eqb name ".").
  { rewrite Hout. discriminate. }
  destruct (String.eqb name "..").
  { rewrite removelast_snoc, Hcwd. discriminate. }
  destruct (find_entry name es'); [|discriminate].
  rewrite <- app_assoc. cbn [app].
  destruct (lookup_node root (cwd ++ ["generated"; name])); [|discriminate].
  congruence.
Qed.

Section Downloads.

Variable http_get_json : string -> json_answer.
Variable cwd : list string.

Lemma download_generated_serves name st path c a d m st' :
  download_generated cwd name st = (Ok (SendFile path c a d m), st') ->
  path = path_join OUTDIR name
  /\ exists loc, stat (st_fs st') cwd path = Some (loc, File c).
Proof using cwd.
  unfold download_generated. erewrite bind_ok by apply os_path_exists_run.
  destruct (negb _); [discriminate|]. rewrite send_file_run.
  cbn [add_event st_fs].
  destruct (stat (st_fs st) cwd (path_join OUTDIR name)) as [[loc [c'|?]]|]
    eqn:Hstat; try discriminate.
  intros [= <- <- _ _ _ <-]. split; [reflexivity|]. eexists. exact Hstat.
Qed.

Lemma dl_pdf_serves req utcnow doc_ref pdfname st path c a d m st' :
  dl_pdf http_get_json cwd req utcnow doc_ref pdfname st
  = (Ok (SendFile path c a d m), st') ->
  path = path_join OUTDIR pdfname
  /\ exists loc, stat (st_fs st') cwd path = Some (loc, File c).
Proof.
  rewrite dl_pdf_run. erewrite bind_ok by apply os_path_exists_run.
  destruct (negb _); [discriminate|]. rewrite send_file_run.
  cbn [add_event st_fs].
  destruct (stat (st_fs (tracked http_get_json cwd req utcnow doc_ref st))
              cwd (path_join OUTDIR pdfname))
    as [[loc [c'|?]]|] eqn:Hstat; try discriminate.
  intros [= <- <- _ _ _ <-]. split; [reflexivity|]. eexists. exact Hstat.
Qed.

Lemma route_download_generated_arg path_info name :
  route_download_generated path_info = Some name ->
  string_converter name = true.
Proof.
  unfold route_download_generated.
  destruct (split_on "/" path_info) as [|r [|l [|n [|? ?]]]]; try discriminate.
  destruct (_ && string_converter n) eqn:H; [|discriminate].
  intros [= <-]. now apply andb_prop in H as [_ H].
Qed.

Lemma route_dl_pdf_arg path_info doc_ref pdfname :
  route_dl_pdf path_info = Some (doc_ref, pdfname) ->
  string_converter pdfname = true.
Proof.
  unfold route_dl_pdf.
  destruct (split_on "/" path_info) as [|r [|l [|dr [|n [|? ?]]]]];
    try discriminate.
  destruct (_ && string_converter n) eqn:H; [|discriminate].
  intros [= <- <-]. now apply andb_prop in H as [_ H].
Qed.

End Downloads.

(** C2. Whatever path is requested, a file the download endpoints serve was
    opened under ["generated/<name>"] for a single path segment [name], and
    the file found there (among the files as the request leaves them) lies
    directly in the output directory: no request makes them serve a file
    from outside of it. *)
Theorem served_files_lie_in_outdir
    (http_get_json : string -> json_answer) (cwd : list string)
    (req : Request) (utcnow path_info : string) (st st' : State)
    (path : string) (c : content) (a : bool) (d m : string) :
  serve_download http_get_json cwd req utcnow path_info st
  = (Ok (SendFile path c a d m), st') ->
  exists name,
    string_converter name = true
    /\ path = OUTDIR +:+ "/" +:+ name
    /\ stat (st_fs st') cwd path = Some (cwd ++ [OUTDIR; name], File c).
Proof.
  unfold serve_download.
  destruct (route_dl_pdf path_info) as [[doc_ref pdfname]|] eqn:Hpdf.
  - intros Hrun. apply dl_pdf_serves in Hrun as (-> & loc & Hstat).
    apply route_dl_pdf_arg in Hpdf.
    pose proof (string_converter_plain _ Hpdf) as (_ & _ & Hsl).
    rewrite (path_join_outdir _ Hsl) in *.
    exists pdfname. repeat split; auto.
    now rewrite (stat_outdir_file _ _ _ _ _ Hpdf Hstat) in Hstat.
  - destruct (route_download_generated path_info) as [name|] eqn:Hgen;
      [|discriminate].
    intros Hrun. apply download_generated_serves in Hrun as (-> & loc & Hstat).
    apply route_download_generated_arg in Hgen.
    pose proof (string_converter_plain _ Hgen) as (_ & _ & Hsl).
    rewrite (path_join_outdir _ Hsl) in *.
    exists name. repeat split; auto.
    now rewrite (stat_outdir_file _ _ _ _ _ Hgen Hstat) in Hstat.
Qed.

(** C2 at a closed instance: a generated PNG is requested and served. *)
Lemma served_files_lie_in_outdir_witness :
  exists name,
    string_converter name = true
    /\ "generated/document_Ab3dE9ZX.png" = OUTDIR +:+ "/" +:+ name
    /\ stat (st_fs ex_state) ex_cwd "generated/document_Ab3dE9ZX.png"
       = Some (ex_cwd ++ [OUTDIR; name], File (PngFile ex_image)).
Proof.
  apply (served_files_lie_in_outdir ex_net_up ex_cwd ex_request
           "2026-11-03T09:12:00" "/download_generated/document_Ab3dE9ZX.png"
           ex_state
           (add_event
              (add_event ex_state
                 (EvExists "generated/document_Ab3dE9ZX.png"))
              (EvOpen "generated/document_Ab3dE9ZX.png"))
           "generated/document_Ab3dE9ZX.png" (PngFile ex_image) true
           "document_Ab3dE9ZX.png" "image/png").
  vm_compute. reflexivity.
Defined.

(** Requests that try to leave the output directory: a path with more
    segments than the rule matches no route, and [".."], which names a
    directory, is opened and refused. *)
Example traversal_is_not_routed :
  serve_download ex_net_up ex_cwd ex_request "2026-11-03T09:12:00"
    "/download_generated/../app.py" ex_state
  = (Ok (Text "Not Found" 404), ex_state).
Proof. vm_compute. reflexivity. Qed.

Example parent_directory_is_not_served :
  fst (serve_download ex_net_up ex_cwd ex_request "2026-11-03T09:12:00"
         "/download_generated/.." ex_state)
  = Raise "IsADirectoryError".
Proof. vm_compute. reflexivity. Qed.

(** ** Writing into the output directory *)

Lemma lookup_node_app n p q :
  lookup_node n (p ++ q)
  = match lookup_node n p with
    | Some m => lookup_node m q
    | None => None
    end.
Proof.
  revert n. induction p as [|c p IH]; intros n; simpl; [reflexivity|].
  destruct n as [?|es]; [reflexivity|].
  destruct (find_entry c es); [apply IH | reflexivity].
Qed.

Lemma find_entry_set_entry_eq k v es :
  find_entry k (set_entry k v es) = Some v.
Proof.
  induction es as [|[k' n] es IH]; simpl.
  - now rewrite String.eqb_refl.
  - destruct (String.eqb k' k) eqn:E; simpl; rewrite E; auto.
Qed.

Lemma find_entry_set_entry_ne k k' v es :
  k <> k' -> find_entry k' (set_entry k v es) = find_entry k' es.
Proof.
  intros Hne. induction es as [|[k0 n] es IH]; simpl.
  - destruct (String.eqb_spec k k'); [contradiction | reflexivity].
  - destruct (String.eqb_spec k0 k) as [->|]; simpl.
    + destruct (String.eqb_spec k k'); [contradiction | reflexivity].
    + now rewrite IH.
Qed.

Lemma set_node_under n p m q new m' :
  lookup_node n p = Some m ->
  set_node m q new = Some m' ->
  exists n', set_node n (p ++ q) new = Some n' /\ lookup_node n' p = Some m'.
Proof.
  revert n. induction p as [|c p IH]; intros n; simpl.
  - intros [= ->] Hset. eauto.
  - destruct n as [?|es]; [discriminate|].
    destruct (find_entry c es) as [n1|] eqn:Hc; [|discriminate].
    intros Hlook Hset. destruct (IH _ Hlook Hset) as (n1' & Hs & Hl).
    rewrite Hs. eexists. split; [reflexivity|].
    simpl. now rewrite find_entry_set_entry_eq.
Qed.

Lemma plain_name_spec name :
  plain_name name = true ->
  string_converter name = true
  /\ String.eqb name "" = false /\ String.eqb name "." = false
  /\ String.eqb name ".." = false.
Proof.
  unfold plain_name. intros H.
  apply andb_prop in H as [H H2]. apply andb_prop in H as [H0 H1].
  apply negb_true_iff in H1, H2. repeat split; auto.
  apply string_converter_plain in H0 as (Hne & _).
  now apply String.eqb_neq.
Qed.

Section OutputDirectory.

Variable cwd : list string.
Variable root : node.
Variable es : list (string * node).
Hypothesis Hout : lookup_node root (cwd ++ ["generated"]) = Some (Dir es).

Lemma outdir_parent :
  exists es0,
    lookup_node root cwd = Some (Dir es0)
    /\ find_entry "generated" es0 = Some (Dir es).
Proof using Hout.
  rewrite lookup_node_app in Hout.
  destruct (lookup_node root cwd) as [[?|es0]|]; try discriminate.
  exists es0. split; [reflexivity|]. simpl in Hout.
  destruct (find_entry "generated" es0) as [g|]; [|discriminate]. congruence.
Qed.

Lemma walk_outdir : walk root cwd ["generated"] = Some (cwd ++ ["generated"]).
Proof using Hout.
  destruct outdir_parent as (es0 & Hcwd & Hgen).
  cbn [walk]. rewrite Hcwd.
  change (("generated" =? "")%string) with false.
  change (("generated" =? ".")%string) with false.
  change (("generated" =? "..")%string) with false. cbn [orb].
  now rewrite Hgen.
Qed.

(** What [stat] finds under ["generated/<name>"]. *)
Lemma stat_outdir name :
  plain_name name = true ->
  stat root cwd ("generated/" +:+ name)
  = match find_entry name es with
    | Some n => Some (cwd ++ ["generated"; name], n)
    | None => None
    end.
Proof using Hout.
  intros Hp. apply plain_name_spec in Hp as (Hconv & H0 & H1 & H2).
  destruct outdir_parent as (es0 & Hcwd & Hgen).
  unfold stat. rewrite (resolve_outdir _ _ _ Hconv). cbn [walk].
  rewrite Hcwd.
  change (("generated" =? "")%string) with false.
  change (("generated" =? ".")%string) with false.
  change (("generated" =? "..")%string) with false. cbn [orb].
  rewrite Hgen, Hout, H0, H1, H2. cbn [orb].
  destruct (find_entry name es) as [n|] eqn:Hn; [|reflexivity].
  rewrite <- app_assoc. cbn [app].
  replace (cwd ++ ["generated"; name]) with ((cwd ++ ["generated"]) ++ [name])
    by now rewrite <- app_assoc.
  rewrite lookup_node_app, Hout. simpl. rewrite Hn.
  now rewrite <- app_assoc.
Qed.

(** Writing ["generated/<name>"] where no directory is in the way. *)
Lemma write_outdir name c :
  plain_name name = true ->
  not_dir (find_entry name es) = true ->
  exists root',
    write_file root cwd ("generated/" +:+ name) c = Ok root'
    /\ lookup_node root' (cwd ++ ["generated"])
       = Some (Dir (set_entry name (File c) es)).
Proof using Hout.
  intros Hp Hnd. apply plain_name_spec in Hp as (Hconv & H0 & H1 & H2).
  pose proof (string_converter_plain _ Hconv) as (_ & Hsl & _).
  unfold write_file.
  change ("generated/" +:+ name) with ("generated" +:+ String "/" name).
  rewrite split_on_app_sep by reflexivity.
  rewrite (split_on_whole _ _ Hsl).
  change (last_item ["generated"; name]) with name.
  change (removelast ["generated"; name]) with ["generated"].
  change (("generated" +:+ String "/" name =? "")%string) with false.
  change (starts_with_slash ("generated" +:+ String "/" name)) with false.
  cbv iota. rewrite H0, H1, H2. cbn [orb]. rewrite walk_outdir, Hout.
  assert (Hset : set_node (Dir es) [name] (File c)
                 = Some (Dir (set_entry name (File c) es))).
  { simpl. destruct (find_entry name es); reflexivity. }
  destruct (set_node_under _ _ _ _ _ _ Hout Hset) as (root' & Hs & Hl).
  rewrite Hs. exists root'.
  destruct (find_entry name es) as [[?|?]|]; try discriminate; auto.
Qed.

End OutputDirectory.

(** *** The database file *)

Lemma walk_outdir_inv root cwd loc :
  walk root cwd ["generated"] = Some loc ->
  loc = cwd ++ ["generated"] /\ exists n, lookup_node root loc = Some n.
Proof.
  cbn [walk]. destruct (lookup_node root cwd) as [[?|es0]|] eqn:Hcwd;
    try discriminate.
  change (("generated" =? "")%string) with false.
  change (("generated" =? ".")%string) with false.
  change (("generated" =? "..")%string) with false. cbn [orb].
  destruct (find_entry "generated" es0) as [n|] eqn:Hgen; [|discriminate].
  intros [= <-]. split; [reflexivity|]. exists n.
  rewrite lookup_node_app, Hcwd. simpl. now rewrite Hgen.
Qed.

Lemma write_file_outdir root cwd name c :
  plain_name name = true ->
  write_file root cwd ("generated/" +:+ name) c
  = match walk root cwd ["generated"] with
    | Some ploc =>
        match lookup_node root ploc with
        | Some (Dir es) =>
            match find_entry name es with
            | Some (Dir _) => Raise "IsADirectoryError"
            | _ =>
                match set_node root (ploc ++ [name]) (File c) with
                | Some root' => Ok root'
                | None => Raise "FileNotFoundError"
                end
            end
        | _ => Raise "NotADirectoryError"
        end
    | None => Raise "FileNotFoundError"
    end.
Proof.
  intros Hp. apply plain_name_spec in Hp as (Hconv & H0 & H1 & H2).
  pose proof (string_converter_plain _ Hconv) as (_ & Hsl & _).
  unfold write_file.
  change ("generated/" +:+ name) with ("generated" +:+ String "/" name).
  rewrite split_on_app_sep by reflexivity.
  rewrite (split_on_whole _ _ Hsl).
  change (last_item ["generated"; name]) with name.
  change (removelast ["generated"; name]) with ["generated"].
  change (("generated" +:+ String "/" name =? "")%string) with false.
  change (starts_with_slash ("generated" +:+ String "/" name)) with false.
  cbv iota. rewrite H0, H1, H2. reflexivity.
Qed.

(** Where the output directory is in place and no directory has taken the
    name, the database file holds the table. *)
Lemma database_file_holds cwd db root es :
  lookup_node root (cwd ++ ["generated"]) = Some (Dir es) ->
  not_dir (find_entry "hits.db" es) = true ->
  lookup_node (database_file cwd db root) (cwd ++ ["generated"])
  = Some (Dir (set_entry "hits.db" (File (SqliteFile db)) es)).
Proof.
  intros Hout Hnd. unfold database_file.
  destruct (write_outdir cwd root es Hout "hits.db" (SqliteFile db)
              eq_refl Hnd) as (root' & Hw & Hout').
  change DB_FILE with ("generated/" +:+ "hits.db"). now rewrite Hw.
Qed.

(** Writing the database file leaves what the other names of the output
    directory lead to. *)
Lemma database_file_stat cwd db root name :
  plain_name name = true -> name <> "hits.db" ->
  stat (database_file cwd db root) cwd ("generated/" +:+ name)
  = stat root cwd ("generated/" +:+ name).
Proof.
  intros Hp Hne.
  destruct (lookup_node root (cwd ++ ["generated"])) as [[c|es]|] eqn:Hout.
  - unfold database_file. change DB_FILE with ("generated/" +:+ "hits.db").
    rewrite write_file_outdir by reflexivity.
    destruct (walk root cwd ["generated"]) as [ploc|] eqn:Hwalk;
      [|reflexivity].
    apply walk_outdir_inv in Hwalk as [-> _]. now rewrite Hout.
  - destruct (not_dir (find_entry "hits.db" es)) eqn:Hnd.
    + pose proof (database_file_holds cwd db root es Hout Hnd) as Hout'.
      rewrite (stat_outdir cwd _ _ Hout' name Hp).
      rewrite (stat_outdir cwd _ _ Hout name Hp).
      rewrite find_entry_set_entry_ne; [reflexivity|]. congruence.
    + unfold database_file. change DB_FILE with ("generated/" +:+ "hits.db").
      rewrite write_file_outdir by reflexivity.
      rewrite (walk_outdir cwd root es Hout), Hout.
      destruct (find_entry "hits.db" es) as [[?|?]|]; try discriminate.
      reflexivity.
  - unfold database_file. change DB_FILE with ("generated/" +:+ "hits.db").
    rewrite write_file_outdir by reflexivity.
    destruct (walk root cwd ["generated"]) as [ploc|] eqn:Hwalk;
      [|reflexivity].
    apply walk_outdir_inv in Hwalk as [-> [n Hn]]. congruence.
Qed.

(** ** The PDF helper *)

Section Pdf.

Variable cwd : list string.

Lemma save_file_run path c st :
  save_file cwd path c st
  = match write_file (st_fs st) cwd path c with
    | Ok root' => (Ok tt, with_fs (add_event st (EvWrite path c)) root')
    | Raise e => (Raise e, add_event st (EvWrite path c))
    end.
Proof.
  unfold save_file, bind, get_state, log_event, lift, put_fs. simpl.
  destruct (write_file (st_fs st) cwd path c); reflexivity.
Qed.

(** With a readable image of non-zero size the helper saves one page. *)
Lemma create_pdf_run image_path pdf_path page_size url st loc img :
  stat (st_fs st) cwd image_path = Some (loc, File (PngFile img)) ->
  im_width img <> 0 -> im_height img <> 0 ->
  create_pdf_with_clickable_image cwd image_path pdf_path page_size url st
  = save_file cwd pdf_path (PdfFile [clickable_page page_size img url])
      (add_event st (EvOpen image_path)).
Proof.
  intros Hstat Hw Hh. destruct page_size as [width height].
  unfold create_pdf_with_clickable_image, clickable_page, placement.
  unfold bind at 1. unfold ImageReader, bind, get_state, log_event, ret.
  cbn [st_fs]. rewrite Hstat. unfold lift, true_div.
  apply Z.eqb_neq in Hw, Hh. rewrite Hw, Hh.
  destruct (str_truthy url); reflexivity.
Qed.

End Pdf.

(** The Letter page is 612 by 792 points, both exact doubles. *)
Lemma letter_size : letter = (612, 792)%float.
Proof. reflexivity. Qed.

(** The image of the example deployment, 400 by 300, is drawn 540 by 405 at
    (36, 193.5): every intermediate value is a double and nothing is
    rounded. *)
Example placement_400_300 :
  placement letter 400 300 = (36, 193.5, 540, 405)%float.
Proof. vm_compute. reflexivity. Qed.

(** At 133 by 100 the scale 540/133 is rounded, and so is the product that
    gives the width: the image comes out a little wider than the 540 points
    between the margins and starts a little left of the margin. *)
Example placement_133_100 :
  let '(x, y, w, h) := placement letter 133 100 in
  (x <? 36)%float = true /\ (540 <? w)%float = true
  /\ (36 <? y)%float = true /\ (h <? 720)%float = true.
Proof. vm_compute. repeat split. Qed.

(** ** Document names and tracking URLs *)

Lemma has_char_app c s1 s2 :
  has_char c (s1 +:+ s2) = has_char c s1 || has_char c s2.
Proof.
  induction s1 as [|a s1 IH]; simpl; [reflexivity|].
  rewrite IH. now rewrite orb_assoc.
Qed.

Lemma all_chars_take p n s :
  all_chars p s = true -> all_chars p (take_chars n s) = true.
Proof.
  revert s. induction n as [|n IH]; intros [|a s]; simpl; auto.
  intros H. apply andb_prop in H as [Ha Hs]. rewrite Ha. now apply IH.
Qed.

Lemma alphabet_safe a :
  has_char a shortuuid_alphabet = true ->
  url_safe a = true /\ Ascii.eqb a "/" = false.
Proof.
  destruct a as [[] [] [] [] [] [] [] []]; vm_compute; intros H;
    try discriminate H; split; reflexivity.
Qed.

Lemma url_quote_shortuuid s : shortuuid_value s = true -> url_quote s = s.
Proof.
  unfold shortuuid_value. induction s as [|a s IH]; simpl; [reflexivity|].
  intros H. apply andb_prop in H as [Ha Hs].
  apply alphabet_safe in Ha as [-> _]. now rewrite IH.
Qed.

Lemma no_slash_shortuuid s :
  shortuuid_value s = true -> has_char "/" s = false.
Proof.
  unfold shortuuid_value. induction s as [|a s IH]; simpl; [reflexivity|].
  intros H. apply andb_prop in H as [Ha Hs].
  apply alphabet_safe in Ha as [_ ->]. now apply IH.
Qed.

Lemma shortuuid_take n s :
  shortuuid_value s = true -> shortuuid_value (take_chars n s) = true.
Proof. apply all_chars_take. Qed.

Lemma plain_png_name d : has_char "/" d = false -> plain_name (png_name d) = true.
Proof.
  intros H. unfold plain_name, string_converter, png_name.
  rewrite has_char_app, has_char_app, H. reflexivity.
Qed.

Lemma plain_pdf_name d : has_char "/" d = false -> plain_name (pdf_name d) = true.
Proof.
  intros H. unfold plain_name, string_converter, pdf_name.
  rewrite has_char_app, has_char_app, H. reflexivity.
Qed.

Lemma string_app_inv_head (d s1 s2 : string) :
  d +:+ s1 = d +:+ s2 -> s1 = s2.
Proof.
  induction d as [|a d IH]; [auto|].
  change (String a (d +:+ s1) = String a (d +:+ s2) -> s1 = s2).
  intros [= H]. auto.
Qed.

Lemma png_name_ne_pdf_name d : png_name d <> pdf_name d.
Proof.
  unfold png_name, pdf_name. intros H.
  apply string_app_inv_head in H. apply string_app_inv_head in H.
  discriminate H.
Qed.

Lemma string_app_nil_r (s : string) : s +:+ "" = s.
Proof.
  induction s as [|a s IH]; [reflexivity|].
  change (String a (s +:+ "") = String a s). now rewrite IH.
Qed.

Lemma string_app_assoc (a b c : string) : (a +:+ b) +:+ c = a +:+ (b +:+ c).
Proof.
  induction a as [|x a IH]; [reflexivity|].
  change (String x ((a +:+ b) +:+ c) = String x (a +:+ (b +:+ c))).
  now rewrite IH.
Qed.

Lemma contains_doc_ref root doc_ref :
  contains (root +:+ "/click/" +:+ doc_ref) doc_ref.
Proof.
  exists (root +:+ "/click/"), "".
  now rewrite string_app_nil_r, string_app_assoc.
Qed.

(** ** The Document Generator *)

Section Make.

Variable Image_open : string -> outcome Image.
Variable Image_convert : Image -> string -> outcome Image.
Variable cwd : list string.

Lemma base_image_run req st :
  (match supplied (assoc_get "image" (req_files req)) with
   | Some f =>
       let* im := lift (Image_open (fs_stream f)) in
       lift (Image_convert im "RGBA")
   | None => ret (Image_new "RGBA" (800, 600) [255; 255; 255; 255])
   end) st
  = (base_image_of Image_open Image_convert req, st).
Proof.
  unfold base_image_of, decoded_upload.
  destruct (supplied (assoc_get "image" (req_files req))) as [f|];
    [|reflexivity].
  unfold bind, lift. destruct (Image_open (fs_stream f)); reflexivity.
Qed.

(** The context [make] starts from when it generates: an admin session and
    a POST. *)
Lemma make_generates req uuid st :
  truthy (default PNone (st_session st !! "admin")) = true ->
  req_method req = "POST" ->
  make Image_open Image_convert cwd req uuid st
  = (let doc_ref := take_chars 8 uuid in
     let* base_image :=
       lift (base_image_of Image_open Image_convert req) in
     let* _ := save_file cwd (path_join OUTDIR (png_name doc_ref))
                 (PngFile base_image) in
     let* _ := create_pdf_with_clickable_image cwd
                 (path_join OUTDIR (png_name doc_ref))
                 (path_join OUTDIR (pdf_name doc_ref)) letter
                 (Some (url_for req (ep_clickable_redirect doc_ref) true)) in
     ret (RenderTemplate "made_file.html"
            [("doc_ref", TStr doc_ref);
             ("file_url",
              TStr (url_for req (ep_download_generated (png_name doc_ref))
                      true));
             ("file_kind", TStr "PNG");
             ("pdf_url",
              TStr (url_for req (ep_download_generated (pdf_name doc_ref))
                      true));
             ("dl_pdf_url",
              TStr (url_for req (ep_dl_pdf doc_ref (pdf_name doc_ref))
                      true))])) st.
Proof.
  intros Hadm Hpost. unfold make.
  erewrite bind_ok by reflexivity. cbv beta. rewrite Hadm, Hpost.
  change (("POST" =? "POST")%string) with true. cbn [negb]. cbv iota zeta.
  unfold bind at 1 5. rewrite base_image_run. reflexivity.
Qed.

(** A failed decoding of the upload ends [make] with that exception, before
    anything is written. *)
Lemma make_decode_error req uuid st e :
  truthy (default PNone (st_session st !! "admin")) = true ->
  req_method req = "POST" ->
  base_image_of Image_open Image_convert req = Raise e ->
  make Image_open Image_convert cwd req uuid st = (Raise e, st).
Proof.
  intros Hadm Hpost Hraise. rewrite make_generates by assumption.
  cbv zeta. unfold bind at 1. unfold lift. now rewrite Hraise.
Qed.

(** With the output directory in place and no directory where the two files
    go, [make] writes the PNG, builds the PDF from it and answers with the
    links. *)
Lemma make_success req uuid st img es :
  truthy (default PNone (st_session st !! "admin")) = true ->
  req_method req = "POST" ->
  shortuuid_value uuid = true ->
  base_image_of Image_open Image_convert req = Ok img ->
  im_width img <> 0 -> im_height img <> 0 ->
  lookup_node (st_fs st) (cwd ++ ["generated"]) = Some (Dir es) ->
  not_dir (find_entry (png_name (take_chars 8 uuid)) es) = true ->
  not_dir (find_entry (pdf_name (take_chars 8 uuid)) es) = true ->
  let doc_ref := take_chars 8 uuid in
  let url := req_origin req +:+ "/click/" +:+ doc_ref in
  exists st' body,
    make Image_open Image_convert cwd req uuid st
    = (Ok (RenderTemplate "made_file.html" body), st')
    /\ assoc_get "doc_ref" body = Some (TStr doc_ref)
    /\ lookup_node (st_fs st') (cwd ++ ["generated"])
       = Some (Dir (set_entry (pdf_name doc_ref)
                      (File (PdfFile [clickable_page letter img (Some url)]))
                      (set_entry (png_name doc_ref) (File (PngFile img)) es)))
    /\ st_session st' = st_session st /\ st_db st' = st_db st.
Proof.
  intros Hadm Hpost Huuid Himg Hw Hh Hout Hpng Hpdf doc_ref url.
  assert (Hd : shortuuid_value doc_ref = true) by now apply shortuuid_take.
  pose proof (no_slash_shortuuid _ Hd) as Hsl.
  pose proof (plain_png_name _ Hsl) as Hppng.
  pose proof (plain_pdf_name _ Hsl) as Hppdf.
  rewrite make_generates by assumption. cbv zeta. fold doc_ref.
  unfold bind at 1. unfold lift. rewrite Himg.
  rewrite !path_join_outdir by reflexivity.
  destruct (write_outdir cwd (st_fs st) es Hout (png_name doc_ref)
              (PngFile img) Hppng Hpng) as (root1 & Hw1 & Hout1).
  erewrite bind_ok by (rewrite save_file_run, Hw1; reflexivity).
  set (st1 := with_fs (add_event st _) root1).
  assert (Hstat1 : stat (st_fs st1) cwd ("generated/" +:+ png_name doc_ref)
                   = Some (cwd ++ ["generated"; png_name doc_ref],
                           File (PngFile img))).
  { change (st_fs st1) with root1.
    rewrite (stat_outdir cwd root1 _ Hout1 _ Hppng).
    now rewrite find_entry_set_entry_eq. }
  assert (Hpdf1 : not_dir (find_entry (pdf_name doc_ref)
                    (set_entry (png_name doc_ref) (File (PngFile img)) es))
                  = true).
  { rewrite find_entry_set_entry_ne by apply png_name_ne_pdf_name.
    exact Hpdf. }
  assert (Hurl : url_for req (ep_clickable_redirect doc_ref) true = url).
  { unfold url_for, url_path, url. now rewrite (url_quote_shortuuid _ Hd). }
  rewrite Hurl.
  destruct (write_outdir cwd root1 _ Hout1 (pdf_name doc_ref)
              (PdfFile [clickable_page letter img (Some url)]) Hppdf Hpdf1)
    as (root2 & Hw2 & Hout2).
  erewrite bind_ok.
  2:{ rewrite (create_pdf_run cwd _ _ letter (Some url) st1 _ img Hstat1 Hw Hh).
      rewrite save_file_run. cbn [add_event st_fs].
      change (st_fs st1) with root1. rewrite Hw2. reflexivity. }
  eexists _, _. split; [reflexivity|]. split; [reflexivity|].
  split; [exact Hout2|]. split; reflexivity.
Qed.

End Make.

Lemma links_of_clickable_page page_size img url :
  str_truthy (Some url) = true ->
  let '(x, y, w, h) := placement page_size (im_width img) (im_height img) in
  pg_size (clickable_page page_size img (Some url)) = page_size
  /\ image_boxes (pg_ops (clickable_page page_size img (Some url)))
     = [(x, y, x + w, y + h)%float]
  /\ links_of (pg_ops (clickable_page page_size img (Some url)))
     = [(url, (x, y, x + w, y + h)%float)].
Proof.
  intros Hurl. unfold clickable_page.
  destruct (placement page_size (im_width img) (im_height img))
    as [[[x y] w] h].
  rewrite Hurl. repeat split; reflexivity.
Qed.

Lemma click_url_truthy root doc_ref :
  str_truthy (Some (root +:+ "/click/" +:+ doc_ref)) = true.
Proof.
  unfold str_truthy. apply negb_true_iff. apply String.eqb_neq.
  destruct root as [|a root]; discriminate.
Qed.

(** C6. For every document [make] generates, the PDF written under the
    document's name is one page that holds exactly one link annotation; its
    rectangle is the box the image is drawn in, from [(x, y)] to
    [(x + draw_w, y + draw_h)], and its target is the URL of the tracking
    redirect for the document's reference, which therefore occurs in it. *)
Theorem generated_pdf_links_image_to_tracking_url
    (Image_open : string -> outcome Image)
    (Image_convert : Image -> string -> outcome Image)
    (cwd : list string) (req : Request) (uuid : string) (st : State)
    (img : Image) (es : list (string * node)) :
  truthy (default PNone (st_session st !! "admin")) = true ->
  req_method req = "POST" ->
  shortuuid_value uuid = true ->
  base_image_of Image_open Image_convert req = Ok img ->
  0 < im_width img -> 0 < im_height img ->
  lookup_node (st_fs st) (cwd ++ [OUTDIR]) = Some (Dir es) ->
  not_dir (find_entry (png_name (take_chars 8 uuid)) es) = true ->
  not_dir (find_entry (pdf_name (take_chars 8 uuid)) es) = true ->
  let doc_ref := take_chars 8 uuid in
  let url := url_for req (ep_clickable_redirect doc_ref) true in
  exists st' body page x y w h,
    make Image_open Image_convert cwd req uuid st
    = (Ok (RenderTemplate "made_file.html" body), st')
    /\ assoc_get "doc_ref" body = Some (TStr doc_ref)
    /\ stat (st_fs st') cwd (path_join OUTDIR (pdf_name doc_ref))
       = Some (cwd ++ [OUTDIR; pdf_name doc_ref], File (PdfFile [page]))
    /\ image_boxes (pg_ops page) = [(x, y, x + w, y + h)%float]
    /\ links_of (pg_ops page) = [(url, (x, y, x + w, y + h)%float)]
    /\ url = req_origin req +:+ "/click/" +:+ doc_ref
    /\ contains url doc_ref.
Proof.
  intros Hadm Hpost Huuid Himg Hw Hh Hout Hpng Hpdf doc_ref url.
  assert (Hd : shortuuid_value doc_ref = true) by now apply shortuuid_take.
  pose proof (no_slash_shortuuid _ Hd) as Hsl.
  assert (Hurl : url = req_origin req +:+ "/click/" +:+ doc_ref).
  { unfold url, url_for, url_path. now rewrite (url_quote_shortuuid _ Hd). }
  destruct (make_success Image_open Image_convert cwd req uuid st img es
              Hadm Hpost Huuid Himg ltac:(lia) ltac:(lia) Hout Hpng Hpdf)
    as (st' & body & Hrun & Hbody & Hout' & _ & _).
  fold doc_ref in Hout', Hbody. rewrite <- Hurl in Hout'.
  pose proof (links_of_clickable_page letter img url) as Hpage.
  rewrite Hurl in Hpage at 1.
  specialize (Hpage (click_url_truthy _ _)).
  destruct (placement letter (im_width img) (im_height img))
    as [[[x y] w] h].
  destruct Hpage as (_ & Hboxes & Hlinks).
  exists st', body, (clickable_page letter img (Some url)), x, y, w, h.
  split; [exact Hrun|]. split; [exact Hbody|]. split.
  { rewrite path_join_outdir by reflexivity.
    rewrite (stat_outdir cwd _ _ Hout' _ (plain_pdf_name _ Hsl)).
    now rewrite find_entry_set_entry_eq. }
  split; [exact Hboxes|]. split; [exact Hlinks|]. split; [exact Hurl|].
  rewrite Hurl. apply contains_doc_ref.
Qed.

(** C6 at a closed instance: an upload that decodes to the 400 by 300 image,
    generated under the reference ["Zk4mQ7xT"]. *)
Lemma generated_pdf_links_image_to_tracking_url_witness :
  let doc_ref := take_chars 8 "Zk4mQ7xTw9pB" in
  let url := url_for ex_make_upload (ep_clickable_redirect doc_ref) true in
  exists st' body page x y w h,
    make ex_open_ok ex_convert ex_cwd ex_make_upload "Zk4mQ7xTw9pB"
      ex_admin_state
    = (Ok (RenderTemplate "made_file.html" body), st')
    /\ assoc_get "doc_ref" body = Some (TStr doc_ref)
    /\ stat (st_fs st') ex_cwd (path_join OUTDIR (pdf_name doc_ref))
       = Some (ex_cwd ++ [OUTDIR; pdf_name doc_ref], File (PdfFile [page]))
    /\ image_boxes (pg_ops page) = [(x, y, x + w, y + h)%float]
    /\ links_of (pg_ops page) = [(url, (x, y, x + w, y + h)%float)]
    /\ url = req_origin ex_make_upload +:+ "/click/" +:+ doc_ref
    /\ contains url doc_ref.
Proof.
  apply (generated_pdf_links_image_to_tracking_url ex_open_ok ex_convert
           ex_cwd ex_make_upload "Zk4mQ7xTw9pB" ex_admin_state ex_image
           [("hits.db", File (SqliteFile (init_db None)));
            ("document_Ab3dE9ZX.png", File (PngFile ex_image));
            ("document_Ab3dE9ZX.pdf", File (PdfFile []))]).
  - vm_compute. reflexivity.
  - reflexivity.
  - vm_compute. reflexivity.
  - vm_compute. reflexivity.
  - reflexivity.
  - reflexivity.
  - vm_compute. reflexivity.
  - vm_compute. reflexivity.
  - vm_compute. reflexivity.
Defined.

Example generated_link_target :
  url_for ex_make_upload (ep_clickable_redirect "Zk4mQ7xT") true
  = "http://tracker.example/click/Zk4mQ7xT".
Proof. vm_compute. reflexivity. Qed.

(** ** The page of a generated document *)




(** ** The blank canvas *)

Lemma blank_canvas_spec :
  im_mode blank_canvas = "RGBA"
  /\ im_width blank_canvas = 800 /\ im_height blank_canvas = 600
  /\ Z.of_nat (length (im_pixels blank_canvas)) = 800 * 600
  /\ Forall (fun px => px = [255; 255; 255; 255]) (im_pixels blank_canvas).
Proof.
  split; [reflexivity|]. split; [reflexivity|]. split; [reflexivity|].
  unfold blank_canvas, Image_new. cbn [im_pixels fst snd]. split.
  - rewrite repeat_length. apply Z2Nat.id. lia.
  - apply List.Forall_forall. intros px Hin. now apply repeat_spec in Hin.
Qed.

(** C7. In [make], when no image is supplied the PNG artifact is the blank
    canvas: 800 by 600, mode RGBA, every pixel opaque white.  When an image
    is supplied and decoding it raises, [make] ends with that exception and
    has written nothing: the blank canvas does not stand in for the upload. *)
Theorem make_blank_canvas_or_decode_error
    (Image_open : string -> outcome Image)
    (Image_convert : Image -> string -> outcome Image)
    (cwd : list string) (req : Request) (uuid : string) (st : State) :
  truthy (default PNone (st_session st !! "admin")) = true ->
  req_method req = "POST" ->
  (decoded_upload Image_open Image_convert req = None ->
   forall es,
     shortuuid_value uuid = true ->
     lookup_node (st_fs st) (cwd ++ [OUTDIR]) = Some (Dir es) ->
     not_dir (find_entry (png_name (take_chars 8 uuid)) es) = true ->
     not_dir (find_entry (pdf_name (take_chars 8 uuid)) es) = true ->
     exists st' body,
       make Image_open Image_convert cwd req uuid st
       = (Ok (RenderTemplate "made_file.html" body), st')
       /\ stat (st_fs st') cwd (path_join OUTDIR (png_name (take_chars 8 uuid)))
          = Some (cwd ++ [OUTDIR; png_name (take_chars 8 uuid)],
                  File (PngFile blank_canvas)))
  /\ (im_mode blank_canvas = "RGBA"
      /\ im_width blank_canvas = 800 /\ im_height blank_canvas = 600
      /\ Z.of_nat (length (im_pixels blank_canvas)) = 800 * 600
      /\ Forall (fun px => px = [255; 255; 255; 255]) (im_pixels blank_canvas))
  /\ (forall e,
        decoded_upload Image_open Image_convert req = Some (Raise e) ->
        make Image_open Image_convert cwd req uuid st = (Raise e, st)).
Proof.
  intros Hadm Hpost. split; [|split; [apply blank_canvas_spec|]].
  - intros Hnone es Huuid Hout Hpng Hpdf.
    assert (Himg : base_image_of Image_open Image_convert req
                   = Ok blank_canvas).
    { unfold base_image_of. now rewrite Hnone. }
    destruct (make_success Image_open Image_convert cwd req uuid st
                blank_canvas es Hadm Hpost Huuid Himg)
      as (st' & body & Hrun & _ & Hout' & _ & _); auto; try discriminate.
    exists st', body. split; [exact Hrun|].
    assert (Hd : shortuuid_value (take_chars 8 uuid) = true)
      by now apply shortuuid_take.
    pose proof (no_slash_shortuuid _ Hd) as Hsl.
    rewrite path_join_outdir by reflexivity.
    rewrite (stat_outdir cwd _ _ Hout' _ (plain_png_name _ Hsl)).
    rewrite find_entry_set_entry_ne
      by (intros E; symmetry in E; revert E; apply png_name_ne_pdf_name).
    now rewrite find_entry_set_entry_eq.
  - intros e Hraise. apply make_decode_error; auto.
    unfold base_image_of. now rewrite Hraise.
Qed.

(** C7 at a closed instance: a corrupt upload. *)
Lemma make_blank_canvas_or_decode_error_witness :
  make ex_open_bad ex_convert ex_cwd ex_make_upload "Zk4mQ7xTw9pB"
    ex_admin_state
  = (Raise "UnidentifiedImageError", ex_admin_state).
Proof.
  apply (make_blank_canvas_or_decode_error ex_open_bad ex_convert ex_cwd
           ex_make_upload "Zk4mQ7xTw9pB" ex_admin_state).
  - vm_compute. reflexivity.
  - reflexivity.
  - vm_compute. reflexivity.
Defined.

(** ** The model at work *)

Example client_ip_first_forwarded : client_ip ex_request = "203.0.113.7".
Proof. vm_compute. reflexivity. Qed.

Example client_ip_peer : client_ip ex_login = "10.0.0.1".
Proof. vm_compute. reflexivity. Qed.

Example click_records_located_hit :
  let run := clickable_redirect ex_net_up ex_cwd ex_request
               "2026-11-03T09:12:00" "Ab3dE9ZX" ex_state in
  fst run = Ok (Redirect "https://your-site.com/thank-you")
  /\ hits (st_db (snd run))
     = [{| hit_id := 1; hit_doc_ref := "Ab3dE9ZX";
           hit_user_id := PStr "anonymous"; hit_ip := "203.0.113.7";
           hit_ua := "Mozilla/5.0"; hit_ts := "2026-11-03T09:12:00Z";
           hit_lat := PFloat 48.875; hit_lon := PFloat 2.375;
           hit_city := PStr "Paris"; hit_region := PStr "Ile-de-France";
           hit_country := PStr "France" |}].
Proof. vm_compute. split; reflexivity. Qed.

Example click_without_location :
  map values_of
    (hits (st_db (snd (clickable_redirect ex_net_down ex_cwd ex_request
                         "2026-11-03T09:12:00" "Ab3dE9ZX" ex_state))))
  = [{| v_doc_ref := "Ab3dE9ZX"; v_user_id := PStr "anonymous";
        v_ip := "203.0.113.7"; v_ua := "Mozilla/5.0";
        v_ts := "2026-11-03T09:12:00Z"; v_lat := PNone; v_lon := PNone;
        v_city := PNone; v_region := PNone; v_country := PNone |}].
Proof. vm_compute. reflexivity. Qed.

Example two_clicks_newest_first :
  let click doc_ref :=
    clickable_redirect ex_net_down ex_cwd ex_request "2026-11-03T09:12:00"
      doc_ref in
  let run := (let* _ := click "first" in
              let* _ := click "second" in
              fetch_hits 2) ex_state in
  match fst run with
  | Ok rows => map (fun r => (hit_id r, hit_doc_ref r)) rows
               = [(2, "second"); (1, "first")]
  | Raise _ => False
  end.
Proof. vm_compute. reflexivity. Qed.

Example make_requires_admin :
  make ex_open_ok ex_convert ex_cwd ex_make_upload "Zk4mQ7xTw9pB" ex_state
  = (Ok (Redirect "/login"), ex_state).
Proof. vm_compute. reflexivity. Qed.

Example login_then_make_page :
  let run := (let* _ := login ex_environ
                          {| req_method := "POST";
                             req_x_forwarded_for := None;
                             req_user_agent := None;
                             req_remote_addr := "10.0.0.1";
                             req_form := [("password", "admin")];
                             req_files := [];
                             req_origin := "http://tracker.example" |} in
              make ex_open_ok ex_convert ex_cwd ex_request "Zk4mQ7xTw9pB")
               ex_state in
  fst run = Ok (RenderTemplate "make.html" []).
Proof. vm_compute. reflexivity. Qed.

(** * Further properties of the application *)

(** ** What a computation leaves alone *)

Lemma preserves_ret {A T} (f : State -> T) (a : A) : preserves f (ret a).
Proof. intros st. reflexivity. Qed.

Lemma preserves_raise {A T} (f : State -> T) e : preserves f (@raise A e).
Proof. intros st. reflexivity. Qed.

Lemma preserves_lift {A T} (f : State -> T) (o : outcome A) :
  preserves f (lift o).
Proof. intros st. reflexivity. Qed.

Lemma preserves_bind {A B T} (f : State -> T) (m : M A) (k : A -> M B) :
  preserves f m -> (forall a, preserves f (k a)) -> preserves f (bind m k).
Proof.
  intros Hm Hk st. unfold bind. specialize (Hm st).
  destruct (m st) as [[a|e] st1]; simpl in *; [|exact Hm].
  now rewrite Hk.
Qed.

Lemma preserves_try_except {A T} (f : State -> T) (m : M A) h :
  preserves f m -> (forall e, preserves f (h e)) ->
  preserves f (try_except m h).
Proof.
  intros Hm Hh st. unfold try_except. specialize (Hm st).
  destruct (m st) as [[a|e] st1]; simpl in *; [exact Hm|].
  now rewrite Hh.
Qed.

Ltac frame :=
  repeat first
    [ apply preserves_ret | apply preserves_raise | apply preserves_lift
    | apply preserves_bind; [|intros ?]
    | apply preserves_try_except; [|intros ?]
    | match goal with
      | |- preserves _ (match ?x with _ => _ end) => destruct x
      | |- preserves _ (let _ := _ in _) => cbv zeta
      end
    | intros ?; reflexivity ].

Section Frames.

Variable environ : gmap string string.
Variable http_get_json : string -> json_answer.
Variable Image_open : string -> outcome Image.
Variable Image_convert : Image -> string -> outcome Image.
Variable cwd : list string.

Lemma save_file_keeps_db path c : preserves st_db (save_file cwd path c).
Proof using Type. unfold save_file. frame. Qed.

Lemma save_file_keeps_session path c :
  preserves st_session (save_file cwd path c).
Proof using Type. unfold save_file. frame. Qed.

Lemma create_pdf_keeps_db image_path pdf_path page_size url :
  preserves st_db
    (create_pdf_with_clickable_image cwd image_path pdf_path page_size url).
Proof using Type.
  unfold create_pdf_with_clickable_image, ImageReader, save_file. frame.
Qed.

Lemma create_pdf_keeps_session image_path pdf_path page_size url :
  preserves st_session
    (create_pdf_with_clickable_image cwd image_path pdf_path page_size url).
Proof using Type.
  unfold create_pdf_with_clickable_image, ImageReader, save_file. frame.
Qed.

Lemma make_keeps_db req uuid :
  preserves st_db (make Image_open Image_convert cwd req uuid).
Proof using Type.
  unfold make, session_get.
  apply preserves_bind; [intros ?; reflexivity | intros a].
  destruct (negb (truthy a)); [frame|].
  destruct (String.eqb (req_method req) "POST"); [|frame].
  apply preserves_bind; [frame | intros base_image].
  apply preserves_bind; [apply save_file_keeps_db | intros _].
  apply preserves_bind; [apply create_pdf_keeps_db | intros _]. frame.
Qed.

Lemma make_keeps_session req uuid :
  preserves st_session (make Image_open Image_convert cwd req uuid).
Proof using Type.
  unfold make, session_get.
  apply preserves_bind; [intros ?; reflexivity | intros a].
  destruct (negb (truthy a)); [frame|].
  destruct (String.eqb (req_method req) "POST"); [|frame].
  apply preserves_bind; [frame | intros base_image].
  apply preserves_bind; [apply save_file_keeps_session | intros _].
  apply preserves_bind; [apply create_pdf_keeps_session | intros _]. frame.
Qed.

Lemma login_keeps_db req : preserves st_db (login environ req).
Proof using Type. unfold login. frame. Qed.


Lemma logs_keeps_db req : preserves st_db (logs req).
Proof using Type. unfold logs, session_get, fetch_hits. frame. Qed.


Lemma logs_keeps_session req : preserves st_session (logs req).
Proof using Type. unfold logs, session_get, fetch_hits. frame. Qed.


Lemma download_generated_keeps_session name :
  preserves st_session (download_generated cwd name).
Proof using Type.
  unfold download_generated, os_path_exists, send_file. frame.
Qed.

Lemma geo_ip_keeps_fs ip : preserves st_fs (geo_ip http_get_json ip).
Proof using Type. unfold geo_ip, requests_get_json. frame. Qed.

Lemma geo_ip_keeps_session ip :
  preserves st_session (geo_ip http_get_json ip).
Proof using Type. unfold geo_ip, requests_get_json. frame. Qed.


Lemma clickable_redirect_keeps_session req utcnow doc_ref :
  preserves st_session
    (clickable_redirect http_get_json cwd req utcnow doc_ref).
Proof using Type.
  intros st. now rewrite clickable_redirect_run.
Qed.

Lemma dl_pdf_tail_keeps {T} (f : State -> T) pdfname :
  (forall st e, f (add_event st e) = f st) ->
  preserves f
    (let* e := os_path_exists cwd (path_join OUTDIR pdfname) in
     if negb e then ret (Text "Not found" 404)
     else send_file cwd (path_join OUTDIR pdfname) true pdfname
            "application/pdf").
Proof using Type.
  intros Hf st. erewrite bind_ok by apply os_path_exists_run.
  destruct (negb _); [|rewrite send_file_run]; simpl; now rewrite ?Hf.
Qed.


Lemma dl_pdf_keeps_session req utcnow doc_ref pdfname :
  preserves st_session (dl_pdf http_get_json cwd req utcnow doc_ref pdfname).
Proof using Type.
  intros st. rewrite dl_pdf_run.
  now rewrite (dl_pdf_tail_keeps st_session pdfname) by reflexivity.
Qed.

Lemma dl_pdf_db req utcnow doc_ref pdfname st :
  st_db (snd (dl_pdf http_get_json cwd req utcnow doc_ref pdfname st))
  = sql_insert_hit (st_db st) (recorded http_get_json req utcnow doc_ref st).
Proof using Type.
  rewrite dl_pdf_run.
  now rewrite (dl_pdf_tail_keeps st_db pdfname) by reflexivity.
Qed.

End Frames.

(** ** The store under every view *)

Lemma recorded_row_fields http_get_json req utcnow doc_ref st :
  let row := recorded_row http_get_json req utcnow doc_ref st in
  hit_id row = next_rowid (st_db st)
  /\ hit_doc_ref row = doc_ref
  /\ hit_user_id row = default (PStr "anonymous") (st_session st !! "user_id")
  /\ hit_ip row = client_ip req
  /\ hit_ua row = default "" (req_user_agent req)
  /\ hit_ts row = utcnow +:+ "Z".
Proof.
  unfold recorded_row, recorded.
  destruct (geo_of _) as [[[[lat lon] city] region] country].
  repeat split; reflexivity.
Qed.

Lemma next_rowid_above db r : In r (hits db) -> hit_id r < next_rowid db.
Proof.
  intros Hin. apply max_rowid_bound in Hin. unfold next_rowid. lia.
Qed.

Lemma ids_increasing_snoc rows r :
  ids_increasing rows ->
  (forall x, In x rows -> hit_id x < hit_id r) ->
  ids_increasing (rows ++ [r]).
Proof.
  unfold ids_increasing. induction 1 as [|x rows Hs IH Hx]; intros Hr; simpl.
  - repeat constructor.
  - constructor.
    + apply IH. intros y Hy. apply Hr. now right.
    + apply List.Forall_app. split; [exact Hx|].
      constructor; [|constructor]. apply Hr. now left.
Qed.

Section Views.

Variable environ : gmap string string.
Variable http_get_json : string -> json_answer.
Variable Image_open : string -> outcome Image.
Variable Image_convert : Image -> string -> outcome Image.
Variable cwd : list string.

Local Abbreviation serve :=
  (dispatch_request environ http_get_json Image_open Image_convert cwd).
Local Abbreviation serve_calls :=
  (serve_all environ http_get_json Image_open Image_convert cwd).

Lemma dispatch_db req utcnow uuid ep st :
  st_db (snd (serve req utcnow uuid ep st))
  = if tracked_endpoint ep
    then sql_insert_hit (st_db st)
           (recorded http_get_json req utcnow (endpoint_doc_ref ep) st)
    else st_db st.
Proof using Type.
  destruct ep; simpl.
  - reflexivity.
  - apply login_keeps_db.
  - reflexivity.
  - apply make_keeps_db.
  - now rewrite clickable_redirect_run.
  - apply dl_pdf_db.
  - apply download_generated_db.
  - apply logs_keeps_db.
Qed.


Lemma login_session req st :
  st_session (snd (login environ req st)) = st_session st
  \/ (req_method req = "POST"
      /\ default "" (assoc_get "password" (req_form req)) = ADMIN_PASS environ
      /\ st_session (snd (login environ req st))
         = <["admin" := PBool true]> (st_session st)).
Proof using Type.
  unfold login.
  destruct (String.eqb_spec (req_method req) "POST") as [Hp|]; [|now left].
  destruct (String.eqb_spec (default "" (assoc_get "password" (req_form req)))
              (ADMIN_PASS environ)) as [Hpw|]; [|now left].
  right. auto.
Qed.

Lemma dispatch_session req utcnow uuid ep st :
  changes_session ep = false ->
  st_session (snd (serve req utcnow uuid ep st)) = st_session st.
Proof using Type.
  destruct ep; simpl; intros Hm; try discriminate.
  - reflexivity.
  - apply make_keeps_session.
  - apply clickable_redirect_keeps_session.
  - apply dl_pdf_keeps_session.
  - apply download_generated_keeps_session.
  - apply logs_keeps_session.
Qed.

Lemma dispatch_user_id req utcnow uuid ep st :
  st_session st !! "user_id" = None ->
  st_session (snd (serve req utcnow uuid ep st)) !! "user_id" = None.
Proof using Type.
  intros Hnone.
  destruct (changes_session ep) eqn:Hc;
    [|now rewrite dispatch_session].
  destruct ep; try discriminate; simpl.
  - destruct (login_session req st) as [-> | (_ & _ & ->)]; [exact Hnone|].
    now rewrite lookup_insert_ne.
  - apply lookup_empty.
Qed.

(** The rows a run of requests adds, in order. *)
Lemma serve_all_hits calls st :
  exists new,
    hits (st_db (serve_calls calls st)) = hits (st_db st) ++ new
    /\ map hit_doc_ref new
       = map endpoint_doc_ref
           (List.filter tracked_endpoint (map call_endpoint calls))
    /\ (ids_increasing (hits (st_db st)) ->
        ids_increasing (hits (st_db st) ++ new))
    /\ (st_session st !! "user_id" = None ->
        Forall (fun r => hit_user_id r = PStr "anonymous") new)
    /\ users (st_db (serve_calls calls st)) = users (st_db st).
Proof using Type.
  revert st. induction calls as [|c calls IH]; intros st; simpl.
  - exists []. rewrite app_nil_r. repeat split; auto.
  - set (st1 := snd (serve (call_request c) (call_utcnow c) (call_uuid c)
                       (call_endpoint c) st)).
    destruct (IH st1) as (new & Hhits & Hrefs & Hinc & Hanon & Husers).
    pose proof (dispatch_db (call_request c) (call_utcnow c) (call_uuid c)
                  (call_endpoint c) st) as Hdb.
    pose proof (dispatch_user_id (call_request c) (call_utcnow c)
                  (call_uuid c) (call_endpoint c) st) as Huid.
    fold st1 in Hdb, Huid.
    destruct (tracked_endpoint (call_endpoint c)) eqn:Htr.
    + set (row := recorded_row http_get_json (call_request c) (call_utcnow c)
                    (endpoint_doc_ref (call_endpoint c)) st).
      pose proof (recorded_row_fields http_get_json (call_request c)
                    (call_utcnow c) (endpoint_doc_ref (call_endpoint c)) st)
        as (Hid & Href & Hu & _).
      fold row in Hid, Href, Hu.
      assert (Hh1 : hits (st_db st1) = hits (st_db st) ++ [row])
        by now rewrite Hdb.
      exists (row :: new). rewrite Hhits, Hh1, <- app_assoc. simpl.
      split; [reflexivity|]. split; [f_equal; [exact Href | exact Hrefs]|].
      split; [|split].
      * intros Hs.
        replace (hits (st_db st) ++ row :: new)
          with ((hits (st_db st) ++ [row]) ++ new)
          by now rewrite <- app_assoc.
        rewrite <- Hh1. apply Hinc. rewrite Hh1.
        apply ids_increasing_snoc; [exact Hs|].
        intros x Hx. rewrite Hid. now apply next_rowid_above.
      * intros Hnone. constructor; [now rewrite Hu, Hnone | auto].
      * now rewrite Husers, Hdb.
    + exists new. rewrite Hhits, Hdb. split; [reflexivity|].
      split; [exact Hrefs|]. rewrite Hdb in Hinc.
      split; [exact Hinc|]. split; [auto|]. now rewrite Husers, Hdb.
Qed.

End Views.

(** ** Reading the store *)

Lemma insert_desc_perm r l : Permutation (insert_desc r l) (r :: l).
Proof.
  induction l as [|r' l IH]; simpl; [reflexivity|].
  destruct (hit_id r' <? hit_id r); [reflexivity|].
  rewrite IH. apply perm_swap.
Qed.

Lemma order_by_id_desc_perm rows : Permutation (order_by_id_desc rows) rows.
Proof.
  induction rows as [|r rows IH]; simpl; [reflexivity|].
  unfold order_by_id_desc in *. simpl. rewrite insert_desc_perm.
  now constructor.
Qed.

Lemma insert_desc_sorted r l :
  ids_descending l -> ids_descending (insert_desc r l).
Proof.
  unfold ids_descending. induction 1 as [|r' l Hs IH Hr']; simpl.
  - repeat constructor.
  - destruct (Z.ltb_spec (hit_id r') (hit_id r)) as [Hlt|Hge].
    + constructor; [now constructor|].
      constructor; [lia|].
      eapply List.Forall_impl; [|exact Hr']. simpl. intros; lia.
    + constructor; [exact IH|].
      apply List.Forall_forall. intros x Hx.
      apply in_insert_desc in Hx as [-> | Hx]; [exact Hge|].
      rewrite List.Forall_forall in Hr'. now apply Hr'.
Qed.

Lemma order_by_id_desc_sorted rows : ids_descending (order_by_id_desc rows).
Proof.
  induction rows as [|r rows IH]; simpl; [constructor|].
  now apply insert_desc_sorted.
Qed.

Lemma ids_descending_app l1 l2 :
  ids_descending (l1 ++ l2) ->
  ids_descending l1
  /\ forall a b, In a l1 -> In b l2 -> hit_id b <= hit_id a.
Proof.
  unfold ids_descending. induction l1 as [|x l1 IH]; simpl; intros Hs.
  - split; [constructor | tauto].
  - inversion Hs as [|? ? Hs' Hx]; subst.
    destruct (IH Hs') as [Hl1 Hcross]. split.
    + constructor; [exact Hl1|].
      apply List.Forall_app in Hx. tauto.
    + intros a b [<- | Ha] Hb; [|now apply Hcross].
      rewrite List.Forall_forall in Hx. apply Hx.
      apply in_or_app. now right.
Qed.

(** What the SELECT returns: the head of the table sorted by decreasing id. *)
Lemma sql_select_hits_spec db limit :
  exists rest,
    Permutation (sql_select_hits db limit ++ rest) (hits db)
    /\ ids_descending (sql_select_hits db limit)
    /\ (forall a b, In a (sql_select_hits db limit) -> In b rest ->
          hit_id b <= hit_id a)
    /\ (limit < 0 \/ Z.of_nat (length (hits db)) <= limit -> rest = []).
Proof.
  unfold sql_select_hits, sql_limit.
  destruct (Z.ltb_spec limit 0) as [Hneg|Hpos].
  - exists []. rewrite app_nil_r. split; [apply order_by_id_desc_perm|].
    split; [apply order_by_id_desc_sorted|]. split; [simpl; tauto | auto].
  - exists (skipn (Z.to_nat limit) (order_by_id_desc (hits db))).
    rewrite firstn_skipn. split; [apply order_by_id_desc_perm|].
    pose proof (order_by_id_desc_sorted (hits db)) as Hs.
    rewrite <- (firstn_skipn (Z.to_nat limit)) in Hs.
    apply ids_descending_app in Hs as [Hs Hcross].
    split; [exact Hs|]. split; [exact Hcross|].
    intros [Hlt | Hall]; [lia|].
    apply skipn_all2. rewrite length_order_by_id_desc. lia.
Qed.

Lemma logs_run_admin req st :
  truthy (default PNone (st_session st !! "admin")) = true ->
  logs req st
  = (Ok (RenderTemplate "logs.html"
           [("table_data", TRows (sql_select_hits (st_db st) 1000))]),
     add_event st (EvSqlSelect 1000)).
Proof.
  intros Hadm. unfold logs, bind, session_get. now rewrite Hadm.
Qed.

Lemma logs_without_admin req st :
  truthy (default PNone (st_session st !! "admin")) = false ->
  logs req st = (Ok (Redirect "/login"), st).
Proof.
  intros Hadm. unfold logs, bind, session_get. now rewrite Hadm.
Qed.

Lemma make_get_admin Image_open Image_convert cwd req uuid st :
  truthy (default PNone (st_session st !! "admin")) = true ->
  req_method req <> "POST" ->
  make Image_open Image_convert cwd req uuid st
  = (Ok (RenderTemplate "make.html" []), st).
Proof.
  intros Hadm Hm. unfold make, bind, session_get. rewrite Hadm. simpl.
  destruct (String.eqb_spec (req_method req) "POST"); [contradiction|].
  reflexivity.
Qed.

(** X1. [fetch_hits] reads without writing: for every limit it returns the
    rows of the table with the largest ids, in order of decreasing id; the
    rows it leaves out have ids no larger than those it returns, and it
    leaves none out when the limit is negative or at least the size of the
    table. *)
Theorem fetch_hits_returns_newest_rows (st : State) (limit : Z) :
  exists rows rest,
    fetch_hits limit st = (Ok rows, add_event st (EvSqlSelect limit))
    /\ Permutation (rows ++ rest) (hits (st_db st))
    /\ ids_descending rows
    /\ (forall a b, In a rows -> In b rest -> hit_id b <= hit_id a)
    /\ (limit < 0 \/ Z.of_nat (length (hits (st_db st))) <= limit ->
        rest = [])
    /\ (0 <= limit -> Z.of_nat (length rows) <= limit).
Proof.
  destruct (sql_select_hits_spec (st_db st) limit)
    as (rest & Hperm & Hsort & Hcross & Hall).
  exists (sql_select_hits (st_db st) limit), rest.
  split; [reflexivity|]. repeat split; auto.
  intros Hpos. rewrite length_sql_select_hits.
  destruct (Z.ltb_spec limit 0); lia.
Qed.

(** X2. With the admin flag set, [/logs] renders the log page with at most
    1000 rows, the ones with the largest ids, newest first, and changes
    nothing but the trace of the read. *)
Theorem logs_shows_newest_rows (req : Request) (st : State) :
  truthy (default PNone (st_session st !! "admin")) = true ->
  exists rows rest,
    logs req st
    = (Ok (RenderTemplate "logs.html" [("table_data", TRows rows)]),
       add_event st (EvSqlSelect 1000))
    /\ Permutation (rows ++ rest) (hits (st_db st))
    /\ ids_descending rows
    /\ (forall a b, In a rows -> In b rest -> hit_id b <= hit_id a)
    /\ (length rows <= 1000)%nat
    /\ ((length (hits (st_db st)) <= 1000)%nat -> rest = []).
Proof.
  intros Hadm.
  destruct (sql_select_hits_spec (st_db st) 1000)
    as (rest & Hperm & Hsort & Hcross & Hall).
  exists (sql_select_hits (st_db st) 1000), rest.
  split; [now apply logs_run_admin|]. repeat split; auto.
  - rewrite length_sql_select_hits.
    change (1000 <? 0) with false. cbv iota. lia.
  - intros Hlen. apply Hall. right. lia.
Qed.

Lemma logs_shows_newest_rows_witness :
  exists rows rest,
    logs ex_request ex_admin_state
    = (Ok (RenderTemplate "logs.html" [("table_data", TRows rows)]),
       add_event ex_admin_state (EvSqlSelect 1000))
    /\ Permutation (rows ++ rest) (hits (st_db ex_admin_state))
    /\ ids_descending rows
    /\ (forall a b, In a rows -> In b rest -> hit_id b <= hit_id a)
    /\ (length rows <= 1000)%nat
    /\ ((length (hits (st_db ex_admin_state)) <= 1000)%nat -> rest = []).
Proof.
  apply (logs_shows_newest_rows ex_request ex_admin_state).
  vm_compute. reflexivity.
Defined.

(** ** Access control, further *)

(** X3. A POST to [/login] with the configured password sets the admin flag
    and redirects to [/make]; store and files are untouched, and from then
    on [/make] shows the form and [/logs] the log page instead of the
    redirect to the login page. *)
Theorem login_with_password_opens_pages
    (environ : gmap string string) (req : Request) (st : State) :
  req_method req = "POST" ->
  default "" (assoc_get "password" (req_form req)) = ADMIN_PASS environ ->
  exists st',
    login environ req st = (Ok (Redirect "/make"), st')
    /\ st_session st' = <["admin" := PBool true]> (st_session st)
    /\ st_flashes st' = st_flashes st
    /\ st_db st' = st_db st /\ st_fs st' = st_fs st
    /\ (forall Image_open Image_convert cwd req' uuid,
          req_method req' <> "POST" ->
          make Image_open Image_convert cwd req' uuid st'
          = (Ok (RenderTemplate "make.html" []), st'))
    /\ (forall req',
          fst (logs req' st')
          = Ok (RenderTemplate "logs.html"
                  [("table_data", TRows (sql_select_hits (st_db st) 1000))])).
Proof.
  intros Hpost Hpw. unfold login. rewrite Hpost, Hpw.
  rewrite !String.eqb_refl.
  eexists. split; [reflexivity|]. cbn [st_session st_flashes st_db st_fs].
  assert (Hadm : truthy (default PNone
                   (<["admin" := PBool true]> (st_session st) !! "admin"))
                 = true) by now rewrite lookup_insert_eq.
  do 4 (split; [reflexivity|]). split.
  - intros. now apply make_get_admin.
  - intros req'. now rewrite logs_run_admin.
Qed.

Lemma login_with_password_opens_pages_witness :
  exists st',
    login ex_environ ex_login_ok ex_state = (Ok (Redirect "/make"), st')
    /\ st_session st' = <["admin" := PBool true]> (st_session ex_state)
    /\ st_flashes st' = st_flashes ex_state
    /\ st_db st' = st_db ex_state /\ st_fs st' = st_fs ex_state
    /\ (forall Image_open Image_convert cwd req' uuid,
          req_method req' <> "POST" ->
          make Image_open Image_convert cwd req' uuid st'
          = (Ok (RenderTemplate "make.html" []), st'))
    /\ (forall req',
          fst (logs req' st')
          = Ok (RenderTemplate "logs.html"
                  [("table_data",
                    TRows (sql_select_hits (st_db ex_state) 1000))])).
Proof.
  apply (login_with_password_opens_pages ex_environ ex_login_ok ex_state).
  - reflexivity.
  - vm_compute. reflexivity.
Defined.

(** X4. [/logout] empties the session, whatever it held, and redirects to
    the landing page; store and files are untouched, and [/make] and [/logs]
    answer with the redirect to the login page again. *)
Theorem logout_closes_pages (req : Request) (st : State) :
  exists st',
    logout req st = (Ok (Redirect "/"), st')
    /\ st_session st' = ∅ /\ st_flashes st' = []
    /\ st_db st' = st_db st /\ st_fs st' = st_fs st
    /\ st_trace st' = st_trace st
    /\ (forall Image_open Image_convert cwd req' uuid,
          make Image_open Image_convert cwd req' uuid st'
          = (Ok (Redirect "/login"), st'))
    /\ (forall req', logs req' st' = (Ok (Redirect "/login"), st')).
Proof.
  eexists. split; [reflexivity|].
  cbn [st_session st_flashes st_db st_fs st_trace].
  do 5 (split; [reflexivity|]). split.
  - intros. now apply make_without_admin.
  - intros. now apply logs_without_admin.
Qed.

(** X5. Without a truthy admin flag in the session, [/make] and [/logs]
    answer with the redirect to the login page and do nothing else: no file
    is written, the store is not read, the context is as before. *)
Theorem pages_redirect_without_admin
    (Image_open : string -> outcome Image)
    (Image_convert : Image -> string -> outcome Image)
    (cwd : list string) (req : Request) (uuid : string) (st : State) :
  truthy (default PNone (st_session st !! "admin")) = false ->
  make Image_open Image_convert cwd req uuid st = (Ok (Redirect "/login"), st)
  /\ logs req st = (Ok (Redirect "/login"), st).
Proof.
  intros Hadm. split; [now apply make_without_admin|].
  now apply logs_without_admin.
Qed.

(** X5 at a closed instance: a POST with an upload, a session whose admin
    entry is the number 0. *)
Lemma pages_redirect_without_admin_witness :
  let st := {| st_session := {["admin" := PInt 0]}; st_flashes := [];
               st_db := init_db None; st_fs := ex_root; st_trace := [] |} in
  make ex_open_ok ex_convert ex_cwd ex_make_upload "Zk4mQ7xTw9pB" st
  = (Ok (Redirect "/login"), st)
  /\ logs ex_make_upload st = (Ok (Redirect "/login"), st).
Proof.
  apply (pages_redirect_without_admin ex_open_ok ex_convert ex_cwd
           ex_make_upload "Zk4mQ7xTw9pB").
  vm_compute. reflexivity.
Defined.

(** ** What the views never do *)

Section Never.

Variable environ : gmap string string.
Variable http_get_json : string -> json_answer.
Variable Image_open : string -> outcome Image.
Variable Image_convert : Image -> string -> outcome Image.
Variable cwd : list string.


End Never.

(** X6. Whatever the view, one request leaves the rows of [hits] in place
    and appends at most one: exactly one, numbered above every row of the
    table, for the tracking redirect and the tracked PDF download, none for
    the other views; table [users] is never written. *)
Theorem views_only_append_hits
    (environ : gmap string string) (http_get_json : string -> json_answer)
    (Image_open : string -> outcome Image)
    (Image_convert : Image -> string -> outcome Image) (cwd : list string)
    (req : Request) (utcnow uuid : string) (ep : endpoint) (st : State) :
  let st' := snd (dispatch_request environ http_get_json Image_open
                    Image_convert cwd req utcnow uuid ep st) in
  let row := recorded_row http_get_json req utcnow (endpoint_doc_ref ep) st in
  users (st_db st') = users (st_db st)
  /\ hits (st_db st')
     = hits (st_db st) ++ (if tracked_endpoint ep then [row] else [])
  /\ (forall r, In r (hits (st_db st)) -> hit_id r < hit_id row).
Proof.
  intros st' row.
  pose proof (dispatch_db environ http_get_json Image_open Image_convert cwd
                req utcnow uuid ep st) as Hdb.
  fold st' in Hdb. rewrite Hdb.
  split; [|split].
  - now destruct (tracked_endpoint ep).
  - destruct (tracked_endpoint ep); [reflexivity | now rewrite app_nil_r].
  - intros r Hin.
    pose proof (recorded_row_fields http_get_json req utcnow
                  (endpoint_doc_ref ep) st) as (Hid & _).
    fold row in Hid. rewrite Hid. now apply next_rowid_above.
Qed.

(** X7. Over any run of requests, from a table whose ids grow with
    insertion, the ids still grow with insertion (so no id is used twice),
    the rows that were there stay a prefix, and the rows added are one per
    tracking redirect or tracked PDF download of the run, in the order of
    the requests and under their references. *)
Theorem runs_keep_ids_increasing
    (environ : gmap string string) (http_get_json : string -> json_answer)
    (Image_open : string -> outcome Image)
    (Image_convert : Image -> string -> outcome Image) (cwd : list string)
    (calls : list call) (st : State) :
  ids_increasing (hits (st_db st)) ->
  exists new,
    hits (st_db (serve_all environ http_get_json Image_open Image_convert cwd
                   calls st))
    = hits (st_db st) ++ new
    /\ ids_increasing (hits (st_db st) ++ new)
    /\ map hit_doc_ref new
       = map endpoint_doc_ref
           (List.filter tracked_endpoint (map call_endpoint calls)).
Proof.
  intros Hinc.
  destruct (serve_all_hits environ http_get_json Image_open Image_convert cwd
              calls st) as (new & Hhits & Hrefs & Hkeep & _ & _).
  exists new. auto.
Qed.

Lemma runs_keep_ids_increasing_witness :
  exists new,
    hits (st_db (serve_all ex_environ ex_net_up ex_open_ok ex_convert ex_cwd
                   ex_calls ex_state))
    = hits (st_db ex_state) ++ new
    /\ ids_increasing (hits (st_db ex_state) ++ new)
    /\ map hit_doc_ref new
       = map endpoint_doc_ref
           (List.filter tracked_endpoint (map call_endpoint ex_calls)).
Proof.
  apply (runs_keep_ids_increasing ex_environ ex_net_up ex_open_ok ex_convert
           ex_cwd ex_calls ex_state).
  constructor.
Defined.

(** X8. No view stores a viewer identity: a session without ["user_id"]
    stays without it through any request, and every hit recorded during a
    run that starts from such a session carries the identity "anonymous". *)
Theorem hits_are_anonymous
    (environ : gmap string string) (http_get_json : string -> json_answer)
    (Image_open : string -> outcome Image)
    (Image_convert : Image -> string -> outcome Image) (cwd : list string)
    (calls : list call) (st : State) :
  st_session st !! "user_id" = None ->
  (forall req utcnow uuid ep,
     st_session (snd (dispatch_request environ http_get_json Image_open
                        Image_convert cwd req utcnow uuid ep st))
     !! "user_id" = None)
  /\ exists new,
       hits (st_db (serve_all environ http_get_json Image_open Image_convert
                      cwd calls st))
       = hits (st_db st) ++ new
       /\ Forall (fun r => hit_user_id r = PStr "anonymous") new.
Proof.
  intros Hnone. split.
  - intros. now apply dispatch_user_id.
  - destruct (serve_all_hits environ http_get_json Image_open Image_convert
                cwd calls st) as (new & Hhits & _ & _ & Hanon & _).
    exists new. auto.
Qed.

Lemma hits_are_anonymous_witness :
  (forall req utcnow uuid ep,
     st_session (snd (dispatch_request ex_environ ex_net_up ex_open_ok
                        ex_convert ex_cwd req utcnow uuid ep ex_state))
     !! "user_id" = None)
  /\ exists new,
       hits (st_db (serve_all ex_environ ex_net_up ex_open_ok ex_convert
                      ex_cwd ex_calls ex_state))
       = hits (st_db ex_state) ++ new
       /\ Forall (fun r => hit_user_id r = PStr "anonymous") new.
Proof.
  apply (hits_are_anonymous ex_environ ex_net_up ex_open_ok ex_convert ex_cwd
           ex_calls ex_state).
  vm_compute. reflexivity.
Defined.



(** X10. The session changes only in [/login] and [/logout]: every other
    view leaves it as it is, [/logout] empties it, and [/login] changes it
    only on a POST with the configured password, by setting the admin
    flag. *)
Theorem session_changes_only_in_login_logout
    (environ : gmap string string) (http_get_json : string -> json_answer)
    (Image_open : string -> outcome Image)
    (Image_convert : Image -> string -> outcome Image) (cwd : list string)
    (req : Request) (utcnow uuid : string) (ep : endpoint) (st : State) :
  let st' := snd (dispatch_request environ http_get_json Image_open
                    Image_convert cwd req utcnow uuid ep st) in
  st_session st' = st_session st
  \/ (ep = ep_logout /\ st_session st' = ∅)
  \/ (ep = ep_login /\ req_method req = "POST"
      /\ default "" (assoc_get "password" (req_form req)) = ADMIN_PASS environ
      /\ st_session st' = <["admin" := PBool true]> (st_session st)).
Proof.
  intros st'. destruct (changes_session ep) eqn:Hc.
  - destruct ep; try discriminate.
    + destruct (login_session environ req st) as [H | H]; [now left|].
      right. right. split; [reflexivity | exact H].
    + right. left. split; reflexivity.
  - left. now apply dispatch_session.
Qed.

(** ** Serving a file by name *)

Lemma split_on_nonempty c s : split_on c s <> [].
Proof.
  destruct s as [|a s]; simpl; [discriminate|].
  destruct (Ascii.eqb a c); [discriminate|].
  destruct (split_on c s); discriminate.
Qed.

Lemma split_on_app c s1 s2 :
  split_on c (s1 +:+ String c s2) = split_on c s1 ++ split_on c s2.
Proof.
  induction s1 as [|a s1 IH].
  - simpl. now rewrite Ascii.eqb_refl.
  - change (String a s1 +:+ String c s2) with (String a (s1 +:+ String c s2)).
    simpl. destruct (Ascii.eqb a c); [now rewrite IH|].
    rewrite IH. pose proof (split_on_nonempty c s1) as Hne.
    destruct (split_on c s1) as [|h t]; [contradiction | reflexivity].
Qed.

Lemma last_item_app l1 l2 : l2 <> [] -> last_item (l1 ++ l2) = last_item l2.
Proof.
  intros Hne. unfold last_item. induction l1 as [|x l1 IH]; [reflexivity|].
  simpl. destruct (l1 ++ l2) eqn:E; [|exact IH].
  apply app_eq_nil in E as [_ E]. contradiction.
Qed.

Lemma lower_app s1 s2 : lower (s1 +:+ s2) = lower s1 +:+ lower s2.
Proof.
  induction s1 as [|a s1 IH]; [reflexivity|].
  change (lower (String a (s1 +:+ s2))
          = String (lower_ascii a) (lower s1 +:+ lower s2)).
  simpl. now rewrite IH.
Qed.

Lemma lower_ascii_dot a : Ascii.eqb (lower_ascii a) "." = Ascii.eqb a ".".
Proof. destruct a as [[] [] [] [] [] [] [] []]; reflexivity. Qed.

Lemma has_dot_lower s : has_char "." (lower s) = has_char "." s.
Proof.
  induction s as [|a s IH]; simpl; [reflexivity|].
  now rewrite lower_ascii_dot, IH.
Qed.

(** The extension [download_generated] looks up: what follows the last dot,
    in lower case. *)
Lemma extension_of stem ext :
  has_char "." ext = false ->
  last_item (split_on "." (lower (stem +:+ "." +:+ ext))) = lower ext.
Proof.
  intros Hext. rewrite lower_app.
  change (lower ("." +:+ ext)) with (String "." (lower ext)).
  rewrite split_on_app, last_item_app by apply split_on_nonempty.
  rewrite split_on_whole by now rewrite has_dot_lower. reflexivity.
Qed.

Section Serving.

Variable cwd : list string.

Lemma download_generated_found name st loc c :
  stat (st_fs st) cwd (path_join OUTDIR name) = Some (loc, File c) ->
  download_generated cwd name st
  = (Ok (SendFile (path_join OUTDIR name) c true name
           (default "application/octet-stream"
              (assoc_get (last_item (split_on "." (lower name))) mime_map))),
     add_event (add_event st (EvExists (path_join OUTDIR name)))
       (EvOpen (path_join OUTDIR name))).
Proof using Type.
  intros Hstat. unfold download_generated.
  erewrite bind_ok by apply os_path_exists_run.
  rewrite Hstat, bool_decide_eq_true_2 by eauto. cbn [negb].
  rewrite send_file_run. cbn [add_event st_fs]. now rewrite Hstat.
Qed.

Lemma download_generated_missing name st :
  stat (st_fs st) cwd (path_join OUTDIR name) = None ->
  download_generated cwd name st
  = (Ok (Text "Not found" 404),
     add_event st (EvExists (path_join OUTDIR name))).
Proof using Type.
  intros Hstat. unfold download_generated.
  erewrite bind_ok by apply os_path_exists_run.
  rewrite Hstat, bool_decide_eq_false_2 by (intros [? ?]; discriminate).
  reflexivity.
Qed.

End Serving.

(** X11. For a name that does not exist in the output directory,
    [download_generated] answers "Not found" with status 404 after the
    existence check alone: nothing is opened, nothing is recorded. *)
Theorem download_generated_unknown_name_is_404
    (cwd : list string) (name : string) (st : State) :
  stat (st_fs st) cwd (path_join OUTDIR name) = None ->
  download_generated cwd name st
  = (Ok (Text "Not found" 404),
     add_event st (EvExists (path_join OUTDIR name))).
Proof. apply download_generated_missing. Qed.

Lemma download_generated_unknown_name_is_404_witness :
  download_generated ex_cwd "document_never.png" ex_state
  = (Ok (Text "Not found" 404),
     add_event ex_state (EvExists (path_join OUTDIR "document_never.png"))).
Proof.
  apply (download_generated_unknown_name_is_404 ex_cwd "document_never.png"
           ex_state).
  vm_compute. reflexivity.
Defined.

(** X12. A file that exists under [stem.ext] is sent as an attachment under
    its own name, with the content type of [ext] taken without regard to
    case: image/svg+xml, image/png or application/pdf for svg, png and pdf,
    application/octet-stream for anything else.  For a name without a dot
    the whole name counts as the extension. *)
Theorem download_generated_content_type
    (cwd : list string) (stem ext : string) (st : State)
    (loc : list string) (c : content) :
  let name := stem +:+ "." +:+ ext in
  stat (st_fs st) cwd (path_join OUTDIR name) = Some (loc, File c) ->
  has_char "." ext = false ->
  fst (download_generated cwd name st)
  = Ok (SendFile (path_join OUTDIR name) c true name
          (if String.eqb (lower ext) "svg" then "image/svg+xml"
           else if String.eqb (lower ext) "png" then "image/png"
           else if String.eqb (lower ext) "pdf" then "application/pdf"
           else "application/octet-stream"))
  /\ (forall bare loc' c',
        has_char "." bare = false ->
        stat (st_fs st) cwd (path_join OUTDIR bare) = Some (loc', File c') ->
        fst (download_generated cwd bare st)
        = Ok (SendFile (path_join OUTDIR bare) c' true bare
                (default "application/octet-stream"
                   (assoc_get (lower bare) mime_map)))).
Proof.
  intros name Hstat Hext. split.
  - rewrite (download_generated_found cwd name st loc c Hstat).
    unfold name. rewrite (extension_of stem ext Hext). cbn [fst].
    unfold mime_map. cbn [assoc_get].
    rewrite (String.eqb_sym "svg"), (String.eqb_sym "png"),
      (String.eqb_sym "pdf").
    destruct (String.eqb (lower ext) "svg"); [reflexivity|].
    destruct (String.eqb (lower ext) "png"); [reflexivity|].
    destruct (String.eqb (lower ext) "pdf"); reflexivity.
  - intros bare loc' c' Hbare Hstat'.
    rewrite (download_generated_found cwd bare st loc' c' Hstat').
    rewrite split_on_whole by now rewrite has_dot_lower. reflexivity.
Qed.

Lemma download_generated_content_type_witness :
  fst (download_generated ex_cwd ("Report.Final" +:+ "." +:+ "PNG")
         ex_state_names)
  = Ok (SendFile (path_join OUTDIR ("Report.Final" +:+ "." +:+ "PNG"))
          (PngFile ex_image) true ("Report.Final" +:+ "." +:+ "PNG")
          (if String.eqb (lower "PNG") "svg" then "image/svg+xml"
           else if String.eqb (lower "PNG") "png" then "image/png"
           else if String.eqb (lower "PNG") "pdf" then "application/pdf"
           else "application/octet-stream"))
  /\ (forall bare loc' c',
        has_char "." bare = false ->
        stat (st_fs ex_state_names) ex_cwd (path_join OUTDIR bare)
        = Some (loc', File c') ->
        fst (download_generated ex_cwd bare ex_state_names)
        = Ok (SendFile (path_join OUTDIR bare) c' true bare
                (default "application/octet-stream"
                   (assoc_get (lower bare) mime_map)))).
Proof.
  apply (download_generated_content_type ex_cwd "Report.Final" "PNG"
           ex_state_names
           ["srv"; "app"; "generated"; "Report.Final.PNG"] (PngFile ex_image)).
  - vm_compute. reflexivity.
  - reflexivity.
Defined.

Example content_types_by_name :
  map (fun name =>
         match fst (download_generated ex_cwd name ex_state_names) with
         | Ok (SendFile _ _ _ _ mimetype) => mimetype
         | _ => ""
         end)
      ["Report.Final.PNG"; "pdf"; "notes.txt"]
  = ["image/png"; "application/pdf"; "application/octet-stream"].
Proof. vm_compute. reflexivity. Qed.

(** X13. The confinement of downloads to the output directory is the
    router's doing, not the view's: no request path gives
    [download_generated] a name that starts with a slash, and the view
    itself, given such a name, joins it to nothing and serves the file at
    that absolute path. *)
Theorem download_generated_trusts_its_name
    (cwd : list string) (name : string) (st : State)
    (loc : list string) (c : content) :
  starts_with_slash name = true ->
  stat (st_fs st) cwd name = Some (loc, File c) ->
  (exists mimetype,
     fst (download_generated cwd name st)
     = Ok (SendFile name c true name mimetype))
  /\ (forall path_info, route_download_generated path_info <> Some name).
Proof.
  intros Habs Hstat. split.
  - assert (Hjoin : path_join OUTDIR name = name)
      by (unfold path_join; now rewrite Habs).
    rewrite <- Hjoin in Hstat.
    rewrite (download_generated_found cwd name st loc c Hstat), Hjoin.
    eexists. reflexivity.
  - intros path_info Hroute. apply route_download_generated_arg in Hroute.
    apply string_converter_plain in Hroute as (_ & _ & Hrel). congruence.
Qed.

Lemma download_generated_trusts_its_name_witness :
  (exists mimetype,
     fst (download_generated ex_cwd "/srv/app/app.py" ex_state)
     = Ok (SendFile "/srv/app/app.py" (Bytes "import os") true
             "/srv/app/app.py" mimetype))
  /\ (forall path_info,
        route_download_generated path_info <> Some "/srv/app/app.py").
Proof.
  apply (download_generated_trusts_its_name ex_cwd "/srv/app/app.py" ex_state
           ["srv"; "app"; "app.py"] (Bytes "import os")).
  - reflexivity.
  - vm_compute. reflexivity.
Defined.

(** ** The address of the requester *)

Lemma has_char_lstrip c s :
  has_char c s = false -> has_char c (lstrip s) = false.
Proof.
  induction s as [|a s IH]; simpl; [auto|].
  intros H. apply orb_false_iff in H as [Ha Hs].
  destruct (is_space a); [now apply IH|]. simpl. now rewrite Ha, Hs.
Qed.

Lemma has_char_rstrip c s :
  has_char c s = false -> has_char c (rstrip s) = false.
Proof.
  induction s as [|a s IH]; simpl; [auto|].
  intros H. apply orb_false_iff in H as [Ha Hs]. specialize (IH Hs).
  destruct (rstrip s) as [|b r].
  - destruct (is_space a); simpl; [reflexivity | now rewrite Ha].
  - simpl in *. now rewrite Ha, IH.
Qed.

Lemma rstrip_idempotent s : rstrip (rstrip s) = rstrip s.
Proof.
  induction s as [|a s IH]; simpl; [reflexivity|].
  destruct (rstrip s) as [|b r] eqn:E.
  - destruct (is_space a) eqn:Ha; simpl; [reflexivity | now rewrite Ha].
  - change (rstrip (String a (String b r)))
      with (match rstrip (String b r) with
            | EmptyString =>
                if is_space a then EmptyString else String a EmptyString
            | r' => String a r'
            end).
    now rewrite IH.
Qed.

Lemma lstrip_head s :
  match lstrip s with
  | String a _ => is_space a = false
  | EmptyString => True
  end.
Proof.
  induction s as [|a s IH]; simpl; [exact I|].
  destruct (is_space a) eqn:Ha; [exact IH | exact Ha].
Qed.

Lemma rstrip_head s :
  match s with
  | String a _ => is_space a = false
  | EmptyString => True
  end ->
  lstrip (rstrip s) = rstrip s.
Proof.
  destruct s as [|a s]; [reflexivity|]. intros Ha. simpl.
  destruct (rstrip s); rewrite ?Ha; simpl; now rewrite Ha.
Qed.

Lemma strip_idempotent s : strip (strip s) = strip s.
Proof.
  unfold strip. rewrite (rstrip_head (lstrip s)) by apply lstrip_head.
  apply rstrip_idempotent.
Qed.

Lemma first_item_no_sep c s : has_char c (first_item (split_on c s)) = false.
Proof.
  apply (split_on_segments c s). unfold first_item.
  pose proof (split_on_nonempty c s).
  destruct (split_on c s); [contradiction | now left].
Qed.

Lemma first_item_split_app c hop rest :
  has_char c hop = false ->
  first_item (split_on c (hop +:+ String c rest)) = hop.
Proof. intros H. now rewrite split_on_app_sep. Qed.

(** X14. The address a hit is recorded and located under is the first entry
    of the X-Forwarded-For header when the header is there, the address of
    the peer when it is not, without the white space around it: it holds no
    comma and stripping it again changes nothing. *)
Theorem client_ip_is_first_forwarded_entry (req : Request) :
  has_char "," (client_ip req) = false
  /\ strip (client_ip req) = client_ip req
  /\ (forall hop rest,
        req_x_forwarded_for req = Some (hop +:+ "," +:+ rest) ->
        has_char "," hop = false ->
        client_ip req = strip hop)
  /\ (forall hop,
        req_x_forwarded_for req = Some hop -> has_char "," hop = false ->
        client_ip req = strip hop)
  /\ (req_x_forwarded_for req = None ->
      has_char "," (req_remote_addr req) = false ->
      client_ip req = strip (req_remote_addr req)).
Proof.
  unfold client_ip. split; [|split; [|split; [|split]]].
  - unfold strip. apply has_char_rstrip, has_char_lstrip, first_item_no_sep.
  - apply strip_idempotent.
  - intros hop rest -> Hhop. cbn [default from_option id].
    change (hop +:+ "," +:+ rest) with (hop +:+ String "," rest).
    now rewrite first_item_split_app.
  - intros hop -> Hhop. cbn [default from_option id].
    now rewrite split_on_whole.
  - intros -> Hpeer. cbn [default from_option id]. now rewrite split_on_whole.
Qed.

Example client_ip_examples :
  map (fun xff =>
         client_ip {| req_method := "GET"; req_x_forwarded_for := xff;
                      req_user_agent := None; req_remote_addr := " 10.0.0.9 ";
                      req_form := []; req_files := [];
                      req_origin := "http://tracker.example" |})
      [None; Some "198.51.100.4"; Some "  198.51.100.4 ,10.0.0.1";
       Some ",10.0.0.1"; Some ""]
  = ["10.0.0.9"; "198.51.100.4"; "198.51.100.4"; ""; ""].
Proof. vm_compute. reflexivity. Qed.

(** ** The Geolocation Resolver, further *)

(** X15. [geo_ip] never raises, whatever the lookup does, and makes exactly
    one request, to the lookup URL of the address; it touches neither the
    session nor the store nor the files.  When the answer is an object whose
    status is "success" it returns the answer's lat, lon, city, regionName
    and country, with [None] for a field the answer lacks. *)
Theorem geo_ip_returns_after_one_lookup
    (http_get_json : string -> json_answer) (ip : string) (st : State) :
  exists g,
    geo_ip http_get_json ip st = (Ok g, add_event st (EvHttpGet (geo_url ip)))
    /\ (forall fields,
          http_get_json (geo_url ip) = JsonObject fields ->
          assoc_get "status" fields = Some (PStr "success") ->
          g = (default PNone (assoc_get "lat" fields),
               default PNone (assoc_get "lon" fields),
               default PNone (assoc_get "city" fields),
               default PNone (assoc_get "regionName" fields),
               default PNone (assoc_get "country" fields))).
Proof.
  exists (geo_of (http_get_json (geo_url ip))).
  split; [apply geo_ip_run|].
  intros fields -> Hst. unfold geo_of, dict_get. now rewrite Hst.
Qed.

Example geo_ip_partial_answer :
  fst (geo_ip (fun _ => JsonObject [("status", PStr "success");
                                    ("country", PStr "France")])
         "203.0.113.7" ex_state)
  = Ok (PNone, PNone, PNone, PNone, PStr "France").
Proof. vm_compute. reflexivity. Qed.

(** ** The PDF helper, further *)



(** X18. The helper reads the image before it writes anything: when the
    image path does not lead to an image file it raises, and no PDF is
    written. *)
Theorem pdf_helper_needs_the_image
    (cwd : list string) (image_path pdf_path : string)
    (page_size : float * float) (url : option string) (st : State) :
  (forall loc img,
     stat (st_fs st) cwd image_path <> Some (loc, File (PngFile img))) ->
  exists e,
    create_pdf_with_clickable_image cwd image_path pdf_path page_size url st
    = (Raise e, add_event st (EvOpen image_path)).
Proof.
  intros Hno. destruct page_size as [width height].
  unfold create_pdf_with_clickable_image.
  unfold bind at 1. unfold ImageReader, bind, get_state, log_event, ret, raise.
  cbn [st_fs].
  destruct (stat (st_fs st) cwd image_path) as [[loc [[d|img|pages|db]|es]]|]
    eqn:Hstat; try (eexists; reflexivity).
  exfalso. now apply (Hno loc img).
Qed.

Lemma pdf_helper_needs_the_image_witness :
  exists e,
    create_pdf_with_clickable_image ex_cwd "generated/document_gone.png"
      "generated/out.pdf" letter None ex_state
    = (Raise e, add_event ex_state (EvOpen "generated/document_gone.png")).
Proof.
  apply (pdf_helper_needs_the_image ex_cwd "generated/document_gone.png"
           "generated/out.pdf" letter None ex_state).
  intros loc img. vm_compute. discriminate.
Defined.

(** ** The Document Generator, further *)

Lemma url_quote_app s1 s2 :
  url_quote (s1 +:+ s2) = url_quote s1 +:+ url_quote s2.
Proof.
  induction s1 as [|a s1 IH]; [reflexivity|].
  change (url_quote (String a (s1 +:+ s2))
          = url_quote (String a s1) +:+ url_quote s2).
  simpl. destruct (url_safe a); rewrite IH; reflexivity.
Qed.

Lemma url_quote_png_name d :
  shortuuid_value d = true -> url_quote (png_name d) = png_name d.
Proof.
  intros Hd. unfold png_name.
  now rewrite !url_quote_app, (url_quote_shortuuid _ Hd).
Qed.

Lemma url_quote_pdf_name d :
  shortuuid_value d = true -> url_quote (pdf_name d) = pdf_name d.
Proof.
  intros Hd. unfold pdf_name.
  now rewrite !url_quote_app, (url_quote_shortuuid _ Hd).
Qed.

Lemma no_dot_shortuuid s : shortuuid_value s = true -> has_char "." s = false.
Proof.
  unfold shortuuid_value. induction s as [|a s IH]; simpl; [reflexivity|].
  intros H. apply andb_prop in H as [Ha Hs]. rewrite (IH Hs).
  destruct a as [[] [] [] [] [] [] [] []]; try discriminate Ha; reflexivity.
Qed.

Lemma take_chars_nonempty n s : s <> "" -> take_chars (S n) s <> "".
Proof. destruct s; [contradiction | discriminate]. Qed.

Lemma route_download_generated_built name :
  string_converter name = true ->
  route_download_generated ("/download_generated/" +:+ name) = Some name.
Proof.
  intros Hconv. unfold route_download_generated.
  pose proof (string_converter_plain _ Hconv) as (_ & Hsl & _).
  change ("/download_generated/" +:+ name)
    with ("" +:+ String "/" ("download_generated" +:+ String "/" name)).
  rewrite split_on_app_sep by reflexivity.
  rewrite split_on_app_sep by reflexivity.
  rewrite (split_on_whole _ _ Hsl). now rewrite Hconv.
Qed.

Lemma route_dl_pdf_of_download name :
  has_char "/" name = false ->
  route_dl_pdf ("/download_generated/" +:+ name) = None.
Proof.
  intros Hsl. unfold route_dl_pdf.
  change ("/download_generated/" +:+ name)
    with ("" +:+ String "/" ("download_generated" +:+ String "/" name)).
  rewrite split_on_app_sep by reflexivity.
  rewrite split_on_app_sep by reflexivity.
  now rewrite (split_on_whole _ _ Hsl).
Qed.

Lemma route_dl_pdf_built doc_ref pdfname :
  string_converter doc_ref = true -> string_converter pdfname = true ->
  route_dl_pdf ("/dl_pdf/" +:+ doc_ref +:+ "/" +:+ pdfname)
  = Some (doc_ref, pdfname).
Proof.
  intros Hd Hp. unfold route_dl_pdf.
  pose proof (string_converter_plain _ Hd) as (_ & Hsd & _).
  pose proof (string_converter_plain _ Hp) as (_ & Hsp & _).
  change ("/dl_pdf/" +:+ doc_ref +:+ "/" +:+ pdfname)
    with ("" +:+ String "/" ("dl_pdf" +:+ String "/"
            (doc_ref +:+ String "/" pdfname))).
  rewrite split_on_app_sep by reflexivity.
  rewrite split_on_app_sep by reflexivity.
  rewrite (split_on_app_sep _ _ _ Hsd), (split_on_whole _ _ Hsp).
  now rewrite Hd, Hp.
Qed.

Section MakeFull.

Variable http_get_json : string -> json_answer.
Variable Image_open : string -> outcome Image.
Variable Image_convert : Image -> string -> outcome Image.
Variable cwd : list string.

(** The whole of a successful generation: answer, effects in order, files. *)
Lemma make_success_full req uuid st img es :
  truthy (default PNone (st_session st !! "admin")) = true ->
  req_method req = "POST" ->
  shortuuid_value uuid = true ->
  base_image_of Image_open Image_convert req = Ok img ->
  im_width img <> 0 -> im_height img <> 0 ->
  lookup_node (st_fs st) (cwd ++ ["generated"]) = Some (Dir es) ->
  not_dir (find_entry (png_name (take_chars 8 uuid)) es) = true ->
  not_dir (find_entry (pdf_name (take_chars 8 uuid)) es) = true ->
  let doc_ref := take_chars 8 uuid in
  let png := png_name doc_ref in
  let pdf := pdf_name doc_ref in
  let origin := req_origin req in
  let page := clickable_page letter img
                (Some (origin +:+ "/click/" +:+ doc_ref)) in
  exists st',
    make Image_open Image_convert cwd req uuid st
    = (Ok (RenderTemplate "made_file.html"
             [("doc_ref", TStr doc_ref);
              ("file_url", TStr (origin +:+ "/download_generated/" +:+ png));
              ("file_kind", TStr "PNG");
              ("pdf_url", TStr (origin +:+ "/download_generated/" +:+ pdf));
              ("dl_pdf_url",
               TStr (origin +:+ "/dl_pdf/" +:+ doc_ref +:+ "/" +:+ pdf))]),
       st')
    /\ st_trace st'
       = st_trace st
         ++ [EvWrite ("generated/" +:+ png) (PngFile img);
             EvOpen ("generated/" +:+ png);
             EvWrite ("generated/" +:+ pdf) (PdfFile [page])]
    /\ lookup_node (st_fs st') (cwd ++ ["generated"])
       = Some (Dir (set_entry pdf (File (PdfFile [page]))
                      (set_entry png (File (PngFile img)) es)))
    /\ st_session st' = st_session st /\ st_db st' = st_db st
    /\ st_flashes st' = st_flashes st.
Proof using Type.
  intros Hadm Hpost Huuid Himg Hw Hh Hout Hpng Hpdf doc_ref png pdf origin
    page.
  assert (Hd : shortuuid_value doc_ref = true) by now apply shortuuid_take.
  pose proof (no_slash_shortuuid _ Hd) as Hsl.
  pose proof (plain_png_name _ Hsl) as Hppng.
  pose proof (plain_pdf_name _ Hsl) as Hppdf.
  rewrite make_generates by assumption. cbv zeta. fold doc_ref.
  unfold bind at 1. unfold lift. rewrite Himg.
  rewrite !path_join_outdir by reflexivity.
  destruct (write_outdir cwd (st_fs st) es Hout (png_name doc_ref)
              (PngFile img) Hppng Hpng) as (root1 & Hw1 & Hout1).
  erewrite bind_ok by (rewrite save_file_run, Hw1; reflexivity).
  set (st1 := with_fs (add_event st _) root1).
  assert (Hstat1 : stat (st_fs st1) cwd ("generated/" +:+ png_name doc_ref)
                   = Some (cwd ++ ["generated"; png_name doc_ref],
                           File (PngFile img))).
  { change (st_fs st1) with root1.
    rewrite (stat_outdir cwd root1 _ Hout1 _ Hppng).
    now rewrite find_entry_set_entry_eq. }
  assert (Hpdf1 : not_dir (find_entry (pdf_name doc_ref)
                    (set_entry (png_name doc_ref) (File (PngFile img)) es))
                  = true).
  { rewrite find_entry_set_entry_ne by apply png_name_ne_pdf_name.
    exact Hpdf. }
  unfold url_for, url_path.
  rewrite (url_quote_shortuuid _ Hd), (url_quote_png_name _ Hd),
    (url_quote_pdf_name _ Hd).
  fold origin. fold page.
  destruct (write_outdir cwd root1 _ Hout1 (pdf_name doc_ref)
              (PdfFile [page]) Hppdf Hpdf1) as (root2 & Hw2 & Hout2).
  erewrite bind_ok.
  2:{ rewrite (create_pdf_run cwd _ _ letter _ st1 _ img Hstat1 Hw Hh).
      rewrite save_file_run. cbn [add_event st_fs].
      change (st_fs st1) with root1. fold page. rewrite Hw2. reflexivity. }
  eexists. split; [reflexivity|]. split.
  { cbn [with_fs add_event st_trace]. subst st1.
    cbn [with_fs add_event st_trace]. now rewrite <- !app_assoc. }
  split; [exact Hout2|]. repeat split.
Qed.

End MakeFull.

Lemma dl_pdf_found http_get_json cwd req utcnow doc_ref pdfname st loc c :
  stat (st_fs (tracked http_get_json cwd req utcnow doc_ref st)) cwd
    (path_join OUTDIR pdfname) = Some (loc, File c) ->
  dl_pdf http_get_json cwd req utcnow doc_ref pdfname st
  = (Ok (SendFile (path_join OUTDIR pdfname) c true pdfname
           "application/pdf"),
     add_event
       (add_event (tracked http_get_json cwd req utcnow doc_ref st)
          (EvExists (path_join OUTDIR pdfname)))
       (EvOpen (path_join OUTDIR pdfname))).
Proof.
  intros Hstat. rewrite dl_pdf_run.
  erewrite bind_ok by apply os_path_exists_run.
  rewrite Hstat, bool_decide_eq_true_2 by eauto. cbn [negb].
  rewrite send_file_run. cbn [add_event st_fs].
  now rewrite Hstat.
Qed.

Lemma pdf_name_ne_database d : pdf_name d <> "hits.db".
Proof.
  unfold pdf_name. intros H.
  apply (f_equal (fun s => match s with
                           | String a _ => Ascii.eqb a "h"
                           | EmptyString => true
                           end)) in H.
  cbv in H. discriminate H.
Qed.

(** The check of a tracked access finds, under every name of the output
    directory but the database's, what was there before the request. *)
Lemma tracked_stat http_get_json cwd req utcnow doc_ref st name :
  plain_name name = true -> name <> "hits.db" ->
  stat (st_fs (tracked http_get_json cwd req utcnow doc_ref st)) cwd
    (path_join OUTDIR name)
  = stat (st_fs st) cwd (path_join OUTDIR name).
Proof.
  intros Hp Hne.
  pose proof (plain_name_spec _ Hp) as (Hconv & _).
  pose proof (string_converter_plain _ Hconv) as (_ & _ & Hsl).
  rewrite (path_join_outdir _ Hsl).
  unfold tracked. cbn [st_fs with_fs]. now apply database_file_stat.
Qed.

Lemma png_name_extension d :
  png_name d = ("document_" +:+ d) +:+ "." +:+ "png".
Proof. unfold png_name. now rewrite string_app_assoc. Qed.

Lemma pdf_name_extension d :
  pdf_name d = ("document_" +:+ d) +:+ "." +:+ "pdf".
Proof. unfold pdf_name. now rewrite string_app_assoc. Qed.

(** X19. The links [make] answers with lead back to what it wrote: through
    the routes, the file link serves the PNG as image/png, the PDF link
    serves the PDF as application/pdf, and the tracked link serves the same
    PDF and records one hit under the document's reference. *)
Theorem generated_links_serve_the_artifacts
    (http_get_json : string -> json_answer)
    (Image_open : string -> outcome Image)
    (Image_convert : Image -> string -> outcome Image)
    (cwd : list string) (req : Request) (uuid : string) (st : State)
    (img : Image) (es : list (string * node)) :
  truthy (default PNone (st_session st !! "admin")) = true ->
  req_method req = "POST" ->
  shortuuid_value uuid = true -> uuid <> "" ->
  base_image_of Image_open Image_convert req = Ok img ->
  im_width img <> 0 -> im_height img <> 0 ->
  lookup_node (st_fs st) (cwd ++ [OUTDIR]) = Some (Dir es) ->
  not_dir (find_entry (png_name (take_chars 8 uuid)) es) = true ->
  not_dir (find_entry (pdf_name (take_chars 8 uuid)) es) = true ->
  let doc_ref := take_chars 8 uuid in
  let png := png_name doc_ref in
  let pdf := pdf_name doc_ref in
  let file_path := "/download_generated/" +:+ png in
  let pdf_path := "/download_generated/" +:+ pdf in
  let dl_pdf_path := "/dl_pdf/" +:+ doc_ref +:+ "/" +:+ pdf in
  exists st' body pages,
    make Image_open Image_convert cwd req uuid st
    = (Ok (RenderTemplate "made_file.html" body), st')
    /\ assoc_get "file_url" body = Some (TStr (req_origin req +:+ file_path))
    /\ assoc_get "pdf_url" body = Some (TStr (req_origin req +:+ pdf_path))
    /\ assoc_get "dl_pdf_url" body
       = Some (TStr (req_origin req +:+ dl_pdf_path))
    /\ forall req' utcnow,
         fst (serve_download http_get_json cwd req' utcnow file_path st')
         = Ok (SendFile (OUTDIR +:+ "/" +:+ png) (PngFile img) true png
                 "image/png")
         /\ fst (serve_download http_get_json cwd req' utcnow pdf_path st')
            = Ok (SendFile (OUTDIR +:+ "/" +:+ pdf) (PdfFile pages) true pdf
                    "application/pdf")
         /\ fst (serve_download http_get_json cwd req' utcnow dl_pdf_path st')
            = Ok (SendFile (OUTDIR +:+ "/" +:+ pdf) (PdfFile pages) true pdf
                    "application/pdf")
         /\ map hit_doc_ref
              (hits (st_db (snd (serve_download http_get_json cwd req' utcnow
                                   dl_pdf_path st'))))
            = map hit_doc_ref (hits (st_db st)) ++ [doc_ref].
Proof.
  intros Hadm Hpost Huuid Hne Himg Hw Hh Hout Hpng Hpdf doc_ref png pdf
    file_path pdf_path dl_pdf_path.
  assert (Hd : shortuuid_value doc_ref = true) by now apply shortuuid_take.
  pose proof (no_slash_shortuuid _ Hd) as Hsl.
  pose proof (no_dot_shortuuid _ Hd) as Hdot.
  pose proof (plain_png_name _ Hsl) as Hppng.
  pose proof (plain_pdf_name _ Hsl) as Hppdf.
  pose proof (plain_name_spec _ Hppng) as (Hcpng & _).
  pose proof (plain_name_spec _ Hppdf) as (Hcpdf & _).
  assert (Hcd : string_converter doc_ref = true).
  { unfold string_converter. rewrite Hsl.
    pose proof (take_chars_nonempty 7 uuid Hne) as Hd0.
    apply String.eqb_neq in Hd0. fold doc_ref in Hd0. now rewrite Hd0. }
  destruct (make_success_full Image_open Image_convert cwd req uuid st img es
              Hadm Hpost Huuid Himg Hw Hh Hout Hpng Hpdf)
    as (st' & Hrun & _ & Hout' & _ & Hdb & _).
  fold doc_ref in Hrun, Hout'. subst png pdf file_path pdf_path dl_pdf_path.
  set (page := clickable_page letter img
                 (Some (req_origin req +:+ "/click/" +:+ doc_ref))) in *.
  assert (Hspng : stat (st_fs st') cwd (path_join OUTDIR (png_name doc_ref))
                  = Some (cwd ++ ["generated"; png_name doc_ref],
                          File (PngFile img))).
  { rewrite path_join_outdir by reflexivity.
    rewrite (stat_outdir cwd _ _ Hout' _ Hppng).
    rewrite find_entry_set_entry_ne
      by (intros E; symmetry in E; revert E; apply png_name_ne_pdf_name).
    now rewrite find_entry_set_entry_eq. }
  assert (Hspdf : stat (st_fs st') cwd (path_join OUTDIR (pdf_name doc_ref))
                  = Some (cwd ++ ["generated"; pdf_name doc_ref],
                          File (PdfFile [page]))).
  { rewrite path_join_outdir by reflexivity.
    rewrite (stat_outdir cwd _ _ Hout' _ Hppdf).
    now rewrite find_entry_set_entry_eq. }
  assert (Htpdf : forall req' utcnow,
             stat (st_fs (tracked http_get_json cwd req' utcnow doc_ref st'))
               cwd (path_join OUTDIR (pdf_name doc_ref))
             = Some (cwd ++ ["generated"; pdf_name doc_ref],
                     File (PdfFile [page]))).
  { intros req' utcnow. rewrite <- Hspdf.
    apply tracked_stat; [exact Hppdf | apply pdf_name_ne_database]. }
  eexists st', _, [page]. split; [exact Hrun|].
  do 3 (split; [reflexivity|]).
  intros req' utcnow. split; [|split; [|split]].
  - unfold serve_download.
    rewrite (route_dl_pdf_of_download (png_name doc_ref))
      by (apply string_converter_plain in Hcpng; tauto).
    rewrite (route_download_generated_built _ Hcpng).
    rewrite (download_generated_found cwd _ st' _ _ Hspng).
    rewrite path_join_outdir by reflexivity. cbn [fst].
    rewrite png_name_extension, extension_of by reflexivity. reflexivity.
  - unfold serve_download.
    rewrite (route_dl_pdf_of_download (pdf_name doc_ref))
      by (apply string_converter_plain in Hcpdf; tauto).
    rewrite (route_download_generated_built _ Hcpdf).
    rewrite (download_generated_found cwd _ st' _ _ Hspdf).
    rewrite path_join_outdir by reflexivity. cbn [fst].
    rewrite pdf_name_extension, extension_of by reflexivity. reflexivity.
  - unfold serve_download.
    rewrite (route_dl_pdf_built doc_ref _ Hcd Hcpdf).
    rewrite (dl_pdf_found http_get_json cwd req' utcnow doc_ref _ st' _ _
               (Htpdf req' utcnow)).
    rewrite path_join_outdir by reflexivity. reflexivity.
  - unfold serve_download.
    rewrite (route_dl_pdf_built doc_ref _ Hcd Hcpdf).
    rewrite dl_pdf_db. cbn [sql_insert_hit hits]. rewrite Hdb, map_app.
    f_equal. cbn [map].
    pose proof (recorded_row_fields http_get_json req' utcnow doc_ref st')
      as (_ & Href & _).
    unfold recorded_row in Href. cbn [row_of hit_doc_ref] in *.
    now rewrite Href.
Qed.

Lemma generated_links_serve_the_artifacts_witness :
  let doc_ref := take_chars 8 "Zk4mQ7xTw9pB" in
  let png := png_name doc_ref in
  let pdf := pdf_name doc_ref in
  let file_path := "/download_generated/" +:+ png in
  let pdf_path := "/download_generated/" +:+ pdf in
  let dl_pdf_path := "/dl_pdf/" +:+ doc_ref +:+ "/" +:+ pdf in
  exists st' body pages,
    make ex_open_ok ex_convert ex_cwd ex_make_upload "Zk4mQ7xTw9pB"
      ex_admin_state
    = (Ok (RenderTemplate "made_file.html" body), st')
    /\ assoc_get "file_url" body
       = Some (TStr (req_origin ex_make_upload +:+ file_path))
    /\ assoc_get "pdf_url" body
       = Some (TStr (req_origin ex_make_upload +:+ pdf_path))
    /\ assoc_get "dl_pdf_url" body
       = Some (TStr (req_origin ex_make_upload +:+ dl_pdf_path))
    /\ forall req' utcnow,
         fst (serve_download ex_net_up ex_cwd req' utcnow file_path st')
         = Ok (SendFile (OUTDIR +:+ "/" +:+ png) (PngFile ex_image) true png
                 "image/png")
         /\ fst (serve_download ex_net_up ex_cwd req' utcnow pdf_path st')
            = Ok (SendFile (OUTDIR +:+ "/" +:+ pdf) (PdfFile pages) true pdf
                    "application/pdf")
         /\ fst (serve_download ex_net_up ex_cwd req' utcnow dl_pdf_path st')
            = Ok (SendFile (OUTDIR +:+ "/" +:+ pdf) (PdfFile pages) true pdf
                    "application/pdf")
         /\ map hit_doc_ref
              (hits (st_db (snd (serve_download ex_net_up ex_cwd req' utcnow
                                   dl_pdf_path st'))))
            = map hit_doc_ref (hits (st_db ex_admin_state)) ++ [doc_ref].
Proof.
  apply (generated_links_serve_the_artifacts ex_net_up ex_open_ok ex_convert
           ex_cwd ex_make_upload "Zk4mQ7xTw9pB" ex_admin_state ex_image
           [("hits.db", File (SqliteFile (init_db None)));
            ("document_Ab3dE9ZX.png", File (PngFile ex_image));
            ("document_Ab3dE9ZX.pdf", File (PdfFile []))]).
  - vm_compute. reflexivity.
  - reflexivity.
  - vm_compute. reflexivity.
  - discriminate.
  - vm_compute. reflexivity.
  - discriminate.
  - discriminate.
  - vm_compute. reflexivity.
  - vm_compute. reflexivity.
  - vm_compute. reflexivity.
Defined.

(** X20. A generation does its work in this order: the PNG is written under
    [document_<doc_ref>.png], with [doc_ref] the first eight characters of
    the fresh identifier, then read back, then the PDF is written under
    [document_<doc_ref>.pdf].  The PNG holds the image as decoded and
    converted, both files are in the output directory afterwards, and
    session and store are as before. *)
Theorem make_writes_png_then_pdf
    (Image_open : string -> outcome Image)
    (Image_convert : Image -> string -> outcome Image)
    (cwd : list string) (req : Request) (uuid : string) (st : State)
    (img : Image) (es : list (string * node)) :
  truthy (default PNone (st_session st !! "admin")) = true ->
  req_method req = "POST" ->
  shortuuid_value uuid = true ->
  base_image_of Image_open Image_convert req = Ok img ->
  im_width img <> 0 -> im_height img <> 0 ->
  lookup_node (st_fs st) (cwd ++ [OUTDIR]) = Some (Dir es) ->
  not_dir (find_entry (png_name (take_chars 8 uuid)) es) = true ->
  not_dir (find_entry (pdf_name (take_chars 8 uuid)) es) = true ->
  let doc_ref := take_chars 8 uuid in
  let png_path := path_join OUTDIR (png_name doc_ref) in
  let pdf_path := path_join OUTDIR (pdf_name doc_ref) in
  exists st' body pages,
    make Image_open Image_convert cwd req uuid st
    = (Ok (RenderTemplate "made_file.html" body), st')
    /\ assoc_get "doc_ref" body = Some (TStr doc_ref)
    /\ (String.length doc_ref <= 8)%nat
    /\ st_trace st'
       = st_trace st
         ++ [EvWrite png_path (PngFile img); EvOpen png_path;
             EvWrite pdf_path (PdfFile pages)]
    /\ stat (st_fs st') cwd png_path
       = Some (cwd ++ [OUTDIR; png_name doc_ref], File (PngFile img))
    /\ stat (st_fs st') cwd pdf_path
       = Some (cwd ++ [OUTDIR; pdf_name doc_ref], File (PdfFile pages))
    /\ st_session st' = st_session st /\ st_db st' = st_db st.
Proof.
  intros Hadm Hpost Huuid Himg Hw Hh Hout Hpng Hpdf doc_ref png_path pdf_path.
  assert (Hd : shortuuid_value doc_ref = true) by now apply shortuuid_take.
  pose proof (no_slash_shortuuid _ Hd) as Hsl.
  pose proof (plain_png_name _ Hsl) as Hppng.
  pose proof (plain_pdf_name _ Hsl) as Hppdf.
  destruct (make_success_full Image_open Image_convert cwd req uuid st img es
              Hadm Hpost Huuid Himg Hw Hh Hout Hpng Hpdf)
    as (st' & Hrun & Htrace & Hout' & Hsess & Hdb & _).
  fold doc_ref in Hrun, Hout', Htrace. subst png_path pdf_path.
  rewrite !path_join_outdir by reflexivity.
  eexists st', _, _. split; [exact Hrun|]. split; [reflexivity|].
  split.
  { unfold doc_ref. clear. generalize 8%nat as n. revert uuid.
    induction uuid as [|a s IH]; intros [|n]; simpl; try lia.
    specialize (IH n). lia. }
  split; [exact Htrace|]. split; [|split; [|split; assumption]].
  - rewrite (stat_outdir cwd _ _ Hout' _ Hppng).
    rewrite find_entry_set_entry_ne
      by (intros E; symmetry in E; revert E; apply png_name_ne_pdf_name).
    now rewrite find_entry_set_entry_eq.
  - rewrite (stat_outdir cwd _ _ Hout' _ Hppdf).
    now rewrite find_entry_set_entry_eq.
Qed.

Lemma make_writes_png_then_pdf_witness :
  let doc_ref := take_chars 8 "Zk4mQ7xTw9pB" in
  let png_path := path_join OUTDIR (png_name doc_ref) in
  let pdf_path := path_join OUTDIR (pdf_name doc_ref) in
  exists st' body pages,
    make ex_open_ok ex_convert ex_cwd ex_make_upload "Zk4mQ7xTw9pB"
      ex_admin_state
    = (Ok (RenderTemplate "made_file.html" body), st')
    /\ assoc_get "doc_ref" body = Some (TStr doc_ref)
    /\ (String.length doc_ref <= 8)%nat
    /\ st_trace st'
       = st_trace ex_admin_state
         ++ [EvWrite png_path (PngFile ex_image); EvOpen png_path;
             EvWrite pdf_path (PdfFile pages)]
    /\ stat (st_fs st') ex_cwd png_path
       = Some (ex_cwd ++ [OUTDIR; png_name doc_ref], File (PngFile ex_image))
    /\ stat (st_fs st') ex_cwd pdf_path
       = Some (ex_cwd ++ [OUTDIR; pdf_name doc_ref], File (PdfFile pages))
    /\ st_session st' = st_session ex_admin_state
    /\ st_db st' = st_db ex_admin_state.
Proof.
  apply (make_writes_png_then_pdf ex_open_ok ex_convert ex_cwd ex_make_upload
           "Zk4mQ7xTw9pB" ex_admin_state ex_image
           [("hits.db", File (SqliteFile (init_db None)));
            ("document_Ab3dE9ZX.png", File (PngFile ex_image));
            ("document_Ab3dE9ZX.pdf", File (PdfFile []))]).
  - vm_compute. reflexivity.
  - reflexivity.
  - vm_compute. reflexivity.
  - vm_compute. reflexivity.
  - discriminate.
  - discriminate.
  - vm_compute. reflexivity.
  - vm_compute. reflexivity.
  - vm_compute. reflexivity.
Defined.

(** ** Clicks in a row *)

(** X21. Two tracking redirects served one after the other, whoever makes
    them and whatever the lookups answer, leave two rows at the end of the
    table, in the order of the requests, each under its own reference, the
    second numbered one above the first. *)
Theorem consecutive_clicks_get_consecutive_ids
    (http_get_json : string -> json_answer) (cwd : list string)
    (req1 req2 : Request) (utcnow1 utcnow2 doc_ref1 doc_ref2 : string)
    (st : State) :
  exists st' row1 row2,
    (let* _ := clickable_redirect http_get_json cwd req1 utcnow1 doc_ref1 in
     clickable_redirect http_get_json cwd req2 utcnow2 doc_ref2) st
    = (Ok (Redirect "https://your-site.com/thank-you"), st')
    /\ hits (st_db st') = hits (st_db st) ++ [row1; row2]
    /\ hit_doc_ref row1 = doc_ref1 /\ hit_doc_ref row2 = doc_ref2
    /\ hit_ip row1 = client_ip req1 /\ hit_ip row2 = client_ip req2
    /\ hit_ts row1 = utcnow1 +:+ "Z" /\ hit_ts row2 = utcnow2 +:+ "Z"
    /\ hit_id row2 = hit_id row1 + 1
    /\ (forall r, In r (hits (st_db st)) -> hit_id r < hit_id row1).
Proof.
  erewrite bind_ok by apply clickable_redirect_run.
  rewrite clickable_redirect_run.
  set (st1 := tracked http_get_json cwd req1 utcnow1 doc_ref1 st).
  pose proof (recorded_row_fields http_get_json req1 utcnow1 doc_ref1 st)
    as (Hid1 & Href1 & _ & Hip1 & _ & Hts1).
  pose proof (recorded_row_fields http_get_json req2 utcnow2 doc_ref2 st1)
    as (Hid2 & Href2 & _ & Hip2 & _ & Hts2).
  exists (tracked http_get_json cwd req2 utcnow2 doc_ref2 st1),
    (recorded_row http_get_json req1 utcnow1 doc_ref1 st),
    (recorded_row http_get_json req2 utcnow2 doc_ref2 st1).
  split; [reflexivity|]. split.
  { unfold st1, tracked.
    cbn [with_fs with_db st_db sql_insert_hit hits add_event].
    now rewrite <- app_assoc. }
  do 6 (split; [assumption|]). split.
  - rewrite Hid1, Hid2. unfold st1, tracked.
    cbn [with_fs with_db st_db add_event].
    apply next_rowid_insert.
  - intros r Hin. rewrite Hid1. now apply next_rowid_above.
Qed.

(** ** The hit log on disk *)



(** ** A generation without an upload *)

Example make_without_upload_writes_blank_canvas :
  exists st' body,
    make ex_open_bad ex_convert ex_cwd ex_make_blank "Zk4mQ7xTw9pB"
      ex_admin_state
    = (Ok (RenderTemplate "made_file.html" body), st')
    /\ stat (st_fs st') ex_cwd "generated/document_Zk4mQ7xT.png"
       = Some (ex_cwd ++ ["generated"; "document_Zk4mQ7xT.png"],
               File (PngFile blank_canvas)).
Proof.
  destruct (make_success_full ex_open_bad ex_convert ex_cwd ex_make_blank
              "Zk4mQ7xTw9pB" ex_admin_state blank_canvas
              [("hits.db", File (SqliteFile (init_db None)));
               ("document_Ab3dE9ZX.png", File (PngFile ex_image));
               ("document_Ab3dE9ZX.pdf", File (PdfFile []))])
    as (st' & Hrun & _ & Hout' & _).
  - vm_compute. reflexivity.
  - reflexivity.
  - vm_compute. reflexivity.
  - reflexivity.
  - unfold blank_canvas, Image_new. cbn [im_width fst]. discriminate.
  - unfold blank_canvas, Image_new. cbn [im_height snd]. discriminate.
  - vm_compute. reflexivity.
  - vm_compute. reflexivity.
  - vm_compute. reflexivity.
  - eexists st', _. split; [exact Hrun|].
    change "generated/document_Zk4mQ7xT.png"
      with ("generated/" +:+ png_name (take_chars 8 "Zk4mQ7xTw9pB")).
    rewrite (stat_outdir ex_cwd _ _ Hout') by reflexivity.
    rewrite find_entry_set_entry_ne by discriminate.
    now rewrite find_entry_set_entry_eq.
Qed.
